(** * Client-Management back office: accounts, account adjustment, reminders

    A shallow embedding of the business logic of the NestJS backend
    (AccountsService, ClientsService.adjustAccount, RemindersService) and
    the properties its specification states about it.

    Conventions of the embedding:
    - stored integers (INTEGER columns, amounts in NRS) are [Z]; JavaScript
      numbers that the code can make non-integral are [JsNumber.t]
      (an integer or NaN);
    - an optional DTO field or a nullable column is an [option];
    - an instant (a JavaScript Date, a TIMESTAMP column) is its local time
      value in milliseconds, a [Z]; the server zone is taken to have a
      constant offset from UTC, so comparing local time values is comparing
      instants;
    - the relational store is a record of tables (lists of rows in store
      order); Prisma's query operators are functions on those lists. *)

From Stdlib Require Import ZArith List String Bool Lia QArith Qround.
From Stdlib Require Import DecimalString.
Import ListNotations.

Open Scope Z_scope.

(* ===================================================================== *)
(** ** JavaScript values used by the services *)
(* ===================================================================== *)

Module JsNumber.

(** The numbers the services compute with: integers, and NaN, which
    arises from arithmetic on [undefined]. *)
Inductive t : Type :=
  | Int (z : Z)
  | NaN.

(** [a - b] where either operand may be [undefined]:
    ToNumber(undefined) is NaN and NaN is absorbing. *)
Definition sub_undefined (a b : option Z) : t :=
  match a, b with
  | Some x, Some y => Int (x - y)
  | _, _ => NaN
  end.

(** ToNumber(null) is +0, so [a * b] with nullable integer operands
    multiplies with [null] read as 0. *)
Definition of_nullable (a : option Z) : Z :=
  match a with
  | Some x => x
  | None => 0
  end.

Definition mul_nullable (a b : option Z) : Z :=
  of_nullable a * of_nullable b.

(** ToBoolean on a number: 0 and NaN are falsy. *)
Definition truthy (n : t) : bool :=
  match n with
  | Int z => negb (z =? 0)
  | NaN => false
  end.

(** [x || 0] for a nullable integer [x]. *)
Definition or_zero (x : option Z) : Z :=
  match x with
  | Some z => if z =? 0 then 0 else z
  | None => 0
  end.

(** Template-literal rendering of an integer. *)
Definition to_string (z : Z) : string :=
  NilZero.string_of_int (Z.to_int z).

End JsNumber.

Module JsString.

(** [s || dflt] for an optional string: [undefined] and the empty string
    are falsy. *)
Definition or_default (s : option string) (dflt : string) : string :=
  match s with
  | Some EmptyString => dflt
  | Some x => x
  | None => dflt
  end.

End JsString.

(** A JavaScript object used as a map from integer keys.  Property
    enumeration (Object.values) lists array-index keys first, in ascending
    numeric order, then the other keys in insertion order. *)
Module JsObject.

Section WithValue.
Context {V : Type}.

Record t : Type := mk {
  indices : list (Z * V);   (* keys 0 .. 2^32 - 2, ascending *)
  names : list (Z * V)      (* other keys, in insertion order *)
}.

Definition empty : t := {| indices := []; names := [] |}.

Definition isArrayIndex (k : Z) : bool :=
  (0 <=? k) && (k <=? 4294967294).

Fixpoint lookup (k : Z) (l : list (Z * V)) : option V :=
  match l with
  | [] => None
  | (k', v) :: l' => if k =? k' then Some v else lookup k l'
  end.

Definition get (k : Z) (o : t) : option V :=
  if isArrayIndex k then lookup k (indices o) else lookup k (names o).

(** Assignment into the ascending part. *)
Fixpoint put_sorted (k : Z) (v : V) (l : list (Z * V)) : list (Z * V) :=
  match l with
  | [] => [(k, v)]
  | (k', v') :: l' =>
      if k =? k' then (k, v) :: l'
      else if k <? k' then (k, v) :: (k', v') :: l'
      else (k', v') :: put_sorted k v l'
  end.

(** Assignment into the insertion-ordered part. *)
Fixpoint put_named (k : Z) (v : V) (l : list (Z * V)) : list (Z * V) :=
  match l with
  | [] => [(k, v)]
  | (k', v') :: l' =>
      if k =? k' then (k, v) :: l'
      else (k', v') :: put_named k v l'
  end.

Definition set (k : Z) (v : V) (o : t) : t :=
  if isArrayIndex k
  then {| indices := put_sorted k v (indices o); names := names o |}
  else {| indices := indices o; names := put_named k v (names o) |}.

Definition values (o : t) : list V :=
  map snd (indices o) ++ map snd (names o).

End WithValue.

Arguments t : clear implicits.

End JsObject.

(** The part of ECMAScript's Date arithmetic the services rely on
    (ECMA-262, "Time Values and Time Range" onwards), on local time values. *)
Module JsDate.

Definition msPerDay : Z := 86400000.

Definition Day (t : Z) : Z := t / msPerDay.
Definition TimeWithinDay (t : Z) : Z := t mod msPerDay.

Definition DaysInYear (y : Z) : Z :=
  if negb (y mod 4 =? 0) then 365
  else if negb (y mod 100 =? 0) then 366
  else if negb (y mod 400 =? 0) then 365
  else 366.

Definition DayFromYear (y : Z) : Z :=
  365 * (y - 1970) + (y - 1969) / 4 - (y - 1901) / 100 + (y - 1601) / 400.

Definition TimeFromYear (y : Z) : Z := msPerDay * DayFromYear y.

(** The year that contains day number [d]; the candidates bracket the
    estimate obtained from the mean length of a Gregorian year. *)
Definition yearOfDay (d : Z) : Z :=
  let e := 1970 + (400 * d) / 146097 in
  let holds y := (DayFromYear y <=? d) && (d <? DayFromYear (y + 1)) in
  match find holds [e - 2; e - 1; e; e + 1; e + 2] with
  | Some y => y
  | None => e
  end.

Definition YearFromTime (t : Z) : Z := yearOfDay (Day t).

Definition InLeapYear (t : Z) : Z :=
  if DaysInYear (YearFromTime t) =? 366 then 1 else 0.

Definition DayWithinYear (t : Z) : Z :=
  Day t - DayFromYear (YearFromTime t).

(** Day number within the year on which month [m] (0-11) starts. *)
Definition monthStart (leap m : Z) : Z :=
  match m with
  | 0 => 0
  | 1 => 31
  | 2 => 59 + leap
  | 3 => 90 + leap
  | 4 => 120 + leap
  | 5 => 151 + leap
  | 6 => 181 + leap
  | 7 => 212 + leap
  | 8 => 243 + leap
  | 9 => 273 + leap
  | 10 => 304 + leap
  | 11 => 334 + leap
  | _ => 365 + leap
  end.

Definition MonthFromTime (t : Z) : Z :=
  let d := DayWithinYear t in
  let leap := InLeapYear t in
  match find (fun m => d <? monthStart leap (m + 1))
             [0; 1; 2; 3; 4; 5; 6; 7; 8; 9; 10] with
  | Some m => m
  | None => 11
  end.

Definition DateFromTime (t : Z) : Z :=
  DayWithinYear t - monthStart (InLeapYear t) (MonthFromTime t) + 1.

(** MakeDay(year, month, date): months outside 0-11 carry into the year,
    and [date] is an offset from the first of the month, so date 0 is the
    last day of the month before. *)
Definition MakeDay (year month date : Z) : Z :=
  let ym := year + month / 12 in
  let mn := month mod 12 in
  let leap := if DaysInYear ym =? 366 then 1 else 0 in
  DayFromYear ym + monthStart leap mn + date - 1.

Definition MakeTime (hour min sec ms : Z) : Z :=
  hour * 3600000 + min * 60000 + sec * 1000 + ms.

Definition MakeDate (day time : Z) : Z := day * msPerDay + time.

(** TimeClip: a time value outside the Date range is an Invalid Date. *)
Definition TimeClip (t : Z) : option Z :=
  if Z.abs t <=? 8640000000000000 then Some t else None.

(** [new Date(year, monthIndex, date)]: a two-digit year counts from
    1900; the time of day is 00:00:00.000. *)
Definition construct (year monthIndex date : Z) : option Z :=
  let yr := if (0 <=? year) && (year <=? 99) then 1900 + year else year in
  TimeClip (MakeDate (MakeDay yr monthIndex date) (MakeTime 0 0 0 0)).

(** [d.getDate()]. *)
Definition getDate (t : Z) : Z := DateFromTime t.

(** [d.setDate(dt)], returning the new time value of [d].  The services
    apply it to readings of the server clock, which lie far inside the
    range on which TimeClip is the identity. *)
Definition setDate (t dt : Z) : Z :=
  MakeDate (MakeDay (YearFromTime t) (MonthFromTime t) dt) (TimeWithinDay t).

(** [d.getTime() - ms] and the like are plain arithmetic on [Z]. *)

End JsDate.

(* ===================================================================== *)
(** ** Ledger store: entities *)
(* ===================================================================== *)

Inductive ClientType : Type := PROSPECT | ACTIVE | INACTIVE.
Inductive StaffType : Type := MONTHLY | WORK_BASIS.
Inductive ExpenseSource : Type := STAFF_MONTHLY | STAFF_WORK_BASIS | GENERAL.

Definition ClientType_eqb (a b : ClientType) : bool :=
  match a, b with
  | PROSPECT, PROSPECT | ACTIVE, ACTIVE | INACTIVE, INACTIVE => true
  | _, _ => false
  end.

Definition StaffType_eqb (a b : StaffType) : bool :=
  match a, b with
  | MONTHLY, MONTHLY | WORK_BASIS, WORK_BASIS => true
  | _, _ => false
  end.

Definition ExpenseSource_eqb (a b : ExpenseSource) : bool :=
  match a, b with
  | STAFF_MONTHLY, STAFF_MONTHLY
  | STAFF_WORK_BASIS, STAFF_WORK_BASIS
  | GENERAL, GENERAL => true
  | _, _ => false
  end.

Module Client.
Record t : Type := mk {
  id : Z;
  name : string;
  contractStartDate : Z;
  contractDurationDays : Z;
  type : ClientType;
  lockedAmountNrs : Z;
  advanceAmountNrs : Z;
  dueAmountNrs : Z
}.
End Client.

Module Staff.
Record t : Type := mk {
  id : Z;
  name : string;
  type : StaffType;
  monthlySalaryNrs : option Z;
  isActive : bool
}.
End Staff.

Module WorkItem.
Record t : Type := mk {
  id : Z;
  title : string;
  rateNrs : Z;
  isActive : bool
}.
End WorkItem.

(** A StaffWork row as [findMany] returns it with
    [include: { staff, workItem, client }]: the required relation is
    present, the optional ones are [null] exactly when their foreign key
    is. *)
Module StaffWork.
Record t : Type := mk {
  id : Z;
  staff : Staff.t;
  workItem : option WorkItem.t;
  client : option Client.t;
  quantity : option Z;
  unitRateNrs : option Z;
  title : option string;
  performedAt : Z
}.

Definition staffId (w : t) : Z := Staff.id (staff w).
Definition workItemId (w : t) : option Z := option_map WorkItem.id (workItem w).
End StaffWork.

Module Income.
Record t : Type := mk {
  id : Z;
  clientId : Z;
  amountNrs : Z;
  receivedAt : Z
}.
End Income.

Module Expense.
Record t : Type := mk {
  id : Z;
  staffId : option Z;
  amountNrs : Z;
  source : ExpenseSource;
  paidAt : Z
}.
End Expense.

Record Database : Type := mkDatabase {
clients : list Client.t;
staff : list Staff.t;
staffWorks : list StaffWork.t;
incomes : list Income.t;
expenses : list Expense.t
}.

(** What a service call produces: a value, or an exception that reaches
    the request boundary. *)
Inductive Exception : Type :=
| NotFoundException               (* raised by the services *)
| TypeError                       (* a property read on null *)
| PrismaClientValidationError     (* the store rejects an argument *)
| PrismaClientKnownRequestError   (* the database rejects the statement *)
| TransportError.                 (* the mail transporter rejects *)

Inductive Result (A : Type) : Type :=
| Ok (a : A)
| Throw (e : Exception).

Arguments Ok {A} a.
Arguments Throw {A} e.

(* ===================================================================== *)
(** ** The query operators of the store *)
(* ===================================================================== *)

Module Prisma.

Definition total (l : list Z) : Z := fold_right Z.add 0 l.

(** [aggregate({ _sum })]: the sum of a column, [null] over no rows. *)
Definition aggregate_sum (column : list Z) : option Z :=
  match column with
  | [] => None
  | _ :: _ => Some (total column)
  end.

(** [count({ where })]. *)
Definition count {A : Type} (where_ : A -> bool) (rows : list A) : Z :=
  Z.of_nat (List.length (filter where_ rows)).

(** [findUnique({ where: { id } })] on a table with key [key]. *)
Definition findUnique {A : Type} (key : A -> Z) (id : Z) (rows : list A)
  : option A :=
  find (fun r => key r =? id) rows.

(** A 32-bit INTEGER argument. *)
Definition int4 (z : Z) : bool :=
  (-2147483648 <=? z) && (z <=? 2147483647).

Section GroupBy.
Context {K : Type} (eqb : K -> K -> bool).

(** Add one row to the running groups: a known key accumulates, a new
    key opens a group. *)
Fixpoint group_add (k : K) (v : Z) (groups : list (K * Z)) : list (K * Z) :=
  match groups with
  | [] => [(k, v)]
  | (k', s) :: rest =>
      if eqb k k' then (k', s + v) :: rest
      else (k', s) :: group_add k v rest
  end.

Definition group_rows (rows : list (K * Z)) : list (K * Z) :=
  fold_left (fun groups r => group_add (fst r) (snd r) groups) rows [].

(** The sum of the rows that carry key [k0]. *)
Definition keyTotal (k0 : K) (rows : list (K * Z)) : Z :=
  total (map snd (filter (fun r => eqb (fst r) k0) rows)).

(** [groupBy({ by: [key], _sum: { column } })]: one result per key that
    occurs, carrying the sum of its rows.  The store fixes no order; the
    model lists groups by first occurrence. *)
Definition groupBy_sum (rows : list (K * Z)) : list (K * option Z) :=
  map (fun g => (fst g, Some (snd g))) (group_rows rows).

End GroupBy.

End Prisma.

(* ===================================================================== *)
(** ** AccountsService *)
(* ===================================================================== *)

Module Totals.
Record t : Type := mk {
  totalIncomeNrs : Z;
  totalExpenseNrs : Z;
  netNrs : Z
}.
End Totals.

Module IncomeByClient.
Record t : Type := mk {
  clientId : Z;
  name : string;
  total : Z
}.
End IncomeByClient.

Module ExpenseBySource.
Record t : Type := mk {
  source : ExpenseSource;
  total : Z
}.
End ExpenseBySource.

Module Counts.
Record t : Type := mk {
  activeClients : Z;
  activeStaff : Z;
  openContracts : Z;
  contractsExpiringIn30Days : Z;
  contractsExpiringIn7Days : Z;
  contractsExpiringIn1Day : Z
}.
End Counts.

Module Summary.
Record t : Type := mk {
  totals : Totals.t;
  incomeByClient : list IncomeByClient.t;
  expenseBySource : list ExpenseBySource.t;
  counts : Counts.t
}.
End Summary.

(** The readings of the server clock that [getSummary] takes, in program
    order: [now], then the three fresh Dates it turns into horizons. *)
Module SummaryClock.
Record t : Type := mk {
  now : Z;
  thirty : Z;
  seven : Z;
  one : Z
}.
End SummaryClock.

Module WorkLine.
Record t : Type := mk {
  id : Z;
  workItem : string;
  client : string;
  quantity : option Z;
  unitRate : option Z;
  total : Z;
  performedAt : Z
}.
End WorkLine.

Module StaffPayout.
Record t : Type := mk {
  staffId : Z;
  staffName : string;
  totalAmount : Z;
  works : list WorkLine.t
}.
End StaffPayout.

(** The [where] object of the payout query; [staffId] is the key that is
    only sometimes assigned. *)
Module PayoutWhere.
Record t : Type := mk {
  performedAt_gte : option Z;
  performedAt_lte : option Z;
  staff_type : StaffType;
  staffId : option JsNumber.t
}.
End PayoutWhere.

Module AccountsService.

Definition isActiveClient (c : Client.t) : bool :=
  ClientType_eqb (Client.type c) ACTIVE.

(** The [where] clause shared by the three contract-expiry counts:
    type ACTIVE and all of [lte now], [lte horizon], [gt now]. *)
Definition expiringWhere (now horizon : Z) (c : Client.t) : bool :=
  isActiveClient c
  && ((Client.contractStartDate c <=? now)
      && (Client.contractStartDate c <=? horizon)
      && (now <? Client.contractStartDate c)).

Definition incomeByClientWithNames (db : Database)
  : list IncomeByClient.t :=
  map (fun income : Z * option Z =>
         let client := Prisma.findUnique Client.id (fst income) (clients db) in
         IncomeByClient.mk
           (fst income)
           (JsString.or_default (option_map Client.name client) "Unknown")
           (JsNumber.or_zero (snd income)))
      (Prisma.groupBy_sum Z.eqb
         (map (fun i => (Income.clientId i, Income.amountNrs i)) (incomes db))).

Definition expenseBySourceFormatted (db : Database)
  : list ExpenseBySource.t :=
  map (fun expense : ExpenseSource * option Z =>
         ExpenseBySource.mk (fst expense) (JsNumber.or_zero (snd expense)))
      (Prisma.groupBy_sum ExpenseSource_eqb
         (map (fun e => (Expense.source e, Expense.amountNrs e)) (expenses db))).

Definition getSummary (db : Database) (clock : SummaryClock.t) : Summary.t :=
  let totalIncomeResult :=
    Prisma.aggregate_sum (map Income.amountNrs (incomes db)) in
  let totalExpenseResult :=
    Prisma.aggregate_sum (map Expense.amountNrs (expenses db)) in
  let totalIncomeNrs := JsNumber.or_zero totalIncomeResult in
  let totalExpenseNrs := JsNumber.or_zero totalExpenseResult in
  let netNrs := totalIncomeNrs - totalExpenseNrs in
  let activeClientsCount := Prisma.count isActiveClient (clients db) in
  let activeStaffCount := Prisma.count Staff.isActive (staff db) in
  let now := SummaryClock.now clock in
  let openContractsCount := Prisma.count isActiveClient (clients db) in
  let thirtyDaysFromNow :=
    JsDate.setDate (SummaryClock.thirty clock) (JsDate.getDate now + 30) in
  let sevenDaysFromNow :=
    JsDate.setDate (SummaryClock.seven clock) (JsDate.getDate now + 7) in
  let oneDayFromNow :=
    JsDate.setDate (SummaryClock.one clock) (JsDate.getDate now + 1) in
  Summary.mk
    (Totals.mk totalIncomeNrs totalExpenseNrs netNrs)
    (incomeByClientWithNames db)
    (expenseBySourceFormatted db)
    (Counts.mk
       activeClientsCount
       activeStaffCount
       openContractsCount
       (Prisma.count (expiringWhere now thirtyDaysFromNow) (clients db))
       (Prisma.count (expiringWhere now sevenDaysFromNow) (clients db))
       (Prisma.count (expiringWhere now oneDayFromNow) (clients db))).

(** [if (staffId) { whereCondition.staffId = staffId; }] *)
Definition whereCondition (startDate endDate : option Z)
    (staffId : option JsNumber.t) : PayoutWhere.t :=
  PayoutWhere.mk startDate endDate WORK_BASIS
    (match staffId with
     | Some n => if JsNumber.truthy n then Some n else None
     | None => None
     end).

(** [staffWork.findMany({ where, include })].  The store validates the
    arguments first: an Invalid Date and an integer that does not fit
    the INTEGER column are rejected. *)
Definition findManyStaffWork (where_ : PayoutWhere.t)
    (rows : list StaffWork.t) : Result (list StaffWork.t) :=
  match PayoutWhere.performedAt_gte where_,
        PayoutWhere.performedAt_lte where_ with
  | Some gte, Some lte =>
      let inWindow (w : StaffWork.t) :=
        (gte <=? StaffWork.performedAt w) && (StaffWork.performedAt w <=? lte) in
      let ofType (w : StaffWork.t) :=
        StaffType_eqb (Staff.type (StaffWork.staff w))
                      (PayoutWhere.staff_type where_) in
      match PayoutWhere.staffId where_ with
      | None => Ok (filter (fun w => inWindow w && ofType w) rows)
      | Some (JsNumber.Int z) =>
          if Prisma.int4 z
          then Ok (filter (fun w => inWindow w && ofType w
                                    && (StaffWork.staffId w =? z)) rows)
          else Throw PrismaClientValidationError
      | Some JsNumber.NaN => Throw PrismaClientValidationError
      end
  | _, _ => Throw PrismaClientValidationError
  end.

(** [if (!acc[staffKey]) { acc[staffKey] = { ..., totalAmount: 0,
    works: [] }; }], then [acc[staffKey]]. *)
Definition entryFor (acc : JsObject.t StaffPayout.t) (work : StaffWork.t)
  : StaffPayout.t :=
  match JsObject.get (StaffWork.staffId work) acc with
  | Some entry => entry
  | None =>
      StaffPayout.mk (StaffWork.staffId work)
                     (Staff.name (StaffWork.staff work)) 0 []
  end.

Definition workTotal (work : StaffWork.t) : Z :=
  JsNumber.mul_nullable (StaffWork.quantity work) (StaffWork.unitRateNrs work).

(** The line pushed for [work], whose work item is [item]. *)
Definition lineFor (item : WorkItem.t) (work : StaffWork.t) : WorkLine.t :=
  WorkLine.mk
    (StaffWork.id work)
    (WorkItem.title item)
    (JsString.or_default
       (option_map Client.name (StaffWork.client work)) "No Client")
    (StaffWork.quantity work)
    (StaffWork.unitRateNrs work)
    (workTotal work)
    (StaffWork.performedAt work).

(** The body of the reducer: find or open the entry of the staff member,
    add the line total, push the line.  Reading [title] of a [null]
    work item throws. *)
Definition payoutStep (acc : JsObject.t StaffPayout.t) (work : StaffWork.t)
  : Result (JsObject.t StaffPayout.t) :=
  let entry := entryFor acc work in
  match StaffWork.workItem work with
  | None => Throw TypeError
  | Some item =>
      Ok (JsObject.set (StaffWork.staffId work)
            (StaffPayout.mk
               (StaffPayout.staffId entry)
               (StaffPayout.staffName entry)
               (StaffPayout.totalAmount entry + workTotal work)
               (StaffPayout.works entry ++ [lineFor item work]))
            acc)
  end.

(** [staffWorks.reduce(step, {})] *)
Fixpoint payoutReduce (acc : JsObject.t StaffPayout.t)
    (works : list StaffWork.t) : Result (JsObject.t StaffPayout.t) :=
  match works with
  | [] => Ok acc
  | work :: rest =>
      match payoutStep acc work with
      | Ok acc' => payoutReduce acc' rest
      | Throw e => Throw e
      end
  end.

Definition getStaffWorkPayoutPreview (db : Database)
    (month year : Z) (staffId : option JsNumber.t)
  : Result (list StaffPayout.t) :=
  let startDate := JsDate.construct year (month - 1) 1 in
  let endDate := JsDate.construct year month 0 in
  match findManyStaffWork (whereCondition startDate endDate staffId)
                          (staffWorks db) with
  | Throw e => Throw e
  | Ok selected =>
      match payoutReduce JsObject.empty selected with
      | Throw e => Throw e
      | Ok payoutPreview => Ok (JsObject.values payoutPreview)
      end
  end.

End AccountsService.

(* ===================================================================== *)
(** ** ClientsService *)
(* ===================================================================== *)

Module AdjustAccountDto.
Record t : Type := mk {
  lockedDelta : option Z;
  advanceDelta : option Z
}.
End AdjustAccountDto.

(** The [data] object of the update: for each column, the increment that
    was assigned, if any. *)
Module ClientUpdate.
Record t : Type := mk {
  lockedAmountNrs : option JsNumber.t;
  advanceAmountNrs : option JsNumber.t;
  dueAmountNrs : option JsNumber.t
}.
End ClientUpdate.

Module ClientsService.

Definition findOne (id : Z) (table : list Client.t) : Result Client.t :=
  match Prisma.findUnique Client.id id table with
  | Some client => Ok client
  | None => Throw NotFoundException
  end.

(** The [updates] object that [adjustAccount] builds. *)
Definition updates (dto : AdjustAccountDto.t) : ClientUpdate.t :=
  ClientUpdate.mk
    (option_map JsNumber.Int (AdjustAccountDto.lockedDelta dto))
    (option_map JsNumber.Int (AdjustAccountDto.advanceDelta dto))
    (Some (JsNumber.sub_undefined (AdjustAccountDto.lockedDelta dto)
                                  (AdjustAccountDto.advanceDelta dto))).

(** [{ increment: n }] on an INTEGER column: the store rejects an
    increment that is not an integer of the column type, the database a
    result outside it. *)
Definition increment (column : Z) (by_ : option JsNumber.t) : Result Z :=
  match by_ with
  | None => Ok column
  | Some JsNumber.NaN => Throw PrismaClientValidationError
  | Some (JsNumber.Int d) =>
      if negb (Prisma.int4 d) then Throw PrismaClientValidationError
      else if negb (Prisma.int4 (column + d))
           then Throw PrismaClientKnownRequestError
           else Ok (column + d)
  end.

Definition applyUpdate (data : ClientUpdate.t) (c : Client.t)
  : Result Client.t :=
  match increment (Client.lockedAmountNrs c) (ClientUpdate.lockedAmountNrs data),
        increment (Client.advanceAmountNrs c) (ClientUpdate.advanceAmountNrs data),
        increment (Client.dueAmountNrs c) (ClientUpdate.dueAmountNrs data) with
  | Ok locked, Ok advance, Ok due =>
      Ok (Client.mk (Client.id c) (Client.name c)
                    (Client.contractStartDate c) (Client.contractDurationDays c)
                    (Client.type c) locked advance due)
  | Throw e, _, _ => Throw e
  | _, Throw e, _ => Throw e
  | _, _, Throw e => Throw e
  end.

Definition replaceRow (row : Client.t) (table : list Client.t)
  : list Client.t :=
  map (fun c => if Client.id c =? Client.id row then row else c) table.

(** [adjustAccount(id, dto)]: the result of the call and the Client table
    after it.  The update runs in a transaction, so a call that throws
    leaves the table as it was. *)
Definition adjustAccount (table : list Client.t) (id : Z)
    (dto : AdjustAccountDto.t) : Result Client.t * list Client.t :=
  match findOne id table with
  | Throw e => (Throw e, table)
  | Ok client =>
      match applyUpdate (updates dto) client with
      | Throw e => (Throw e, table)
      | Ok updated => (Ok updated, replaceRow updated table)
      end
  end.

(** A sequence of calls on one client, each on the table the previous
    one left. *)
Definition adjustAll (table : list Client.t) (id : Z)
    (dtos : list AdjustAccountDto.t) : list Client.t :=
  fold_left (fun t dto => snd (adjustAccount t id dto)) dtos table.

Definition accountingIdentity (c : Client.t) : Prop :=
  Client.dueAmountNrs c = Client.lockedAmountNrs c - Client.advanceAmountNrs c.

End ClientsService.

(* ===================================================================== *)
(** ** RemindersService *)
(* ===================================================================== *)

Module ReminderType.
Inductive t : Type := CONTRACT_EXPIRY | STAFF_CONTRACT | PAYMENT_DUE | GENERAL.
End ReminderType.

Module ReminderPriority.
Inductive t : Type := LOW | MEDIUM | HIGH | URGENT.
End ReminderPriority.

Module ReminderStage.
Inductive t : Type := INITIAL | MIDPOINT | FINAL.

Definition to_string (s : t) : string :=
  match s with
  | INITIAL => "INITIAL"
  | MIDPOINT => "MIDPOINT"
  | FINAL => "FINAL"
  end.
End ReminderStage.

Module PriorityAndStage.
Record t : Type := mk {
  priority : ReminderPriority.t;
  stage : ReminderStage.t
}.
End PriorityAndStage.

(** A client selected for a reminder: [{ ...client, daysUntilExpiry,
    priority, stage }]. *)
Module ClientReminder.
Record t : Type := mk {
  client : Client.t;
  daysUntilExpiry : Z;
  priority : ReminderPriority.t;
  stage : ReminderStage.t
}.
End ClientReminder.

Module AdminReminder.
Record t : Type := mk {
  title : string;
  description : option string;
  type : ReminderType.t;
  priority : ReminderPriority.t;
  dueDate : Z;
  clientId : option Z;
  staffId : option Z;
  stage : option ReminderStage.t
}.
End AdminReminder.

(** The argument of [createAdminReminder]. *)
Module ReminderData.
Record t : Type := mk {
  title : string;
  description : option string;
  type : ReminderType.t;
  priority : option ReminderPriority.t;
  dueDate : Z;
  clientId : option Z;
  staffId : option Z;
  stage : option ReminderStage.t
}.
End ReminderData.

(** The message handed to the transporter.  The HTML body is kept as the
    values the template interpolates. *)
Module MailOptions.
Record t : Type := mk {
  from : option string;
  to : option string;
  subject : string;
  clientName : string;
  daysUntilExpiry : Z;
  stageMessage : string;
  startDate : Z;
  durationDays : Z;
  expiryDate : Z
}.
End MailOptions.

Module LogEntry.
Inductive t : Type :=
  | log (message : string)
  | error (message : string) (cause : Exception).
End LogEntry.

(** What the reminder job acts on: the AdminReminder table, the messages
    handed to the transporter so far, and the log. *)
Module World.
Record t : Type := mk {
  adminReminders : list AdminReminder.t;
  outbox : list MailOptions.t;
  logger : list LogEntry.t
}.
End World.

(** The collaborators the job cannot control: the configuration, whether
    the transporter accepts the [n]-th message handed to it and whether
    the [n]-th insert into AdminReminder succeeds. *)
Module Collaborators.
Record t : Type := mk {
  GMAIL_USER : option string;
  GMAIL_ADMIN : option string;
  transporterAccepts : nat -> MailOptions.t -> bool;
  createSucceeds : nat -> AdminReminder.t -> bool
}.
End Collaborators.

(** Computations of the job: they run on a world and either return or
    throw; what was written before a throw stays written. *)
Module Job.

Definition t (A : Type) : Type := World.t -> Result A * World.t.

Definition ret {A : Type} (a : A) : t A := fun w => (Ok a, w).

Definition throw {A : Type} (e : Exception) : t A := fun w => (Throw e, w).

Definition bind {A B : Type} (m : t A) (k : A -> t B) : t B :=
  fun w =>
    match m w with
    | (Ok a, w') => k a w'
    | (Throw e, w') => (Throw e, w')
    end.

(** [try { body } catch (error) { handler(error) }] *)
Definition tryCatch {A : Type} (body : t A) (handler : Exception -> t A)
  : t A :=
  fun w =>
    match body w with
    | (Ok a, w') => (Ok a, w')
    | (Throw e, w') => handler e w'
    end.

(** [for (const x of xs) { body(x) }] *)
Fixpoint forOf {A : Type} (xs : list A) (body : A -> t unit) : t unit :=
  match xs with
  | [] => ret tt
  | x :: rest => bind (body x) (fun _ => forOf rest body)
  end.

Definition write (entry : LogEntry.t) : t unit :=
  fun w =>
    (Ok tt,
     World.mk (World.adminReminders w) (World.outbox w)
              (World.logger w ++ [entry])).

End Job.

Declare Scope job_scope.
Delimit Scope job_scope with job.
Notation "m1 ;; m2" := (Job.bind m1 (fun _ => m2))
  (at level 61, right associativity) : job_scope.

Module RemindersService.

Import ReminderPriority ReminderStage.

(** Helper that determines reminder priority and stage.  The products
    with 0.5 and 0.25 are exact, so they are taken over the rationals. *)
Definition getPriorityAndStages (totalDays daysRemaining : Z)
  : PriorityAndStage.t :=
  let halfwayPoint := Qfloor (inject_Z totalDays * (1 # 2))%Q in
  let quarterPoint := Qfloor (inject_Z totalDays * (1 # 4))%Q in
  if daysRemaining <=? quarterPoint
  then PriorityAndStage.mk URGENT FINAL
  else if daysRemaining <=? halfwayPoint
       then PriorityAndStage.mk HIGH MIDPOINT
       else PriorityAndStage.mk MEDIUM INITIAL.

Definition msPerDay_pos : positive := 86400000.

(** Clients whose contract start lies in the 24 hours that end 30 days
    from now, with their stage.  [now] and [fresh] are the two readings
    of the clock.  The quotient under Math.ceil is taken over the
    rationals: for contract dates within reach of the clock the double
    quotient has the same ceiling. *)
Definition getClientsForReminder (table : list Client.t) (now fresh : Z)
  : list ClientReminder.t :=
  let thirtyDaysFromNow := JsDate.setDate fresh (JsDate.getDate now + 30) in
  let clients30Days :=
    filter (fun c =>
              (Client.contractStartDate c <=? thirtyDaysFromNow)
              && (thirtyDaysFromNow - 24 * 60 * 60 * 1000
                  <=? Client.contractStartDate c))
           table in
  map (fun client =>
         let totalContractDays := Client.contractDurationDays client in
         let daysRemaining :=
           Qceiling
             ((Client.contractStartDate client
               + totalContractDays * 24 * 60 * 60 * 1000 - now)
              # msPerDay_pos) in
         let ps := getPriorityAndStages totalContractDays daysRemaining in
         ClientReminder.mk client daysRemaining
           (PriorityAndStage.priority ps) (PriorityAndStage.stage ps))
      clients30Days.

Section WithCollaborators.
Variable env : Collaborators.t.

Local Open Scope job_scope.
Local Open Scope string_scope.

(** [prisma.adminReminder.create({ data })] *)
Definition adminReminderCreate (row : AdminReminder.t)
  : Job.t AdminReminder.t :=
  fun w =>
    if Collaborators.createSucceeds env
         (List.length (World.adminReminders w)) row
    then (Ok row,
          World.mk (World.adminReminders w ++ [row]) (World.outbox w)
                   (World.logger w))
    else (Throw PrismaClientKnownRequestError, w).

(** [transporter.sendMail(mailOptions)] *)
Definition sendMail (mail : MailOptions.t) : Job.t unit :=
  fun w =>
    let w' := World.mk (World.adminReminders w) (World.outbox w ++ [mail])
                       (World.logger w) in
    if Collaborators.transporterAccepts env (List.length (World.outbox w)) mail
    then (Ok tt, w')
    else (Throw TransportError, w').

(** [{ ...reminderData, priority: reminderData.priority || MEDIUM }] *)
Definition createData (reminderData : ReminderData.t) : AdminReminder.t :=
  AdminReminder.mk
    (ReminderData.title reminderData)
    (ReminderData.description reminderData)
    (ReminderData.type reminderData)
    (match ReminderData.priority reminderData with
     | Some p => p
     | None => MEDIUM
     end)
    (ReminderData.dueDate reminderData)
    (ReminderData.clientId reminderData)
    (ReminderData.staffId reminderData)
    (ReminderData.stage reminderData).

Definition createAdminReminder (reminderData : ReminderData.t)
  : Job.t AdminReminder.t :=
  adminReminderCreate (createData reminderData).

Definition stageMessages (s : ReminderStage.t) : string :=
  match s with
  | INITIAL => "This is an early reminder about your upcoming contract."
  | MIDPOINT => "You are approaching the midpoint of your contract duration."
  | FINAL => "URGENT: Your contract is about to expire. Immediate action required!"
  end.

Definition mailOptionsFor (client : ClientReminder.t) : MailOptions.t :=
  let c := ClientReminder.client client in
  let expiryDate :=
    JsDate.setDate (Client.contractStartDate c)
      (JsDate.getDate (Client.contractStartDate c)
       + Client.contractDurationDays c) in
  MailOptions.mk
    (Collaborators.GMAIL_USER env)
    (Collaborators.GMAIL_ADMIN env)
    ("Contract Expiry " ++ ReminderStage.to_string (ClientReminder.stage client)
     ++ " Alert - " ++ JsNumber.to_string (ClientReminder.daysUntilExpiry client)
     ++ " days remaining")
    (Client.name c)
    (ClientReminder.daysUntilExpiry client)
    (stageMessages (ClientReminder.stage client))
    (Client.contractStartDate c)
    (Client.contractDurationDays c)
    expiryDate.

Definition sentMessage (client : ClientReminder.t) : string :=
  "Admin reminder email sent for "
  ++ Client.name (ClientReminder.client client) ++ " ("
  ++ JsNumber.to_string (ClientReminder.daysUntilExpiry client)
  ++ " days, " ++ ReminderStage.to_string (ClientReminder.stage client)
  ++ " stage)".

Definition failedMessage (client : ClientReminder.t) : string :=
  "Failed to send admin reminder email for "
  ++ Client.name (ClientReminder.client client) ++ ":".

(** Send email only to admin; a failure to send is logged. *)
Definition sendAdminReminderEmail (client : ClientReminder.t) : Job.t unit :=
  Job.tryCatch
    (sendMail (mailOptionsFor client) ;;
     Job.write (LogEntry.log (sentMessage client)))
    (fun error => Job.write (LogEntry.error (failedMessage client) error)).

Definition reminderDataFor (reminder : ClientReminder.t) : ReminderData.t :=
  let c := ClientReminder.client reminder in
  let stage := ReminderStage.to_string (ClientReminder.stage reminder) in
  ReminderData.mk
    ("Contract Expiry " ++ stage ++ " Alert - " ++ Client.name c)
    (Some ("Client contract for " ++ Client.name c ++ " will expire in "
           ++ JsNumber.to_string (ClientReminder.daysUntilExpiry reminder)
           ++ " days (" ++ stage ++ " stage)"))
    ReminderType.CONTRACT_EXPIRY
    (Some (ClientReminder.priority reminder))
    (Client.contractStartDate c)
    (Some (Client.id c))
    None
    (Some (ClientReminder.stage reminder)).

(** The body of the loop of the cron job. *)
Definition remind (reminder : ClientReminder.t) : Job.t unit :=
  createAdminReminder (reminderDataFor reminder) ;;
  sendAdminReminderEmail reminder.

Definition processReminders (reminders : list ClientReminder.t)
  : Job.t unit :=
  Job.forOf reminders remind ;;
  Job.write
    (LogEntry.log
       ("Created " ++ JsNumber.to_string (Z.of_nat (List.length reminders))
        ++ " contract expiry admin reminders")).

(** Cron job to send contract expiry reminders. *)
Definition sendContractExpiryReminders (table : list Client.t)
    (now fresh : Z) : Job.t unit :=
  processReminders (getClientsForReminder table now fresh).

End WithCollaborators.

End RemindersService.

(* ===================================================================== *)
(** ** Reference definitions, in the words of the specification *)
(* ===================================================================== *)

Module Reference.

(** The contract-expiry count as the specification words it: ACTIVE clients
    whose contractStartDate lies in (now, now + h days]. *)
Definition expiringCount (table : list Client.t) (now h : Z) : Z :=
  Prisma.count
    (fun c => AccountsService.isActiveClient c
              && (now <? Client.contractStartDate c)
              && (Client.contractStartDate c <=? now + h * JsDate.msPerDay))
    table.

(** The effect of an adjustment as the specification words it: an omitted
    delta counts as 0. *)
Definition adjusted (c : Client.t) (dto : AdjustAccountDto.t) : Client.t :=
  let lockedDelta := JsNumber.of_nullable (AdjustAccountDto.lockedDelta dto) in
  let advanceDelta := JsNumber.of_nullable (AdjustAccountDto.advanceDelta dto) in
  Client.mk (Client.id c) (Client.name c)
            (Client.contractStartDate c) (Client.contractDurationDays c)
            (Client.type c)
            (Client.lockedAmountNrs c + lockedDelta)
            (Client.advanceAmountNrs c + advanceDelta)
            (Client.dueAmountNrs c + (lockedDelta - advanceDelta)).

(** The sum of the Income rows of one client. *)
Definition incomeOf (cid : Z) (rows : list Income.t) : Z :=
  Prisma.total
    (map Income.amountNrs (filter (fun i => Income.clientId i =? cid) rows)).

(** The log lines that dispatching to [reminders] leaves, the first of
    them being message number [n] of the transporter. *)
Fixpoint dispatchLog (env : Collaborators.t) (n : nat)
    (reminders : list ClientReminder.t) : list LogEntry.t :=
  match reminders with
  | [] => []
  | r :: rest =>
      (if Collaborators.transporterAccepts env n
            (RemindersService.mailOptionsFor env r)
       then LogEntry.log (RemindersService.sentMessage r)
       else LogEntry.error (RemindersService.failedMessage r) TransportError)
      :: dispatchLog env (S n) rest
  end.

(** The entries of the reducer's object are filed under their staffId and
    their totalAmount is the sum of their lines. *)
Definition wellFormed (acc : JsObject.t StaffPayout.t) : Prop :=
  forall k entry,
    JsObject.get k acc = Some entry ->
    StaffPayout.staffId entry = k
    /\ StaffPayout.totalAmount entry
       = Prisma.total (map WorkLine.total (StaffPayout.works entry)).

(** [work] has a line, with its own quantity and rate and the product the
    reducer computes, in the entry of its staff member. *)
Definition recorded (acc : JsObject.t StaffPayout.t) (work : StaffWork.t)
  : Prop :=
  exists entry line,
    JsObject.get (StaffWork.staffId work) acc = Some entry
    /\ In line (StaffPayout.works entry)
    /\ WorkLine.id line = StaffWork.id work
    /\ WorkLine.quantity line = StaffWork.quantity work
    /\ WorkLine.unitRate line = StaffWork.unitRateNrs work
    /\ WorkLine.total line = AccountsService.workTotal work.

End Reference.

(* ===================================================================== *)
(** ** Sample data *)
(* ===================================================================== *)

Module Sample.

(** 10 June 2025, 09:00. *)
Definition now : Z :=
  JsDate.MakeDate (JsDate.MakeDay 2025 5 10) (JsDate.MakeTime 9 0 0 0).

Definition clock : SummaryClock.t := SummaryClock.mk now now now now.

(** An ACTIVE client whose contract starts an hour from [now]. *)
Definition acme : Client.t :=
  Client.mk 1 "Acme" (now + 3600000) 365 ACTIVE 1000 400 600.

Definition ledger : Database := mkDatabase [acme] [] [] [] [].

(** Two Income rows of a client that no Client row records. *)
Definition orphanIncomes : Database :=
  mkDatabase [acme] [] []
    [Income.mk 1 7 500 now; Income.mk 2 7 250 now; Income.mk 3 1 300 now] [].

(** An adjustment that supplies lockedDelta only. *)
Definition lockedOnly : AdjustAccountDto.t := AdjustAccountDto.mk (Some 100) None.

Definition bothDeltas : AdjustAccountDto.t :=
  AdjustAccountDto.mk (Some 100) (Some (-50)).

Definition ram : Staff.t := Staff.mk 1 "Ram" WORK_BASIS None true.
Definition sita : Staff.t := Staff.mk 2 "Sita" WORK_BASIS None true.

Definition editing : WorkItem.t := WorkItem.mk 1 "Video edit" 500 true.

(** Work performed on 31 January 2025 at 10:00. *)
Definition lastDayWork : StaffWork.t :=
  StaffWork.mk 1 ram (Some editing) None (Some 3) (Some 500) None
    (JsDate.MakeDate (JsDate.MakeDay 2025 0 31) (JsDate.MakeTime 10 0 0 0)).

(** Work performed on 1 February 2025 at 00:00. *)
Definition nextMonthWork : StaffWork.t :=
  StaffWork.mk 2 ram (Some editing) None (Some 2) (Some 200) None
    (JsDate.MakeDate (JsDate.MakeDay 2025 1 1) (JsDate.MakeTime 0 0 0 0)).

Definition januaryEnd : Database :=
  mkDatabase [] [ram] [lastDayWork; nextMonthWork] [] [].

(** Work linked to a work item whose quantity is null, 15 January 2025. *)
Definition nullQuantityWork : StaffWork.t :=
  StaffWork.mk 3 ram (Some editing) None None (Some 500) None
    (JsDate.MakeDate (JsDate.MakeDay 2025 0 15) (JsDate.MakeTime 10 0 0 0)).

Definition incomplete : Database :=
  mkDatabase [] [ram] [nullQuantityWork] [] [].

(** Collaborators of the reminder job: every insert succeeds, the
    transporter rejects the first message and accepts the others. *)
Definition flakyMail : Collaborators.t :=
  Collaborators.mk (Some "office@example.com"%string) (Some "admin@example.com"%string)
    (fun n _ => negb (Nat.eqb n 0))
    (fun _ _ => true).

Definition emptyWorld : World.t := World.mk [] [] [].

(** Two clients whose contracts start 30 days after [now], less an hour. *)
Definition dueSoon : list Client.t :=
  [ Client.mk 1 "Acme" (now + 30 * JsDate.msPerDay - 3600000) 365 ACTIVE 0 0 0;
    Client.mk 2 "Bolt" (now + 30 * JsDate.msPerDay - 7200000) 40 ACTIVE 0 0 0 ].

End Sample.

From Stdlib Require Import Sorted Permutation.

(* ===================================================================== *)
(** ** ClientsService: creation, and histories of calls *)
(* ===================================================================== *)

(** The fields of CreateClientDto that reach the Client columns modelled
    here; [contractStartDate] is the instant its ISO string denotes. *)
Module CreateClientDto.
Record t : Type := mk {
  name : string;
  contractStartDate : Z;
  contractDurationDays : Z;
  type : option ClientType;
  lockedAmountNrs : option Z;
  advanceAmountNrs : option Z
}.
End CreateClientDto.

Module ClientsTable.

(** [create(createClientDto)]: the data carry
    [dueAmountNrs: lockedAmountNrs - advanceAmountNrs], computed on the
    fields as sent.  The store rejects a NaN and an integer outside the
    column type; an omitted column takes its default (type PROSPECT,
    amounts 0); [serial] is the id the sequence hands out, and a key
    already in the table is refused by the database. *)
Definition create (table : list Client.t) (serial : Z)
    (dto : CreateClientDto.t) : Result Client.t * list Client.t :=
  match JsNumber.sub_undefined (CreateClientDto.lockedAmountNrs dto)
                               (CreateClientDto.advanceAmountNrs dto) with
  | JsNumber.NaN => (Throw PrismaClientValidationError, table)
  | JsNumber.Int dueAmountNrs =>
      let row :=
        Client.mk serial
          (CreateClientDto.name dto)
          (CreateClientDto.contractStartDate dto)
          (CreateClientDto.contractDurationDays dto)
          (match CreateClientDto.type dto with
           | Some t => t
           | None => PROSPECT
           end)
          (JsNumber.of_nullable (CreateClientDto.lockedAmountNrs dto))
          (JsNumber.of_nullable (CreateClientDto.advanceAmountNrs dto))
          dueAmountNrs in
      if negb (Prisma.int4 (Client.contractDurationDays row)
               && Prisma.int4 (Client.lockedAmountNrs row)
               && Prisma.int4 (Client.advanceAmountNrs row)
               && Prisma.int4 (Client.dueAmountNrs row))
      then (Throw PrismaClientValidationError, table)
      else if existsb (fun c => Client.id c =? serial) table
           then (Throw PrismaClientKnownRequestError, table)
           else (Ok row, table ++ [row])
  end.

(** A call that changes the Client table. *)
Inductive Call : Type :=
| Create (serial : Z) (dto : CreateClientDto.t)
| AdjustAccount (id : Z) (dto : AdjustAccountDto.t).

Definition perform (table : list Client.t) (call : Call) : list Client.t :=
  match call with
  | Create serial dto => snd (create table serial dto)
  | AdjustAccount id dto => snd (ClientsService.adjustAccount table id dto)
  end.

(** The table a history of calls leaves. *)
Definition history (table : list Client.t) (calls : list Call)
  : list Client.t :=
  fold_left perform calls table.

End ClientsTable.

(* ===================================================================== *)
(** ** What the payout reducer builds *)
(* ===================================================================== *)

Module Grouping.

(** The rows of one staff member, in query order. *)
Definition staffRows (k : Z) (rows : list StaffWork.t) : list StaffWork.t :=
  filter (fun w => StaffWork.staffId w =? k) rows.

(** The lines of rows that have their work item. *)
Definition linesOf (rows : list StaffWork.t) : list WorkLine.t :=
  flat_map (fun w =>
              match StaffWork.workItem w with
              | Some item => [AccountsService.lineFor item w]
              | None => []
              end)
           rows.

Definition amountOf (rows : list StaffWork.t) : Z :=
  Prisma.total (map AccountsService.workTotal rows).

(** The entry of staff member [k] after [rows]: none without a row of
    theirs, else their id, the name on their first row, the sum of their
    line totals and their lines. *)
Definition entryOf (k : Z) (rows : list StaffWork.t) : option StaffPayout.t :=
  match staffRows k rows with
  | [] => None
  | first :: _ =>
      Some (StaffPayout.mk k
              (Staff.name (StaffWork.staff first))
              (amountOf (staffRows k rows))
              (linesOf (staffRows k rows)))
  end.

(** The object holds, under every key, the entry of that staff member. *)
Definition described (rows : list StaffWork.t)
    (acc : JsObject.t StaffPayout.t) : Prop :=
  forall k, JsObject.get k acc = entryOf k rows.

(** The rows the query of the preview selects (none when the store
    rejects the query). *)
Definition selected (db : Database) (month year : Z)
    (staffId : option JsNumber.t) : list StaffWork.t :=
  match AccountsService.findManyStaffWork
          (AccountsService.whereCondition
             (JsDate.construct year (month - 1) 1)
             (JsDate.construct year month 0) staffId)
          (staffWorks db) with
  | Ok rows => rows
  | Throw _ => []
  end.

(** The shape [JsObject.set] keeps: array-index keys strictly ascending,
    the other keys without repetition. *)
Definition shaped {V : Type} (o : JsObject.t V) : Prop :=
  StronglySorted Z.lt (map fst (JsObject.indices o))
  /\ Forall (fun k => JsObject.isArrayIndex k = true)
            (map fst (JsObject.indices o))
  /\ NoDup (map fst (JsObject.names o))
  /\ Forall (fun k => JsObject.isArrayIndex k = false)
            (map fst (JsObject.names o)).

End Grouping.

(* ===================================================================== *)
(** ** Ordered queries *)
(* ===================================================================== *)

(** [orderBy]: the rows in the order of [leb].  The store fixes no order
    among rows that compare equal; the model keeps them in store order. *)
Module OrderBy.

Section Sort.
Context {A : Type} (leb : A -> A -> bool).

Fixpoint insert (x : A) (l : list A) : list A :=
  match l with
  | [] => [x]
  | y :: rest => if leb x y then x :: y :: rest else y :: insert x rest
  end.

Definition sort (l : list A) : list A := fold_right insert [] l.

End Sort.

End OrderBy.

(* ===================================================================== *)
(** ** RemindersService: the AdminReminder table *)
(* ===================================================================== *)

(** An AdminReminder row as stored: the columns of [AdminReminder.t], the
    key and the completion flag. *)
Module StoredReminder.
Record t : Type := mk {
  id : Z;
  fields : AdminReminder.t;
  isCompleted : bool
}.
End StoredReminder.

Module CreateReminderDto.
Record t : Type := mk {
  title : string;
  description : option string;
  type : ReminderType.t;
  priority : option ReminderPriority.t;
  stage : option ReminderStage.t;
  dueDate : Z;
  clientId : option Z;
  staffId : option Z;
  isCompleted : option bool
}.
End CreateReminderDto.

(** The AdminReminder table and the log of the service. *)
Module ReminderDesk.
Record t : Type := mk {
  rows : list StoredReminder.t;
  logger : list LogEntry.t
}.
End ReminderDesk.

Module ReminderAdmin.

(** The ReminderPriority enum orders as it is declared:
    LOW, MEDIUM, HIGH, URGENT. *)
Definition priorityRank (p : ReminderPriority.t) : Z :=
  match p with
  | ReminderPriority.LOW => 0
  | ReminderPriority.MEDIUM => 1
  | ReminderPriority.HIGH => 2
  | ReminderPriority.URGENT => 3
  end.

(** [where: { isCompleted: false, dueDate: { gte: now } }] *)
Definition activeWhere (now : Z) (r : StoredReminder.t) : bool :=
  negb (StoredReminder.isCompleted r)
  && (now <=? AdminReminder.dueDate (StoredReminder.fields r)).

(** [orderBy: [{ priority: 'desc' }, { dueDate: 'asc' }]] *)
Definition activeOrder (a b : StoredReminder.t) : bool :=
  let ra := priorityRank (AdminReminder.priority (StoredReminder.fields a)) in
  let rb := priorityRank (AdminReminder.priority (StoredReminder.fields b)) in
  (rb <? ra)
  || ((ra =? rb)
      && (AdminReminder.dueDate (StoredReminder.fields a)
          <=? AdminReminder.dueDate (StoredReminder.fields b))).

(** Get active reminders. *)
Definition getActiveReminders (rows : list StoredReminder.t) (now : Z)
  : list StoredReminder.t :=
  OrderBy.sort activeOrder (filter (activeWhere now) rows).

(** Mark reminder as completed: [update({ where: { id }, data })]; the
    store throws when no row has the key. *)
Definition markReminderAsCompleted (rows : list StoredReminder.t)
    (reminderId : Z) : Result StoredReminder.t * list StoredReminder.t :=
  match Prisma.findUnique StoredReminder.id reminderId rows with
  | None => (Throw PrismaClientKnownRequestError, rows)
  | Some r =>
      let done := StoredReminder.mk (StoredReminder.id r)
                                    (StoredReminder.fields r) true in
      (Ok done,
       map (fun x => if StoredReminder.id x =? reminderId then done else x)
           rows)
  end.

(** [if (id) { await findUniqueOrThrow({ where: { id } }) }]: an id that
    is absent or 0 is not looked up. *)
Definition checked (id : option Z) (keys : list Z) : bool :=
  match id with
  | Some k => if k =? 0 then true else existsb (Z.eqb k) keys
  | None => true
  end.

(** The foreign key of the insert: a reference that is sent must have its
    row. *)
Definition referenced (id : option Z) (keys : list Z) : bool :=
  match id with
  | Some k => existsb (Z.eqb k) keys
  | None => true
  end.

Definition newRow (serial : Z) (dto : CreateReminderDto.t)
  : StoredReminder.t :=
  StoredReminder.mk serial
    (AdminReminder.mk
       (CreateReminderDto.title dto)
       (CreateReminderDto.description dto)
       (CreateReminderDto.type dto)
       (match CreateReminderDto.priority dto with
        | Some p => p
        | None => ReminderPriority.MEDIUM
        end)
       (CreateReminderDto.dueDate dto)
       (CreateReminderDto.clientId dto)
       (CreateReminderDto.staffId dto)
       (CreateReminderDto.stage dto))
    (match CreateReminderDto.isCompleted dto with
     | Some b => b
     | None => false
     end).

(** Create a new admin reminder.  The two lookups are awaited inside the
    [try], so their failure is logged and thrown again; the insert is
    returned without [await], so its failure leaves the function
    uncaught and unlogged. *)
Definition createReminder (db : Database) (serial : Z)
    (dto : CreateReminderDto.t) (desk : ReminderDesk.t)
  : Result StoredReminder.t * ReminderDesk.t :=
  let clientKeys := map Client.id (clients db) in
  let staffKeys := map Staff.id (staff db) in
  if negb (checked (CreateReminderDto.clientId dto) clientKeys
           && checked (CreateReminderDto.staffId dto) staffKeys)
  then (Throw PrismaClientKnownRequestError,
        ReminderDesk.mk
          (ReminderDesk.rows desk)
          (ReminderDesk.logger desk
           ++ [LogEntry.error "Error creating reminder"
                 PrismaClientKnownRequestError]))
  else if negb (referenced (CreateReminderDto.clientId dto) clientKeys
                && referenced (CreateReminderDto.staffId dto) staffKeys)
            || existsb (fun r => StoredReminder.id r =? serial)
                       (ReminderDesk.rows desk)
       then (Throw PrismaClientKnownRequestError, desk)
       else (Ok (newRow serial dto),
             ReminderDesk.mk (ReminderDesk.rows desk ++ [newRow serial dto])
                             (ReminderDesk.logger desk)).

(** Dry run method for testing. *)
Definition getDryRunReminders (table : list Client.t)
    (rows : list StoredReminder.t) (now fresh later : Z)
  : list ClientReminder.t * list StoredReminder.t :=
  (RemindersService.getClientsForReminder table now fresh,
   getActiveReminders rows later).

End ReminderAdmin.

(* ===================================================================== *)
(** ** InfluencersService and PaymentsService: payment status *)
(* ===================================================================== *)

Module PaymentStatus.
Inductive t : Type := PENDING | PAID | OVERDUE | CANCELLED.

Definition eqb (a b : t) : bool :=
  match a, b with
  | PENDING, PENDING | PAID, PAID | OVERDUE, OVERDUE
  | CANCELLED, CANCELLED => true
  | _, _ => false
  end.
End PaymentStatus.

Module Payment.
Record t : Type := mk {
  id : Z;
  influencerId : Z;
  collaborationId : option Z;
  amountNrs : Z;
  status : PaymentStatus.t;
  paymentDate : option Z;
  dueDate : option Z
}.
End Payment.

Module Influencer.
Record t : Type := mk {
  id : Z;
  name : string;
  isActive : bool
}.
End Influencer.

Module Collaboration.
Record t : Type := mk {
  id : Z;
  influencerId : Z;
  campaignName : string;
  agreedAmountNrs : Z
}.
End Collaboration.

Module InfluencerStats.
Record t : Type := mk {
  totalCollaborations : Z;
  totalEarnings : Z;
  pendingPayments : Z;
  overduePayments : Z
}.
End InfluencerStats.

Record Campaigns : Type := mkCampaigns {
  influencers : list Influencer.t;
  collaborations : list Collaboration.t;
  payments : list Payment.t
}.

Module InfluencersService.

Definition findOne (id : Z) (table : list Influencer.t) : Result Influencer.t :=
  match Prisma.findUnique Influencer.id id table with
  | Some influencer => Ok influencer
  | None => Throw NotFoundException
  end.

(** [payment.aggregate({ where: { influencerId, status }, _sum })] *)
Definition sumByStatus (id : Z) (status : PaymentStatus.t)
    (table : list Payment.t) : option Z :=
  Prisma.aggregate_sum
    (map Payment.amountNrs
         (filter (fun p => (Payment.influencerId p =? id)
                           && PaymentStatus.eqb (Payment.status p) status)
                 table)).

Definition getInfluencerStats (db : Campaigns) (id : Z)
  : Result (Influencer.t * InfluencerStats.t) :=
  match findOne id (influencers db) with
  | Throw e => Throw e
  | Ok influencer =>
      let totalCollaborations :=
        Prisma.count (fun c => Collaboration.influencerId c =? id)
                     (collaborations db) in
      let totalEarnings := sumByStatus id PaymentStatus.PAID (payments db) in
      let pendingPayments := sumByStatus id PaymentStatus.PENDING (payments db) in
      let overduePayments := sumByStatus id PaymentStatus.OVERDUE (payments db) in
      Ok (influencer,
          InfluencerStats.mk
            totalCollaborations
            (JsNumber.or_zero totalEarnings)
            (JsNumber.or_zero pendingPayments)
            (JsNumber.or_zero overduePayments))
  end.

End InfluencersService.

Module PaymentsService.

(** [where: { status: 'PENDING', dueDate: { lt: today } }]: a row without
    due date matches no comparison. *)
Definition lateWhere (today : Z) (p : Payment.t) : bool :=
  PaymentStatus.eqb (Payment.status p) PaymentStatus.PENDING
  && match Payment.dueDate p with
     | Some due => due <? today
     | None => false
     end.

Definition dueOrder (a b : Payment.t) : bool :=
  match Payment.dueDate a, Payment.dueDate b with
  | Some x, Some y => x <=? y
  | Some _, None => true
  | None, Some _ => false
  | None, None => true
  end.

Definition getOverduePayments (table : list Payment.t) (today : Z)
  : list Payment.t :=
  OrderBy.sort dueOrder (filter (lateWhere today) table).

(** [updateMany({ where, data: { status: 'OVERDUE' } })] and its
    [{ count }]. *)
Definition swept (today : Z) (p : Payment.t) : Payment.t :=
  if lateWhere today p
  then Payment.mk (Payment.id p) (Payment.influencerId p)
                  (Payment.collaborationId p) (Payment.amountNrs p)
                  PaymentStatus.OVERDUE
                  (Payment.paymentDate p) (Payment.dueDate p)
  else p.

Definition markAsOverdue (table : list Payment.t) (today : Z)
  : Z * list Payment.t :=
  (Prisma.count (lateWhere today) table, map (swept today) table).

End PaymentsService.

(* ===================================================================== *)
(** ** More sample data *)
(* ===================================================================== *)

Module Demo.

Definition newClient : CreateClientDto.t :=
  CreateClientDto.mk "Coda" Sample.now 90 None (Some 5000) (Some 1200).

(** A creation that sends the locked amount and no advance. *)
Definition noAdvance : CreateClientDto.t :=
  CreateClientDto.mk "Dune" Sample.now 90 None (Some 5000) None.


(** January 2025: Ram works twice, Sita once; a fourth row is Ram's work
    of February. *)
Definition january : Database :=
  mkDatabase [] [Sample.ram; Sample.sita]
    [ StaffWork.mk 11 Sample.sita (Some Sample.editing) None (Some 2) (Some 200)
        None (JsDate.MakeDate (JsDate.MakeDay 2025 0 12) 0);
      StaffWork.mk 12 Sample.ram (Some Sample.editing) (Some Sample.acme)
        (Some 3) (Some 500) None (JsDate.MakeDate (JsDate.MakeDay 2025 0 10) 0);
      StaffWork.mk 13 Sample.ram (Some Sample.editing) None (Some 2) (Some 200)
        None (JsDate.MakeDate (JsDate.MakeDay 2025 0 20) 0);
      Sample.nextMonthWork ]
    [] [].

Definition januaryPayouts : list StaffPayout.t :=
  [ StaffPayout.mk 1 "Ram" 1900
      [ WorkLine.mk 12 "Video edit" "Acme" (Some 3) (Some 500) 1500
          (JsDate.MakeDate (JsDate.MakeDay 2025 0 10) 0);
        WorkLine.mk 13 "Video edit" "No Client" (Some 2) (Some 200) 400
          (JsDate.MakeDate (JsDate.MakeDay 2025 0 20) 0) ];
    StaffPayout.mk 2 "Sita" 400
      [ WorkLine.mk 11 "Video edit" "No Client" (Some 2) (Some 200) 400
          (JsDate.MakeDate (JsDate.MakeDay 2025 0 12) 0) ] ].

(** January 2025 with a row of Ram's that has a title and no work item. *)
Definition titled : Database :=
  mkDatabase [] [Sample.ram]
    [ StaffWork.mk 21 Sample.ram (Some Sample.editing) None (Some 1) (Some 500)
        None (JsDate.MakeDate (JsDate.MakeDay 2025 0 10) 0);
      StaffWork.mk 22 Sample.ram None None None None (Some "Retainer"%string)
        (JsDate.MakeDate (JsDate.MakeDay 2025 0 11) 0) ]
    [] [].

(** Collaborators whose second insert into AdminReminder fails. *)
Definition secondInsertFails : Collaborators.t :=
  Collaborators.mk (Some "office@example.com"%string)
    (Some "admin@example.com"%string)
    (fun _ _ => true)
    (fun n _ => negb (Nat.eqb n 1)).

(** Collaborators that never fail. *)
Definition reliable : Collaborators.t :=
  Collaborators.mk (Some "office@example.com"%string)
    (Some "admin@example.com"%string)
    (fun _ _ => true)
    (fun _ _ => true).

Definition acmeReminder : ClientReminder.t :=
  ClientReminder.mk Sample.acme 395 ReminderPriority.MEDIUM ReminderStage.INITIAL.

Definition codaReminder : ClientReminder.t :=
  ClientReminder.mk
    (Client.mk 2 "Coda" Sample.now 90 ACTIVE 0 0 0)
    90 ReminderPriority.MEDIUM ReminderStage.INITIAL.

Definition duneReminder : ClientReminder.t :=
  ClientReminder.mk
    (Client.mk 3 "Dune" Sample.now 30 ACTIVE 0 0 0)
    30 ReminderPriority.MEDIUM ReminderStage.INITIAL.

(** Four stored reminders: an urgent one, two of medium priority, and one
    that is completed. *)
Definition desk : list StoredReminder.t :=
  [ StoredReminder.mk 1
      (AdminReminder.mk "Renew" None ReminderType.GENERAL ReminderPriority.MEDIUM
         (Sample.now + 500) None None None) false;
    StoredReminder.mk 2
      (AdminReminder.mk "Call" None ReminderType.GENERAL ReminderPriority.URGENT
         (Sample.now + 900) None None None) false;
    StoredReminder.mk 3
      (AdminReminder.mk "Invoice" None ReminderType.PAYMENT_DUE
         ReminderPriority.MEDIUM (Sample.now + 100) None None None) false;
    StoredReminder.mk 4
      (AdminReminder.mk "Old" None ReminderType.GENERAL ReminderPriority.HIGH
         (Sample.now + 100) None None None) true ].

(** A reminder for client 9, which the ledger does not have. *)
Definition forMissingClient : CreateReminderDto.t :=
  CreateReminderDto.mk "Visit" None ReminderType.GENERAL None None
    (Sample.now + 100) (Some 9) None None.

(** A reminder for client 0. *)
Definition forClientZero : CreateReminderDto.t :=
  CreateReminderDto.mk "Visit" None ReminderType.GENERAL None None
    (Sample.now + 100) (Some 0) None None.

(** A reminder for Acme (client 1), without priority and flag. *)
Definition forAcme : CreateReminderDto.t :=
  CreateReminderDto.mk "Visit" None ReminderType.GENERAL None None
    (Sample.now + 100) (Some 1) None None.

Definition emptyDesk : ReminderDesk.t := ReminderDesk.mk desk [].

(** Two influencers; Ila has a paid, two pending (one late), an overdue
    and a cancelled payment. *)
Definition ila : Influencer.t := Influencer.mk 1 "Ila" true.

Definition campaigns : Campaigns :=
  mkCampaigns
    [ila; Influencer.mk 2 "Jon" true]
    [Collaboration.mk 1 1 "Spring" 2000; Collaboration.mk 2 2 "Spring" 500]
    [ Payment.mk 1 1 (Some 1) 1000 PaymentStatus.PAID (Some Sample.now) None;
      Payment.mk 2 1 (Some 1) 500 PaymentStatus.PENDING None
        (Some (Sample.now - 100));
      Payment.mk 3 1 None 300 PaymentStatus.PENDING None
        (Some (Sample.now + 100));
      Payment.mk 4 1 None 200 PaymentStatus.OVERDUE None
        (Some (Sample.now - 900));
      Payment.mk 5 1 None 50 PaymentStatus.CANCELLED None None;
      Payment.mk 6 2 (Some 2) 70 PaymentStatus.PENDING None
        (Some (Sample.now - 5)) ].

End Demo.

(* ===================================================================== *)
(** ** The calendar *)
(* ===================================================================== *)

(** [yearOfDay] returns the year of ECMAScript's YearFromTime: the one
    whose first day is at or before the day and whose successor starts
    after it. *)
Lemma yearOfDay_spec (d : Z) :
  JsDate.DayFromYear (JsDate.yearOfDay d) <= d
  < JsDate.DayFromYear (JsDate.yearOfDay d + 1).
Proof.
  unfold JsDate.yearOfDay.
  set (e := 1970 + (400 * d) / 146097).
  set (holds := fun y => (JsDate.DayFromYear y <=? d)
                         && (d <? JsDate.DayFromYear (y + 1))).
  destruct (find holds _) as [y |] eqn:E.
  - apply find_some in E. destruct E as [_ E]. unfold holds in E.
    apply andb_true_iff in E. destruct E as [E1 E2].
    apply Z.leb_le in E1. apply Z.ltb_lt in E2. lia.
  - exfalso.
    assert (forall y, In y [e - 2; e - 1; e; e + 1; e + 2] ->
              ~ (JsDate.DayFromYear y <= d < JsDate.DayFromYear (y + 1))) as H.
    { intros y Hy. pose proof (find_none _ _ E y Hy) as Hn. unfold holds in Hn.
      apply andb_false_iff in Hn.
      destruct Hn as [Hn | Hn];
        [apply Z.leb_gt in Hn | apply Z.ltb_ge in Hn]; lia. }
    pose proof (H (e - 2) ltac:(simpl; tauto)) as H1.
    pose proof (H (e - 1) ltac:(simpl; tauto)) as H2.
    pose proof (H e ltac:(simpl; tauto)) as H3.
    pose proof (H (e + 1) ltac:(simpl; tauto)) as H4.
    pose proof (H (e + 2) ltac:(simpl; tauto)) as H5.
    clear H E.
    replace (e - 2 + 1) with (e - 1) in H1 by lia.
    replace (e - 1 + 1) with e in H2 by lia.
    replace (e + 1 + 1) with (e + 2) in H4 by lia.
    replace (e + 2 + 1) with (e + 3) in H5 by lia.
    assert (JsDate.DayFromYear (e - 2) <= d) as Hlo.
    { unfold JsDate.DayFromYear, e. clear. Z.div_mod_to_equations. lia. }
    assert (d < JsDate.DayFromYear (e + 3)) as Hhi.
    { unfold JsDate.DayFromYear, e. clear. Z.div_mod_to_equations. lia. }
    lia.
Qed.

Example calendar_checks :
  JsDate.MakeDay 1970 0 1 = 0
  /\ JsDate.MakeDay 2025 0 31 = 20119
  /\ JsDate.MakeDay 2025 1 0 = 20119
  /\ JsDate.MakeDay 2024 2 0 = JsDate.MakeDay 2024 1 29
  /\ JsDate.getDate (JsDate.setDate Sample.now (JsDate.getDate Sample.now + 30))
     = 10
  /\ JsDate.MonthFromTime
       (JsDate.setDate Sample.now (JsDate.getDate Sample.now + 30)) = 6.
Proof. vm_compute. repeat split. Qed.

(* ===================================================================== *)
(** ** Properties of the store operators *)
(* ===================================================================== *)

Section GroupByFacts.
Context {K : Type} (eqb : K -> K -> bool).
Hypothesis eqb_eq : forall a b, eqb a b = true <-> a = b.

Lemma total_app (l1 l2 : list Z) :
  Prisma.total (l1 ++ l2) = Prisma.total l1 + Prisma.total l2.
Proof.
  induction l1 as [| x l1 IH]; simpl; [reflexivity | rewrite IH; lia].
Qed.

Lemma group_add_total (k : K) (v : Z) (groups : list (K * Z)) :
  Prisma.total (map snd (Prisma.group_add eqb k v groups))
  = Prisma.total (map snd groups) + v.
Proof.
  induction groups as [| [k' s] rest IH]; simpl.
  - lia.
  - destruct (eqb k k'); simpl; [lia | rewrite IH; lia].
Qed.

Lemma group_add_keys (k : K) (v : Z) (groups : list (K * Z)) (k0 : K) :
  In k0 (map fst (Prisma.group_add eqb k v groups))
  <-> k0 = k \/ In k0 (map fst groups).
Proof.
  induction groups as [| [k' s] rest IH]; simpl.
  - intuition congruence.
  - destruct (eqb k k') eqn:E; simpl.
    + apply eqb_eq in E. subst k'. intuition congruence.
    + rewrite IH. intuition congruence.
Qed.

Lemma fold_group_add_total (rows : list (K * Z)) (groups : list (K * Z)) :
  Prisma.total
    (map snd (fold_left (fun g r => Prisma.group_add eqb (fst r) (snd r) g)
                        rows groups))
  = Prisma.total (map snd groups) + Prisma.total (map snd rows).
Proof.
  revert groups.
  induction rows as [| [k v] rows IH]; intros groups; simpl.
  - lia.
  - rewrite IH, group_add_total. lia.
Qed.

Lemma fold_group_add_keys (rows : list (K * Z)) (groups : list (K * Z)) (k0 : K) :
  In k0 (map fst (fold_left (fun g r => Prisma.group_add eqb (fst r) (snd r) g)
                            rows groups))
  <-> In k0 (map fst groups) \/ In k0 (map fst rows).
Proof.
  revert groups.
  induction rows as [| [k v] rows IH]; intros groups; simpl.
  - tauto.
  - rewrite IH, group_add_keys. intuition congruence.
Qed.

(** Grouping loses no amount. *)
Lemma group_rows_total (rows : list (K * Z)) :
  Prisma.total (map snd (Prisma.group_rows eqb rows))
  = Prisma.total (map snd rows).
Proof.
  unfold Prisma.group_rows. rewrite fold_group_add_total. reflexivity.
Qed.

(** The groups are exactly the keys that occur. *)
Lemma group_rows_keys (rows : list (K * Z)) (k0 : K) :
  In k0 (map fst (Prisma.group_rows eqb rows)) <-> In k0 (map fst rows).
Proof.
  unfold Prisma.group_rows. rewrite fold_group_add_keys. simpl. tauto.
Qed.

Lemma eqb_refl (k : K) : eqb k k = true.
Proof. apply eqb_eq. reflexivity. Qed.

Lemma eqb_neq (a b : K) : a <> b -> eqb a b = false.
Proof.
  intros Hne. destruct (eqb a b) eqn:E; [| reflexivity].
  apply eqb_eq in E. contradiction.
Qed.

Lemma group_add_in_same (k : K) (v s : Z) (groups : list (K * Z)) :
  NoDup (map fst groups) ->
  In (k, s) groups ->
  In (k, s + v) (Prisma.group_add eqb k v groups).
Proof.
  induction groups as [| [k' s'] rest IH]; simpl; intros Hnd Hin.
  - contradiction.
  - inversion Hnd as [| ? ? Hnotin Hnd']; subst.
    destruct Hin as [Heq | Hin].
    + inversion Heq; subst. rewrite eqb_refl. left. reflexivity.
    + assert (k <> k') as Hne.
      { intros ->. apply Hnotin. apply (in_map fst) in Hin. exact Hin. }
      rewrite (eqb_neq _ _ Hne). right. apply IH; assumption.
Qed.

Lemma group_add_in_fresh (k : K) (v : Z) (groups : list (K * Z)) :
  ~ In k (map fst groups) ->
  In (k, v) (Prisma.group_add eqb k v groups).
Proof.
  induction groups as [| [k' s'] rest IH]; simpl; intros Hnotin.
  - left. reflexivity.
  - assert (k <> k') as Hne by (intros ->; apply Hnotin; left; reflexivity).
    rewrite (eqb_neq _ _ Hne). right. apply IH. tauto.
Qed.

Lemma group_add_in_other (k k0 : K) (v s : Z) (groups : list (K * Z)) :
  k0 <> k ->
  In (k0, s) groups ->
  In (k0, s) (Prisma.group_add eqb k v groups).
Proof.
  induction groups as [| [k' s'] rest IH]; simpl; intros Hne Hin.
  - contradiction.
  - destruct Hin as [Heq | Hin].
    + inversion Heq; subst.
      assert (k <> k0) as Hne' by congruence.
      rewrite (eqb_neq _ _ Hne'). left. reflexivity.
    + destruct (eqb k k'); right; [assumption | apply IH; assumption].
Qed.

Lemma group_add_NoDup (k : K) (v : Z) (groups : list (K * Z)) :
  NoDup (map fst groups) ->
  NoDup (map fst (Prisma.group_add eqb k v groups)).
Proof.
  induction groups as [| [k' s'] rest IH]; simpl; intros Hnd.
  - constructor; [intros [] | constructor].
  - inversion Hnd as [| ? ? Hnotin Hnd']; subst.
    destruct (eqb k k') eqn:E; simpl.
    + constructor; assumption.
    + constructor; [| apply IH; assumption].
      rewrite group_add_keys. intros [-> | Hin]; [| contradiction].
      rewrite eqb_refl in E. discriminate.
Qed.

(** Folding rows into groups with distinct keys: a key keeps the sum it
    had, plus the rows that carry it. *)
Lemma fold_group_add_in (rows : list (K * Z)) :
  forall (groups : list (K * Z)) (k0 : K),
    NoDup (map fst groups) ->
    (forall s, In (k0, s) groups ->
       In (k0, s + Prisma.keyTotal eqb k0 rows)
          (fold_left (fun g r => Prisma.group_add eqb (fst r) (snd r) g)
                     rows groups))
    /\ (~ In k0 (map fst groups) -> In k0 (map fst rows) ->
        In (k0, Prisma.keyTotal eqb k0 rows)
           (fold_left (fun g r => Prisma.group_add eqb (fst r) (snd r) g)
                      rows groups)).
Proof.
  unfold Prisma.keyTotal.
  induction rows as [| [k v] rows IH]; intros groups k0 Hnd; simpl.
  - split.
    + intros s Hin. replace (s + 0) with s by lia. exact Hin.
    + intros _ [].
  - pose proof (group_add_NoDup k v groups Hnd) as Hnd'.
    destruct (IH (Prisma.group_add eqb k v groups) k0 Hnd') as [IHin IHout].
    destruct (eqb k k0) eqn:E; simpl.
    + apply eqb_eq in E. subst k0. split.
      * intros s Hin.
        replace (s + (v + Prisma.total
                   (map snd (filter (fun r => eqb (fst r) k) rows))))
          with (s + v + Prisma.total
                   (map snd (filter (fun r => eqb (fst r) k) rows))) by lia.
        apply IHin. apply group_add_in_same; assumption.
      * intros Hnotin _. apply IHin. apply group_add_in_fresh. exact Hnotin.
    + assert (k0 <> k) as Hne.
      { intros ->. rewrite eqb_refl in E. discriminate. }
      split.
      * intros s Hin. apply IHin. apply group_add_in_other; assumption.
      * intros Hnotin [Heq | Hin]; [congruence |].
        apply IHout; [| exact Hin].
        rewrite group_add_keys. intros [? | ?]; [congruence | contradiction].
Qed.

(** Every key that occurs has a group that carries the sum of its rows. *)
Lemma group_rows_in (rows : list (K * Z)) (k0 : K) :
  In k0 (map fst rows) ->
  In (k0, Prisma.keyTotal eqb k0 rows) (Prisma.group_rows eqb rows).
Proof.
  intros Hin. unfold Prisma.group_rows.
  apply (fold_group_add_in rows [] k0); [constructor | intros [] | exact Hin].
Qed.

Lemma group_rows_NoDup (rows : list (K * Z)) :
  NoDup (map fst (Prisma.group_rows eqb rows)).
Proof.
  unfold Prisma.group_rows.
  assert (forall groups, NoDup (map fst groups) ->
            NoDup (map fst (fold_left
              (fun g r => Prisma.group_add eqb (fst r) (snd r) g) rows groups)))
    as H.
  { induction rows as [| r rows IH]; intros groups Hnd; simpl.
    - exact Hnd.
    - apply IH. apply group_add_NoDup. exact Hnd. }
  apply H. constructor.
Qed.

End GroupByFacts.

(* ===================================================================== *)
(** ** AccountsService.getSummary *)
(* ===================================================================== *)

Section SummaryFacts.

Import AccountsService.

Lemma or_zero_Some (z : Z) : JsNumber.or_zero (Some z) = z.
Proof.
  unfold JsNumber.or_zero. destruct (Z.eqb_spec z 0); congruence.
Qed.

Lemma or_zero_aggregate (column : list Z) :
  JsNumber.or_zero (Prisma.aggregate_sum column) = Prisma.total column.
Proof.
  destruct column as [| x column]; [reflexivity |].
  unfold Prisma.aggregate_sum. apply or_zero_Some.
Qed.

Lemma ExpenseSource_eqb_eq (a b : ExpenseSource) :
  ExpenseSource_eqb a b = true <-> a = b.
Proof. destruct a, b; simpl; split; congruence. Qed.

Lemma incomeByClient_totals (db : Database) :
  map IncomeByClient.total (incomeByClientWithNames db)
  = map snd (Prisma.group_rows Z.eqb
               (map (fun i => (Income.clientId i, Income.amountNrs i))
                    (incomes db))).
Proof.
  unfold incomeByClientWithNames, Prisma.groupBy_sum.
  rewrite !map_map. apply map_ext. intros [k s]. simpl. apply or_zero_Some.
Qed.

Lemma incomeByClient_ids (db : Database) :
  map IncomeByClient.clientId (incomeByClientWithNames db)
  = map fst (Prisma.group_rows Z.eqb
               (map (fun i => (Income.clientId i, Income.amountNrs i))
                    (incomes db))).
Proof.
  unfold incomeByClientWithNames, Prisma.groupBy_sum.
  rewrite !map_map. apply map_ext. intros [k s]. reflexivity.
Qed.

Lemma expenseBySource_totals (db : Database) :
  map ExpenseBySource.total (expenseBySourceFormatted db)
  = map snd (Prisma.group_rows ExpenseSource_eqb
               (map (fun e => (Expense.source e, Expense.amountNrs e))
                    (expenses db))).
Proof.
  unfold expenseBySourceFormatted, Prisma.groupBy_sum.
  rewrite !map_map. apply map_ext. intros [k s]. simpl. apply or_zero_Some.
Qed.

Lemma expenseBySource_sources (db : Database) :
  map ExpenseBySource.source (expenseBySourceFormatted db)
  = map fst (Prisma.group_rows ExpenseSource_eqb
               (map (fun e => (Expense.source e, Expense.amountNrs e))
                    (expenses db))).
Proof.
  unfold expenseBySourceFormatted, Prisma.groupBy_sum.
  rewrite !map_map. apply map_ext. intros [k s]. reflexivity.
Qed.

Lemma incomeOf_keyTotal (cid : Z) (rows : list Income.t) :
  Prisma.keyTotal Z.eqb cid
    (map (fun i => (Income.clientId i, Income.amountNrs i)) rows)
  = Reference.incomeOf cid rows.
Proof.
  unfold Prisma.keyTotal, Reference.incomeOf.
  induction rows as [| i rows IH]; simpl; [reflexivity |].
  destruct (Income.clientId i =? cid); simpl; rewrite IH; reflexivity.
Qed.

Lemma incomeByClient_sum (db : Database) (clock : SummaryClock.t) :
  Prisma.total
    (map IncomeByClient.total (Summary.incomeByClient (getSummary db clock)))
  = Totals.totalIncomeNrs (Summary.totals (getSummary db clock)).
Proof.
  unfold getSummary.
  cbn [Summary.incomeByClient Summary.totals Totals.totalIncomeNrs].
  rewrite or_zero_aggregate, incomeByClient_totals.
  rewrite (group_rows_total Z.eqb), map_map. reflexivity.
Qed.

Lemma expenseBySource_sum (db : Database) (clock : SummaryClock.t) :
  Prisma.total
    (map ExpenseBySource.total (Summary.expenseBySource (getSummary db clock)))
  = Totals.totalExpenseNrs (Summary.totals (getSummary db clock)).
Proof.
  unfold getSummary.
  cbn [Summary.expenseBySource Summary.totals Totals.totalExpenseNrs].
  rewrite or_zero_aggregate, expenseBySource_totals.
  rewrite (group_rows_total ExpenseSource_eqb), map_map. reflexivity.
Qed.

(** C3. For every dataset, the totals of getSummary are the sum of all
    Income.amountNrs, the sum of all Expense.amountNrs and their
    difference; with no Income and no Expense row the three are 0. *)
Theorem getSummary_totals :
  (forall (db : Database) (clock : SummaryClock.t),
      Totals.totalIncomeNrs (Summary.totals (getSummary db clock))
      = Prisma.total (map Income.amountNrs (incomes db))
      /\ Totals.totalExpenseNrs (Summary.totals (getSummary db clock))
         = Prisma.total (map Expense.amountNrs (expenses db))
      /\ Totals.netNrs (Summary.totals (getSummary db clock))
         = Totals.totalIncomeNrs (Summary.totals (getSummary db clock))
           - Totals.totalExpenseNrs (Summary.totals (getSummary db clock)))
  /\ (forall (cs : list Client.t) (ss : list Staff.t) (ws : list StaffWork.t)
             (clock : SummaryClock.t),
         Summary.totals (getSummary (mkDatabase cs ss ws [] []) clock)
         = Totals.mk 0 0 0).
Proof.
  split.
  - intros db clock. unfold getSummary. cbn [Summary.totals
      Totals.totalIncomeNrs Totals.totalExpenseNrs Totals.netNrs].
    rewrite !or_zero_aggregate. repeat split; reflexivity.
  - intros cs ss ws clock. reflexivity.
Qed.

(** C4. The totals of incomeByClient add up to totalIncomeNrs and those of
    expenseBySource to totalExpenseNrs; incomeByClient has an entry for a
    clientId exactly when some Income row carries it, expenseBySource an
    entry for a source exactly when some Expense row carries it, and no
    key has two entries. *)
Theorem getSummary_breakdown_complete (db : Database) (clock : SummaryClock.t) :
  Prisma.total
    (map IncomeByClient.total (Summary.incomeByClient (getSummary db clock)))
  = Totals.totalIncomeNrs (Summary.totals (getSummary db clock))
  /\ Prisma.total
       (map ExpenseBySource.total (Summary.expenseBySource (getSummary db clock)))
     = Totals.totalExpenseNrs (Summary.totals (getSummary db clock))
  /\ (forall cid : Z,
         In cid (map IncomeByClient.clientId
                     (Summary.incomeByClient (getSummary db clock)))
         <-> exists i, In i (incomes db) /\ Income.clientId i = cid)
  /\ (forall src : ExpenseSource,
         In src (map ExpenseBySource.source
                     (Summary.expenseBySource (getSummary db clock)))
         <-> exists e, In e (expenses db) /\ Expense.source e = src)
  /\ NoDup (map IncomeByClient.clientId
                (Summary.incomeByClient (getSummary db clock)))
  /\ NoDup (map ExpenseBySource.source
                (Summary.expenseBySource (getSummary db clock))).
Proof.
  split; [apply incomeByClient_sum |].
  split; [apply expenseBySource_sum |].
  unfold getSummary.
  cbn [Summary.incomeByClient Summary.expenseBySource].
  rewrite incomeByClient_ids, expenseBySource_sources.
  split; [| split; [| split]].
  - intros cid. rewrite (group_rows_keys Z.eqb Z.eqb_eq).
    rewrite map_map. cbn [fst]. rewrite in_map_iff.
    split; intros [i [H1 H2]]; exists i; tauto.
  - intros src. rewrite (group_rows_keys ExpenseSource_eqb ExpenseSource_eqb_eq).
    rewrite map_map. cbn [fst]. rewrite in_map_iff.
    split; intros [e [H1 H2]]; exists e; tauto.
  - apply (group_rows_NoDup Z.eqb Z.eqb_eq).
  - apply (group_rows_NoDup ExpenseSource_eqb ExpenseSource_eqb_eq).
Qed.

(** C10. A clientId that Income rows carry but that no Client record has
    still gets its incomeByClient entry: the entry carries the sum of those
    rows under the name 'Unknown', and the totals of incomeByClient still
    add up to totalIncomeNrs. *)
Theorem getSummary_unknown_client (db : Database) (clock : SummaryClock.t)
    (cid : Z) :
  (exists i, In i (incomes db) /\ Income.clientId i = cid) ->
  Prisma.findUnique Client.id cid (clients db) = None ->
  In (IncomeByClient.mk cid "Unknown" (Reference.incomeOf cid (incomes db)))
     (Summary.incomeByClient (getSummary db clock))
  /\ Prisma.total
       (map IncomeByClient.total (Summary.incomeByClient (getSummary db clock)))
     = Totals.totalIncomeNrs (Summary.totals (getSummary db clock)).
Proof.
  intros [i [Hi Hcid]] Hmissing. split.
  - unfold getSummary. cbn [Summary.incomeByClient].
    unfold incomeByClientWithNames, Prisma.groupBy_sum.
    rewrite map_map. apply in_map_iff.
    exists (cid, Reference.incomeOf cid (incomes db)). split.
    + cbn [fst snd]. rewrite Hmissing, or_zero_Some. reflexivity.
    + rewrite <- incomeOf_keyTotal.
      apply (group_rows_in Z.eqb Z.eqb_eq).
      rewrite map_map. cbn [fst]. apply in_map_iff. exists i. tauto.
  - apply incomeByClient_sum.
Qed.

End SummaryFacts.

Import AccountsService.

(** C10 on a ledger where client 7 has two Income rows and no Client
    row. *)
Lemma getSummary_unknown_client_witness :
  In (IncomeByClient.mk 7 "Unknown" 750)
     (Summary.incomeByClient (getSummary Sample.orphanIncomes Sample.clock))
  /\ Prisma.total
       (map IncomeByClient.total
            (Summary.incomeByClient (getSummary Sample.orphanIncomes Sample.clock)))
     = Totals.totalIncomeNrs
         (Summary.totals (getSummary Sample.orphanIncomes Sample.clock)).
Proof.
  apply (getSummary_unknown_client Sample.orphanIncomes Sample.clock 7).
  - exists (Income.mk 1 7 500 Sample.now). split; [left; reflexivity | reflexivity].
  - reflexivity.
Defined.

(** *** Contract-expiry counts *)

Lemma expiringWhere_false (now horizon : Z) (c : Client.t) :
  expiringWhere now horizon c = false.
Proof.
  unfold expiringWhere.
  destruct (Z.leb_spec (Client.contractStartDate c) now);
    destruct (Z.ltb_spec now (Client.contractStartDate c));
    try lia; rewrite ?andb_false_r; reflexivity.
Qed.

Lemma count_none {A : Type} (where_ : A -> bool) (rows : list A) :
  (forall r, where_ r = false) -> Prisma.count where_ rows = 0.
Proof.
  intros Hnone. unfold Prisma.count.
  induction rows as [| r rows IH]; simpl; [reflexivity |].
  rewrite Hnone. exact IH.
Qed.

(** The three contract-expiry counts are 0 on every dataset at every
    time: their filter asks for a start date both at or before [now] and
    after it. *)
Lemma getSummary_expiry_counts_zero (db : Database) (clock : SummaryClock.t) :
  Counts.contractsExpiringIn30Days (Summary.counts (getSummary db clock)) = 0
  /\ Counts.contractsExpiringIn7Days (Summary.counts (getSummary db clock)) = 0
  /\ Counts.contractsExpiringIn1Day (Summary.counts (getSummary db clock)) = 0.
Proof.
  unfold getSummary.
  cbn [Summary.counts Counts.contractsExpiringIn30Days
       Counts.contractsExpiringIn7Days Counts.contractsExpiringIn1Day].
  repeat split; apply count_none; intros c; apply expiringWhere_false.
Qed.

(** C2, at a failing input.  With one ACTIVE client whose contract starts
    an hour after [now], the number of ACTIVE clients with contractStartDate
    in (now, now + h days] is 1 for h = 1, 7 and 30, and getSummary reports
    0 for each. *)
Theorem getSummary_expiry_counts_miss_active_client :
  Reference.expiringCount (clients Sample.ledger) Sample.now 1 = 1
  /\ Reference.expiringCount (clients Sample.ledger) Sample.now 7 = 1
  /\ Reference.expiringCount (clients Sample.ledger) Sample.now 30 = 1
  /\ Counts.contractsExpiringIn1Day
       (Summary.counts (getSummary Sample.ledger Sample.clock)) = 0
  /\ Counts.contractsExpiringIn7Days
       (Summary.counts (getSummary Sample.ledger Sample.clock)) = 0
  /\ Counts.contractsExpiringIn30Days
       (Summary.counts (getSummary Sample.ledger Sample.clock)) = 0.
Proof. vm_compute. repeat split. Qed.

(* ===================================================================== *)
(** ** ClientsService.adjustAccount *)
(* ===================================================================== *)

Section AdjustFacts.

Import ClientsService.

(** With both deltas supplied, a call that returns has added lockedDelta,
    advanceDelta and their difference, as the specification words it. *)
Lemma adjustAccount_both_deltas (table : list Client.t) (id locked advance : Z)
    (c c' : Client.t) (table' : list Client.t) :
  findOne id table = Ok c ->
  adjustAccount table id (AdjustAccountDto.mk (Some locked) (Some advance))
  = (Ok c', table') ->
  c' = Reference.adjusted c (AdjustAccountDto.mk (Some locked) (Some advance))
  /\ table' = replaceRow c' table.
Proof.
  intros Hfind. unfold adjustAccount. rewrite Hfind.
  unfold applyUpdate, updates, increment, Reference.adjusted.
  cbn [AdjustAccountDto.lockedDelta AdjustAccountDto.advanceDelta option_map
       ClientUpdate.lockedAmountNrs ClientUpdate.advanceAmountNrs
       ClientUpdate.dueAmountNrs JsNumber.sub_undefined JsNumber.of_nullable].
  repeat match goal with
         | |- context [if ?b then _ else _] => destruct b; cbn [negb]
         end;
    intros H; inversion H; subst; split; reflexivity.
Qed.

Lemma applyUpdate_identity (dto : AdjustAccountDto.t) (c c' : Client.t) :
  applyUpdate (updates dto) c = Ok c' ->
  accountingIdentity c -> accountingIdentity c'.
Proof.
  destruct dto as [[locked |] [advance |]];
    unfold applyUpdate, updates, increment, accountingIdentity;
    cbn [AdjustAccountDto.lockedDelta AdjustAccountDto.advanceDelta option_map
         ClientUpdate.lockedAmountNrs ClientUpdate.advanceAmountNrs
         ClientUpdate.dueAmountNrs JsNumber.sub_undefined];
    repeat match goal with
           | |- context [if ?b then _ else _] => destruct b; cbn [negb]
           end;
    intros H; inversion H; subst; cbn; lia.
Qed.

Lemma findOne_In (id : Z) (table : list Client.t) (c : Client.t) :
  findOne id table = Ok c -> In c table.
Proof.
  unfold findOne, Prisma.findUnique.
  destruct (find _ table) eqn:E; intros H; inversion H; subst.
  apply find_some in E. tauto.
Qed.

(** Every call, whatever it supplies, leaves a table on which the
    accounting identity holds if it held before: a call that throws
    leaves the table as it was. *)
Lemma adjustAccount_keeps_identity (table : list Client.t) (id : Z)
    (dto : AdjustAccountDto.t) :
  Forall accountingIdentity table ->
  Forall accountingIdentity (snd (adjustAccount table id dto)).
Proof.
  intros Hall. unfold adjustAccount.
  destruct (findOne id table) as [c | e] eqn:Hfind; [| exact Hall].
  destruct (applyUpdate (updates dto) c) as [c' | e] eqn:Hupd; [| exact Hall].
  cbn [snd]. unfold replaceRow. apply Forall_forall.
  intros x Hx. apply in_map_iff in Hx. destruct Hx as [y [Hy Hin]].
  rewrite Forall_forall in Hall.
  destruct (Client.id y =? Client.id c'); subst x.
  - apply (applyUpdate_identity dto c c' Hupd).
    apply Hall. apply (findOne_In id). exact Hfind.
  - apply Hall. exact Hin.
Qed.

Lemma adjustAll_keeps_identity (dtos : list AdjustAccountDto.t) :
  forall (table : list Client.t) (id : Z),
    Forall accountingIdentity table ->
    Forall accountingIdentity (adjustAll table id dtos).
Proof.
  unfold adjustAll.
  induction dtos as [| dto dtos IH]; intros table id Hall; simpl.
  - exact Hall.
  - apply IH. apply adjustAccount_keeps_identity. exact Hall.
Qed.

(** C1, at a failing input.  A call that supplies lockedDelta = 100 and no
    advanceDelta should add 100 to lockedAmountNrs and to dueAmountNrs.  The
    increment it builds for dueAmountNrs is NaN, the store rejects the
    update, and the client is left as it was. *)
Theorem adjustAccount_locked_only_rejected :
  Reference.adjusted Sample.acme Sample.lockedOnly
  = Client.mk 1 "Acme" (Sample.now + 3600000) 365 ACTIVE 1100 400 700
  /\ ClientUpdate.dueAmountNrs (updates Sample.lockedOnly) = Some JsNumber.NaN
  /\ adjustAccount [Sample.acme] 1 Sample.lockedOnly
     = (Throw PrismaClientValidationError, [Sample.acme]).
Proof. vm_compute. repeat split. Qed.

End AdjustFacts.

(* ===================================================================== *)
(** ** RemindersService.getPriorityAndStages *)
(* ===================================================================== *)

Section StagingFacts.

Import RemindersService ReminderPriority ReminderStage.

(** On integers, floor (n * 0.5) and floor (n * 0.25) are the floored
    quotients by 2 and by 4. *)
Lemma floor_half (n : Z) : Qfloor (inject_Z n * (1 # 2))%Q = n / 2.
Proof.
  unfold Qfloor, Qmult, inject_Z. cbn [Qnum Qden].
  rewrite Z.mul_1_r. reflexivity.
Qed.

Lemma floor_quarter (n : Z) : Qfloor (inject_Z n * (1 # 4))%Q = n / 4.
Proof.
  unfold Qfloor, Qmult, inject_Z. cbn [Qnum Qden].
  rewrite Z.mul_1_r. reflexivity.
Qed.

(** C5. The classification depends on (totalDays, daysRemaining) only:
    URGENT/FINAL when daysRemaining <= floor (totalDays * 0.25), else
    HIGH/MIDPOINT when daysRemaining <= floor (totalDays * 0.5), else
    MEDIUM/INITIAL; the two floors are the floored quotients of totalDays
    by 4 and by 2.  For totalDays = 100: 10 and the boundary 25 are
    URGENT/FINAL, 40 is HIGH/MIDPOINT, 90 is MEDIUM/INITIAL. *)
Theorem getPriorityAndStages_classifies :
  (forall totalDays daysRemaining : Z,
      Qfloor (inject_Z totalDays * (1 # 4))%Q = totalDays / 4
      /\ Qfloor (inject_Z totalDays * (1 # 2))%Q = totalDays / 2
      /\ getPriorityAndStages totalDays daysRemaining
         = if daysRemaining <=? totalDays / 4
           then PriorityAndStage.mk URGENT FINAL
           else if daysRemaining <=? totalDays / 2
                then PriorityAndStage.mk HIGH MIDPOINT
                else PriorityAndStage.mk MEDIUM INITIAL)
  /\ getPriorityAndStages 100 10 = PriorityAndStage.mk URGENT FINAL
  /\ getPriorityAndStages 100 25 = PriorityAndStage.mk URGENT FINAL
  /\ getPriorityAndStages 100 40 = PriorityAndStage.mk HIGH MIDPOINT
  /\ getPriorityAndStages 100 90 = PriorityAndStage.mk MEDIUM INITIAL.
Proof.
  split.
  - intros totalDays daysRemaining.
    split; [apply floor_quarter |]. split; [apply floor_half |].
    unfold getPriorityAndStages. rewrite floor_half, floor_quarter.
    reflexivity.
  - repeat split.
Qed.

End StagingFacts.

(* ===================================================================== *)
(** ** AccountsService.getStaffWorkPayoutPreview *)
(* ===================================================================== *)

Section PayoutWindowFacts.

(** C9. A staffId of 0 is falsy, so no staff filter is assigned: the call
    returns what the call without staffId returns, on every dataset and for
    every month and year. *)
Theorem getStaffWorkPayoutPreview_staffId_zero (db : Database) (month year : Z) :
  getStaffWorkPayoutPreview db month year (Some (JsNumber.Int 0))
  = getStaffWorkPayoutPreview db month year None.
Proof. reflexivity. Qed.

(** [new Date(year, month, 0)] is midnight at the start of the day before
    [new Date(year, month, 1)], the first day of the following month. *)
Lemma endDate_is_midnight (year month endDate : Z) :
  JsDate.construct year month 0 = Some endDate ->
  JsDate.TimeWithinDay endDate = 0
  /\ exists next, JsDate.MakeDate next 0 = endDate + JsDate.msPerDay
                  /\ (forall first, JsDate.construct year month 1 = Some first ->
                                    first = JsDate.MakeDate next 0).
Proof.
  unfold JsDate.construct, JsDate.TimeClip, JsDate.MakeDate, JsDate.MakeTime,
    JsDate.MakeDay, JsDate.TimeWithinDay, JsDate.msPerDay.
  set (yr := if (0 <=? year) && (year <=? 99) then 1900 + year else year).
  set (d := JsDate.DayFromYear (yr + month / 12)
            + JsDate.monthStart
                (if JsDate.DaysInYear (yr + month / 12) =? 366 then 1 else 0)
                (month mod 12)).
  destruct (Z.abs _ <=? _); intros H; inversion H; subst; clear H.
  split.
  - match goal with
    | |- ?t mod _ = 0 => replace t with ((d - 1) * 86400000) by lia
    end.
    apply Z_mod_mult.
  - exists d. split; [lia |].
    intros first. destruct (Z.abs _ <=? _); intros H; inversion H. lia.
Qed.

(** A row performed after [endDate] is not selected, whatever the rest of
    the query: the last calendar day of the month is kept at its first
    millisecond only. *)
Lemma findManyStaffWork_after_endDate (startDate : option Z) (endDate : Z)
    (staffId : option JsNumber.t) (rows selected : list StaffWork.t)
    (w : StaffWork.t) :
  findManyStaffWork (whereCondition startDate (Some endDate) staffId) rows
  = Ok selected ->
  endDate < StaffWork.performedAt w ->
  ~ In w selected.
Proof.
  unfold findManyStaffWork, whereCondition.
  cbn [PayoutWhere.performedAt_gte PayoutWhere.performedAt_lte
       PayoutWhere.staff_type PayoutWhere.staffId].
  intros Hfind Hlate Hin.
  assert ((StaffWork.performedAt w <=? endDate) = false) as Hout
    by (apply Z.leb_gt; exact Hlate).
  destruct startDate as [gte |]; [| discriminate].
  destruct (match staffId with
            | Some n => if JsNumber.truthy n then Some n else None
            | None => None
            end) as [[z |] |].
  - destruct (Prisma.int4 z); inversion Hfind; subst.
    apply filter_In in Hin. destruct Hin as [_ Hin].
    rewrite Hout in Hin. rewrite andb_false_r in Hin. discriminate.
  - discriminate.
  - inversion Hfind; subst.
    apply filter_In in Hin. destruct Hin as [_ Hin].
    rewrite Hout in Hin. rewrite andb_false_r in Hin. discriminate.
Qed.

(** C6, at a failing input.  For January 2025, work performed on 31 January
    at 10:00, the last calendar day of the month, is left out: the preview
    is empty.  (Work on 1 February is left out as the claim says.) *)
Theorem getStaffWorkPayoutPreview_drops_last_day :
  (JsDate.YearFromTime (StaffWork.performedAt Sample.lastDayWork),
   JsDate.MonthFromTime (StaffWork.performedAt Sample.lastDayWork),
   JsDate.DateFromTime (StaffWork.performedAt Sample.lastDayWork))
  = (2025, 0, 31)
  /\ JsDate.construct 2025 1 0
     = Some (JsDate.MakeDate (JsDate.MakeDay 2025 0 31) 0)
  /\ getStaffWorkPayoutPreview Sample.januaryEnd 1 2025 None = Ok []
  /\ getStaffWorkPayoutPreview Sample.januaryEnd 1 2025 (Some (JsNumber.Int 1))
     = Ok [].
Proof. vm_compute. repeat split. Qed.

End PayoutWindowFacts.

(** *** The object the reducer builds *)

Section JsObjectFacts.
Context {V : Type}.

Lemma lookup_put_sorted_same (k : Z) (v : V) (l : list (Z * V)) :
  JsObject.lookup k (JsObject.put_sorted k v l) = Some v.
Proof.
  induction l as [| [k' v'] l IH]; simpl.
  - rewrite Z.eqb_refl. reflexivity.
  - destruct (k =? k') eqn:E; simpl.
    + rewrite Z.eqb_refl. reflexivity.
    + destruct (k <? k'); simpl.
      * rewrite Z.eqb_refl. reflexivity.
      * rewrite E. exact IH.
Qed.

Lemma lookup_put_sorted_other (k k0 : Z) (v : V) (l : list (Z * V)) :
  k0 <> k ->
  JsObject.lookup k0 (JsObject.put_sorted k v l) = JsObject.lookup k0 l.
Proof.
  intros Hne. apply Z.eqb_neq in Hne.
  induction l as [| [k' v'] l IH]; simpl.
  - rewrite Hne. reflexivity.
  - destruct (Z.eqb_spec k k') as [-> | Hkk']; simpl.
    + rewrite Hne. reflexivity.
    + destruct (k <? k'); simpl.
      * rewrite Hne. reflexivity.
      * rewrite IH. reflexivity.
Qed.

Lemma lookup_put_named_same (k : Z) (v : V) (l : list (Z * V)) :
  JsObject.lookup k (JsObject.put_named k v l) = Some v.
Proof.
  induction l as [| [k' v'] l IH]; simpl.
  - rewrite Z.eqb_refl. reflexivity.
  - destruct (k =? k') eqn:E; simpl.
    + rewrite Z.eqb_refl. reflexivity.
    + rewrite E. exact IH.
Qed.

Lemma lookup_put_named_other (k k0 : Z) (v : V) (l : list (Z * V)) :
  k0 <> k ->
  JsObject.lookup k0 (JsObject.put_named k v l) = JsObject.lookup k0 l.
Proof.
  intros Hne. apply Z.eqb_neq in Hne.
  induction l as [| [k' v'] l IH]; simpl.
  - rewrite Hne. reflexivity.
  - destruct (Z.eqb_spec k k') as [-> | Hkk']; simpl.
    + rewrite Hne. reflexivity.
    + rewrite IH. reflexivity.
Qed.

Lemma lookup_In (k : Z) (v : V) (l : list (Z * V)) :
  JsObject.lookup k l = Some v -> In v (map snd l).
Proof.
  induction l as [| [k' v'] l IH]; simpl; [discriminate |].
  destruct (k =? k'); intros H.
  - inversion H. left. reflexivity.
  - right. apply IH. exact H.
Qed.

(** Reading back the property that was just assigned. *)
Lemma get_set_same (k : Z) (v : V) (o : JsObject.t V) :
  JsObject.get k (JsObject.set k v o) = Some v.
Proof.
  unfold JsObject.get, JsObject.set.
  destruct (JsObject.isArrayIndex k) eqn:E; cbn [JsObject.indices JsObject.names].
  - apply lookup_put_sorted_same.
  - apply lookup_put_named_same.
Qed.

(** An assignment leaves the other properties alone. *)
Lemma get_set_other (k k0 : Z) (v : V) (o : JsObject.t V) :
  k0 <> k ->
  JsObject.get k0 (JsObject.set k v o) = JsObject.get k0 o.
Proof.
  intros Hne. unfold JsObject.get, JsObject.set.
  destruct (JsObject.isArrayIndex k), (JsObject.isArrayIndex k0);
    cbn [JsObject.indices JsObject.names];
    auto using lookup_put_sorted_other, lookup_put_named_other.
Qed.

(** Object.values lists every property. *)
Lemma get_In_values (k : Z) (v : V) (o : JsObject.t V) :
  JsObject.get k o = Some v -> In v (JsObject.values o).
Proof.
  unfold JsObject.get, JsObject.values. intros H. apply in_or_app.
  destruct (JsObject.isArrayIndex k); [left | right];
    apply (lookup_In k); exact H.
Qed.

End JsObjectFacts.

(** *** The reducer *)

Section ReducerFacts.

Import Reference.

Lemma wellFormed_empty : wellFormed JsObject.empty.
Proof. intros k entry H. unfold JsObject.get in H.
  destruct (JsObject.isArrayIndex k); discriminate. Qed.

Lemma entryFor_wellFormed (acc : JsObject.t StaffPayout.t) (work : StaffWork.t) :
  wellFormed acc ->
  StaffPayout.staffId (entryFor acc work) = StaffWork.staffId work
  /\ StaffPayout.totalAmount (entryFor acc work)
     = Prisma.total (map WorkLine.total (StaffPayout.works (entryFor acc work))).
Proof.
  intros Hwf. unfold entryFor.
  destruct (JsObject.get (StaffWork.staffId work) acc) as [entry |] eqn:E.
  - apply Hwf. exact E.
  - split; reflexivity.
Qed.

Lemma payoutStep_wellFormed (acc acc' : JsObject.t StaffPayout.t)
    (work : StaffWork.t) :
  wellFormed acc -> payoutStep acc work = Ok acc' -> wellFormed acc'.
Proof.
  intros Hwf Hstep. unfold payoutStep in Hstep.
  destruct (StaffWork.workItem work) as [item |]; [| discriminate].
  inversion Hstep; subst acc'; clear Hstep.
  destruct (entryFor_wellFormed acc work Hwf) as [Hid Hsum].
  intros k entry Hget.
  destruct (Z.eq_dec k (StaffWork.staffId work)) as [-> | Hne].
  - rewrite get_set_same in Hget. inversion Hget; subst entry; clear Hget.
    cbn [StaffPayout.staffId StaffPayout.totalAmount StaffPayout.works].
    split; [exact Hid |].
    rewrite map_app, total_app, Hsum. simpl. lia.
  - rewrite get_set_other in Hget by exact Hne. apply Hwf. exact Hget.
Qed.

Lemma payoutStep_records (acc acc' : JsObject.t StaffPayout.t)
    (work : StaffWork.t) :
  payoutStep acc work = Ok acc' -> recorded acc' work.
Proof.
  intros Hstep. unfold payoutStep in Hstep.
  destruct (StaffWork.workItem work) as [item |]; [| discriminate].
  inversion Hstep; subst acc'; clear Hstep.
  eexists. exists (lineFor item work).
  split; [apply get_set_same |].
  cbn [StaffPayout.works].
  split; [apply in_or_app; right; left; reflexivity |].
  repeat split.
Qed.

Lemma payoutStep_keeps (acc acc' : JsObject.t StaffPayout.t)
    (work earlier : StaffWork.t) :
  payoutStep acc work = Ok acc' -> recorded acc earlier -> recorded acc' earlier.
Proof.
  intros Hstep [entry [line [Hget Hline]]]. unfold payoutStep in Hstep.
  destruct (StaffWork.workItem work) as [item |]; [| discriminate].
  inversion Hstep; subst acc'; clear Hstep.
  destruct (Z.eq_dec (StaffWork.staffId earlier) (StaffWork.staffId work))
    as [Heq | Hne].
  - eexists. exists line. rewrite Heq. split; [apply get_set_same |].
    cbn [StaffPayout.works]. unfold entryFor. rewrite <- Heq, Hget.
    split; [apply in_or_app; left; tauto | tauto].
  - exists entry, line. rewrite get_set_other by exact Hne. tauto.
Qed.

Lemma payoutReduce_records (works : list StaffWork.t) :
  forall acc acc' : JsObject.t StaffPayout.t,
    wellFormed acc ->
    payoutReduce acc works = Ok acc' ->
    wellFormed acc'
    /\ (forall earlier, recorded acc earlier -> recorded acc' earlier)
    /\ (forall work, In work works -> recorded acc' work).
Proof.
  induction works as [| work works IH]; intros acc acc' Hwf Hred; simpl in Hred.
  - inversion Hred; subst.
    split; [exact Hwf |]. split; [tauto | intros ? []].
  - destruct (payoutStep acc work) as [acc1 |] eqn:Hstep; [| discriminate].
    pose proof (payoutStep_wellFormed acc acc1 work Hwf Hstep) as Hwf1.
    destruct (IH acc1 acc' Hwf1 Hred) as [Hwf' [Hkeep Hrec]].
    split; [exact Hwf' |]. split.
    + intros earlier Hearlier. apply Hkeep.
      apply (payoutStep_keeps acc acc1 work); assumption.
    + intros w [<- | Hin].
      * apply Hkeep. apply (payoutStep_records acc). exact Hstep.
      * apply Hrec. exact Hin.
Qed.

(** The reducer throws on a row without work item and on nothing else. *)
Lemma payoutReduce_returns (works : list StaffWork.t) :
  (forall work, In work works -> StaffWork.workItem work <> None) ->
  forall acc, exists acc', payoutReduce acc works = Ok acc'.
Proof.
  induction works as [| work works IH]; intros Hitems acc; simpl.
  - exists acc. reflexivity.
  - unfold payoutStep.
    destruct (StaffWork.workItem work) as [item |] eqn:E.
    + apply IH. intros w Hin. apply Hitems. right. exact Hin.
    + exfalso. apply (Hitems work); [left; reflexivity | exact E].
Qed.

Lemma mul_nullable_null (quantity unitRateNrs : option Z) :
  quantity = None \/ unitRateNrs = None ->
  JsNumber.mul_nullable quantity unitRateNrs = 0.
Proof.
  unfold JsNumber.mul_nullable.
  intros [-> | ->]; cbn [JsNumber.of_nullable]; lia.
Qed.

(** C7, as the code has it.  When the selected rows all have their work
    item, the preview returns; a selected row whose quantity or unitRateNrs
    is null is not an error: its line is in the entry of its staff member
    with the stored quantity and rate and total 0, and the entry's
    totalAmount is the sum of its lines. *)
Theorem getStaffWorkPayoutPreview_null_quantity_line (db : Database)
    (month year : Z) (staffId : option JsNumber.t)
    (selected : list StaffWork.t) :
  findManyStaffWork
    (whereCondition (JsDate.construct year (month - 1) 1)
                    (JsDate.construct year month 0) staffId)
    (staffWorks db) = Ok selected ->
  (forall work, In work selected -> StaffWork.workItem work <> None) ->
  exists payouts,
    getStaffWorkPayoutPreview db month year staffId = Ok payouts
    /\ forall work,
         In work selected ->
         StaffWork.quantity work = None \/ StaffWork.unitRateNrs work = None ->
         exists entry line,
           In entry payouts
           /\ StaffPayout.staffId entry = StaffWork.staffId work
           /\ StaffPayout.totalAmount entry
              = Prisma.total (map WorkLine.total (StaffPayout.works entry))
           /\ In line (StaffPayout.works entry)
           /\ WorkLine.id line = StaffWork.id work
           /\ WorkLine.quantity line = StaffWork.quantity work
           /\ WorkLine.unitRate line = StaffWork.unitRateNrs work
           /\ WorkLine.total line = 0.
Proof.
  intros Hfind Hitems. unfold getStaffWorkPayoutPreview. rewrite Hfind.
  destruct (payoutReduce_returns selected Hitems JsObject.empty) as [acc Hred].
  rewrite Hred. eexists. split; [reflexivity |].
  destruct (payoutReduce_records selected _ acc wellFormed_empty Hred)
    as [Hwf [_ Hrec]].
  intros work Hin Hnull.
  destruct (Hrec work Hin)
    as [entry [line [Hget [Hline [Hid [Hq [Hr Htotal]]]]]]].
  destruct (Hwf _ _ Hget) as [Hkey Hsum].
  exists entry, line.
  split; [apply (get_In_values (StaffWork.staffId work)); exact Hget |].
  repeat (split; [assumption |]).
  rewrite Htotal. apply mul_nullable_null. exact Hnull.
Qed.

(** C7, as the code has it, for January 2025 on a ledger whose one row
    has a work item and a null quantity. *)
Lemma getStaffWorkPayoutPreview_null_quantity_line_witness :
  exists payouts,
    getStaffWorkPayoutPreview Sample.incomplete 1 2025 None = Ok payouts
    /\ forall work,
         In work [Sample.nullQuantityWork] ->
         StaffWork.quantity work = None \/ StaffWork.unitRateNrs work = None ->
         exists entry line,
           In entry payouts
           /\ StaffPayout.staffId entry = StaffWork.staffId work
           /\ StaffPayout.totalAmount entry
              = Prisma.total (map WorkLine.total (StaffPayout.works entry))
           /\ In line (StaffPayout.works entry)
           /\ WorkLine.id line = StaffWork.id work
           /\ WorkLine.quantity line = StaffWork.quantity work
           /\ WorkLine.unitRate line = StaffWork.unitRateNrs work
           /\ WorkLine.total line = 0.
Proof.
  apply (getStaffWorkPayoutPreview_null_quantity_line
           Sample.incomplete 1 2025 None [Sample.nullQuantityWork]).
  - vm_compute. reflexivity.
  - intros work [<- | []]. discriminate.
Defined.

(** C7, as stated, fails: the row below has workItemId 1 and a null
    quantity, and the preview returns, with a line of total 0 for it and a
    totalAmount of 0. *)
Lemma getStaffWorkPayoutPreview_null_quantity_returns :
  StaffWork.workItemId Sample.nullQuantityWork = Some 1
  /\ StaffWork.quantity Sample.nullQuantityWork = None
  /\ getStaffWorkPayoutPreview Sample.incomplete 1 2025 None
     = Ok [StaffPayout.mk 1 "Ram" 0
             [WorkLine.mk 3 "Video edit" "No Client" None (Some 500) 0
                (StaffWork.performedAt Sample.nullQuantityWork)]]
  /\ forall e, getStaffWorkPayoutPreview Sample.incomplete 1 2025 None
               <> Throw e.
Proof.
  split; [reflexivity |]. split; [reflexivity |].
  split; [vm_compute; reflexivity |].
  intros e. vm_compute. discriminate.
Qed.

End ReducerFacts.

(* ===================================================================== *)
(** ** RemindersService.sendContractExpiryReminders *)
(* ===================================================================== *)

Section ReminderJobFacts.

Import RemindersService.

Variable env : Collaborators.t.
Hypothesis creates :
  forall n row, Collaborators.createSucceeds env n row = true.

(** One turn of the loop: the row is inserted, the message is handed to
    the transporter, and the turn returns whether or not the transporter
    accepts; what differs is the log line. *)
Lemma remind_returns (reminder : ClientReminder.t) (w : World.t) :
  remind env reminder w
  = (Ok tt,
     World.mk
       (World.adminReminders w ++ [createData (reminderDataFor reminder)])
       (World.outbox w ++ [mailOptionsFor env reminder])
       (World.logger w
        ++ Reference.dispatchLog env (List.length (World.outbox w)) [reminder])).
Proof.
  unfold remind, createAdminReminder, adminReminderCreate, Job.bind.
  rewrite creates.
  unfold sendAdminReminderEmail, Job.tryCatch, Job.bind, sendMail, Job.write.
  cbn [World.adminReminders World.outbox World.logger Reference.dispatchLog].
  destruct (Collaborators.transporterAccepts env _ _); reflexivity.
Qed.

Lemma forOf_remind_returns (reminders : list ClientReminder.t) :
  forall w : World.t,
    Job.forOf reminders (remind env) w
    = (Ok tt,
       World.mk
         (World.adminReminders w
          ++ map (fun r => createData (reminderDataFor r)) reminders)
         (World.outbox w ++ map (mailOptionsFor env) reminders)
         (World.logger w
          ++ Reference.dispatchLog env (List.length (World.outbox w)) reminders)).
Proof.
  induction reminders as [| r reminders IH]; intros w.
  - cbn. rewrite !app_nil_r. destruct w; reflexivity.
  - cbn [Job.forOf]. unfold Job.bind at 1. rewrite remind_returns, IH.
    cbn [World.adminReminders World.outbox World.logger map
         Reference.dispatchLog].
    rewrite <- !app_assoc. cbn [app].
    rewrite length_app, Nat.add_1_r. reflexivity.
Qed.

Lemma processReminders_returns (reminders : list ClientReminder.t)
    (w : World.t) :
  processReminders env reminders w
  = (Ok tt,
     World.mk
       (World.adminReminders w
        ++ map (fun r => createData (reminderDataFor r)) reminders)
       (World.outbox w ++ map (mailOptionsFor env) reminders)
       (World.logger w
        ++ Reference.dispatchLog env (List.length (World.outbox w)) reminders
        ++ [LogEntry.log
              ("Created "
               ++ JsNumber.to_string (Z.of_nat (List.length reminders))
               ++ " contract expiry admin reminders")])).
Proof.
  unfold processReminders, Job.bind. rewrite forOf_remind_returns.
  unfold Job.write.
  cbn [World.adminReminders World.outbox World.logger].
  rewrite <- app_assoc. reflexivity.
Qed.

End ReminderJobFacts.

(** C8. However the transporter answers, a run whose inserts succeed
    returns normally: every selected client, in order, has its
    AdminReminder row created and its message handed to the transporter,
    and each message the transporter rejects leaves an error line in the
    log in place of the confirmation. *)
Theorem sendContractExpiryReminders_survives_mail_failure
    (env : Collaborators.t) (table : list Client.t) (now fresh : Z)
    (w : World.t) :
  (forall n row, Collaborators.createSucceeds env n row = true) ->
  RemindersService.sendContractExpiryReminders env table now fresh w
  = (Ok tt,
     World.mk
       (World.adminReminders w
        ++ map (fun r => RemindersService.createData
                           (RemindersService.reminderDataFor r))
               (RemindersService.getClientsForReminder table now fresh))
       (World.outbox w
        ++ map (RemindersService.mailOptionsFor env)
               (RemindersService.getClientsForReminder table now fresh))
       (World.logger w
        ++ Reference.dispatchLog env (List.length (World.outbox w))
             (RemindersService.getClientsForReminder table now fresh)
        ++ [LogEntry.log
              ("Created "
               ++ JsNumber.to_string
                    (Z.of_nat (List.length
                       (RemindersService.getClientsForReminder table now fresh)))
               ++ " contract expiry admin reminders")])).
Proof.
  intros Hcreate. unfold RemindersService.sendContractExpiryReminders.
  apply processReminders_returns. exact Hcreate.
Qed.

(** C8 on a run where two clients are selected and the transporter
    rejects the first message. *)
Lemma sendContractExpiryReminders_survives_mail_failure_witness :
  List.length
    (RemindersService.getClientsForReminder Sample.dueSoon Sample.now Sample.now)
  = 2%nat
  /\ Collaborators.transporterAccepts Sample.flakyMail 0
       (RemindersService.mailOptionsFor Sample.flakyMail
          (hd (ClientReminder.mk Sample.acme 0
                 ReminderPriority.LOW ReminderStage.INITIAL)
              (RemindersService.getClientsForReminder
                 Sample.dueSoon Sample.now Sample.now)))
     = false
  /\ RemindersService.sendContractExpiryReminders Sample.flakyMail
       Sample.dueSoon Sample.now Sample.now Sample.emptyWorld
     = (Ok tt,
        World.mk
          (World.adminReminders Sample.emptyWorld
           ++ map (fun r => RemindersService.createData
                              (RemindersService.reminderDataFor r))
                  (RemindersService.getClientsForReminder
                     Sample.dueSoon Sample.now Sample.now))
          (World.outbox Sample.emptyWorld
           ++ map (RemindersService.mailOptionsFor Sample.flakyMail)
                  (RemindersService.getClientsForReminder
                     Sample.dueSoon Sample.now Sample.now))
          (World.logger Sample.emptyWorld
           ++ Reference.dispatchLog Sample.flakyMail
                (List.length (World.outbox Sample.emptyWorld))
                (RemindersService.getClientsForReminder
                   Sample.dueSoon Sample.now Sample.now)
           ++ [LogEntry.log
                 ("Created "
                  ++ JsNumber.to_string
                       (Z.of_nat (List.length
                          (RemindersService.getClientsForReminder
                             Sample.dueSoon Sample.now Sample.now)))
                  ++ " contract expiry admin reminders")])).
Proof.
  split; [vm_compute; reflexivity |].
  split; [vm_compute; reflexivity |].
  apply (sendContractExpiryReminders_survives_mail_failure
           Sample.flakyMail Sample.dueSoon Sample.now Sample.now
           Sample.emptyWorld).
  intros n row. reflexivity.
Defined.

(** The run of the witness, evaluated: both rows and both messages are
    there, and the log holds the failure of the first message, the
    confirmation of the second and the closing line. *)
Example sendContractExpiryReminders_flaky_run :
  map AdminReminder.clientId
      (World.adminReminders
         (snd (RemindersService.sendContractExpiryReminders Sample.flakyMail
                 Sample.dueSoon Sample.now Sample.now Sample.emptyWorld)))
  = [Some 1; Some 2]
  /\ map MailOptions.clientName
         (World.outbox
            (snd (RemindersService.sendContractExpiryReminders Sample.flakyMail
                    Sample.dueSoon Sample.now Sample.now Sample.emptyWorld)))
     = ["Acme"; "Bolt"]%string
  /\ World.logger
       (snd (RemindersService.sendContractExpiryReminders Sample.flakyMail
               Sample.dueSoon Sample.now Sample.now Sample.emptyWorld))
     = [LogEntry.error "Failed to send admin reminder email for Acme:"
          TransportError;
        LogEntry.log
          "Admin reminder email sent for Bolt (70 days, INITIAL stage)";
        LogEntry.log "Created 2 contract expiry admin reminders"].
Proof. vm_compute. repeat split. Qed.

(* ===================================================================== *)
(** ** ClientsService: histories of calls *)
(* ===================================================================== *)

Section ClientHistoryFacts.

Import ClientsService.

Lemma findOne_id (id : Z) (table : list Client.t) (c : Client.t) :
  findOne id table = Ok c -> Client.id c = id.
Proof.
  unfold findOne, Prisma.findUnique.
  destruct (find _ table) eqn:E; intros H; inversion H; subst.
  apply find_some in E. destruct E as [_ E]. apply Z.eqb_eq. exact E.
Qed.




Lemma replaceRow_other (row other : Client.t) (table : list Client.t) :
  Client.id other <> Client.id row ->
  (In other (replaceRow row table) <-> In other table).
Proof.
  intros Hne. unfold replaceRow. rewrite in_map_iff. split.
  - intros [x [Hx Hin]].
    destruct (Z.eqb_spec (Client.id x) (Client.id row)); subst.
    + contradiction Hne. reflexivity.
    + exact Hin.
  - intros Hin. exists other. split; [| exact Hin].
    destruct (Z.eqb_spec (Client.id other) (Client.id row));
      [contradiction | reflexivity].
Qed.

(** X2. On a client that exists, a call that supplies both deltas, each
    and every resulting balance within the INTEGER range, returns the
    client with lockedDelta added to lockedAmountNrs, advanceDelta to
    advanceAmountNrs and their difference to dueAmountNrs, stores it in
    place of the old row, and leaves the rows of other ids as they
    were. *)
Theorem adjustAccount_both_deltas_returns (table : list Client.t)
    (id locked advance : Z) (c : Client.t) :
  findOne id table = Ok c ->
  Prisma.int4 locked = true ->
  Prisma.int4 advance = true ->
  Prisma.int4 (locked - advance) = true ->
  Prisma.int4 (Client.lockedAmountNrs c + locked) = true ->
  Prisma.int4 (Client.advanceAmountNrs c + advance) = true ->
  Prisma.int4 (Client.dueAmountNrs c + (locked - advance)) = true ->
  adjustAccount table id (AdjustAccountDto.mk (Some locked) (Some advance))
  = (Ok (Reference.adjusted c
           (AdjustAccountDto.mk (Some locked) (Some advance))),
     replaceRow (Reference.adjusted c
                   (AdjustAccountDto.mk (Some locked) (Some advance)))
                table)
  /\ forall other,
       Client.id other <> id ->
       (In other
           (snd (adjustAccount table id
                   (AdjustAccountDto.mk (Some locked) (Some advance))))
        <-> In other table).
Proof.
  intros Hfind H1 H2 H3 H4 H5 H6.
  assert (adjustAccount table id (AdjustAccountDto.mk (Some locked) (Some advance))
          = (Ok (Reference.adjusted c
                   (AdjustAccountDto.mk (Some locked) (Some advance))),
             replaceRow (Reference.adjusted c
                           (AdjustAccountDto.mk (Some locked) (Some advance)))
                        table)) as Hcall.
  { unfold adjustAccount. rewrite Hfind.
    unfold applyUpdate, updates, increment, Reference.adjusted.
    cbn [AdjustAccountDto.lockedDelta AdjustAccountDto.advanceDelta option_map
         ClientUpdate.lockedAmountNrs ClientUpdate.advanceAmountNrs
         ClientUpdate.dueAmountNrs JsNumber.sub_undefined JsNumber.of_nullable].
    rewrite H1, H2, H3, H4, H5, H6. reflexivity. }
  split; [exact Hcall |].
  intros other Hne. rewrite Hcall. cbn [snd].
  apply replaceRow_other. cbn [Reference.adjusted Client.id].
  rewrite (findOne_id id table c Hfind). exact Hne.
Qed.

(** X2 for Acme (1000 / 400 / 600) and the deltas 100 and -50. *)
Lemma adjustAccount_both_deltas_returns_witness :
  adjustAccount [Sample.acme] 1 (AdjustAccountDto.mk (Some 100) (Some (-50)))
  = (Ok (Reference.adjusted Sample.acme
           (AdjustAccountDto.mk (Some 100) (Some (-50)))),
     replaceRow (Reference.adjusted Sample.acme
                   (AdjustAccountDto.mk (Some 100) (Some (-50))))
                [Sample.acme])
  /\ forall other,
       Client.id other <> 1 ->
       (In other
           (snd (adjustAccount [Sample.acme] 1
                   (AdjustAccountDto.mk (Some 100) (Some (-50)))))
        <-> In other [Sample.acme]).
Proof.
  apply (adjustAccount_both_deltas_returns [Sample.acme] 1 100 (-50) Sample.acme);
    reflexivity.
Defined.

Lemma adjustAccount_both_inv (table table' : list Client.t)
    (id locked advance : Z) (c' : Client.t) :
  adjustAccount table id (AdjustAccountDto.mk (Some locked) (Some advance))
  = (Ok c', table') ->
  exists c,
    findOne id table = Ok c
    /\ c' = Reference.adjusted c
              (AdjustAccountDto.mk (Some locked) (Some advance))
    /\ table' = replaceRow c' table.
Proof.
  intros Hcall.
  destruct (findOne id table) as [c | e] eqn:Hfind.
  - exists c. split; [reflexivity |].
    apply (adjustAccount_both_deltas table id locked advance c c' table' Hfind Hcall).
  - unfold adjustAccount in Hcall. rewrite Hfind in Hcall. discriminate.
Qed.

Lemma findOne_replaceRow (id : Z) (table : list Client.t) (c row : Client.t) :
  findOne id table = Ok c ->
  Client.id row = id ->
  findOne id (replaceRow row table) = Ok row.
Proof.
  intros Hfind Hid. unfold findOne, Prisma.findUnique, replaceRow in *.
  subst id.
  induction table as [| x table IH]; simpl in *; [discriminate |].
  destruct (Z.eqb_spec (Client.id x) (Client.id row)) as [Heq | Hne].
  - simpl. rewrite Z.eqb_refl. reflexivity.
  - simpl. destruct (Z.eqb_spec (Client.id x) (Client.id row));
      [contradiction |]. apply IH. exact Hfind.
Qed.

Lemma replaceRow_twice (first second : Client.t) (table : list Client.t) :
  Client.id first = Client.id second ->
  replaceRow second (replaceRow first table) = replaceRow second table.
Proof.
  intros Hid. unfold replaceRow. rewrite map_map. apply map_ext.
  intros x. rewrite Hid.
  destruct (Z.eqb_spec (Client.id x) (Client.id second)) as [Heq | Hne].
  - rewrite <- Hid, Z.eqb_refl. reflexivity.
  - destruct (Z.eqb_spec (Client.id x) (Client.id second));
      [contradiction | reflexivity].
Qed.





(** X4. Two adjustments of one client that return have the effect of the
    single adjustment by the summed deltas: the second call returns the
    client adjusted by the sums, and the table holds it in place of the
    original row. *)
Theorem adjustAccount_twice (table t1 t2 : list Client.t)
    (id l1 a1 l2 a2 : Z) (c1 c2 : Client.t) :
  adjustAccount table id (AdjustAccountDto.mk (Some l1) (Some a1)) = (Ok c1, t1) ->
  adjustAccount t1 id (AdjustAccountDto.mk (Some l2) (Some a2)) = (Ok c2, t2) ->
  exists c,
    findOne id table = Ok c
    /\ c2 = Reference.adjusted c
              (AdjustAccountDto.mk (Some (l1 + l2)) (Some (a1 + a2)))
    /\ t2 = replaceRow c2 table.
Proof.
  intros Hfirst Hsecond.
  destruct (adjustAccount_both_inv _ _ _ _ _ _ Hfirst) as [c [Hfind [Hc1 Ht1]]].
  destruct (adjustAccount_both_inv _ _ _ _ _ _ Hsecond) as [c' [Hfind' [Hc2 Ht2]]].
  assert (Client.id c1 = id) as Hid1.
  { subst c1. cbn. apply (findOne_id id table). exact Hfind. }
  subst t1. rewrite (findOne_replaceRow id table c c1 Hfind Hid1) in Hfind'.
  inversion Hfind'; subst c'; clear Hfind'.
  exists c. split; [exact Hfind |]. split.
  - subst c2 c1. destruct c. unfold Reference.adjusted. cbn. f_equal; lia.
  - subst t2. apply replaceRow_twice. subst c2. cbn. reflexivity.
Qed.

(** X4 for Acme: +100 / -50 twice. *)
Lemma adjustAccount_twice_witness :
  exists c,
    findOne 1 [Sample.acme] = Ok c
    /\ Reference.adjusted (Reference.adjusted Sample.acme Sample.bothDeltas)
         Sample.bothDeltas
       = Reference.adjusted c
           (AdjustAccountDto.mk (Some (100 + 100)) (Some (-50 + -50)))
    /\ snd (adjustAccount (snd (adjustAccount [Sample.acme] 1 Sample.bothDeltas))
              1 Sample.bothDeltas)
       = replaceRow
           (Reference.adjusted (Reference.adjusted Sample.acme Sample.bothDeltas)
              Sample.bothDeltas)
           [Sample.acme].
Proof.
  apply (adjustAccount_twice [Sample.acme]
           (snd (adjustAccount [Sample.acme] 1 Sample.bothDeltas))
           (snd (adjustAccount (snd (adjustAccount [Sample.acme] 1 Sample.bothDeltas))
                   1 Sample.bothDeltas))
           1 100 (-50) 100 (-50)
           (Reference.adjusted Sample.acme Sample.bothDeltas)
           (Reference.adjusted (Reference.adjusted Sample.acme Sample.bothDeltas)
              Sample.bothDeltas));
    reflexivity.
Defined.

(** X6. A creation that omits lockedAmountNrs or advanceAmountNrs is
    rejected and adds no row: the due amount it sends is the difference of
    the two fields as sent, which is NaN. *)
Theorem create_without_amount_rejected (table : list Client.t) (serial : Z)
    (dto : CreateClientDto.t) :
  CreateClientDto.lockedAmountNrs dto = None
  \/ CreateClientDto.advanceAmountNrs dto = None ->
  ClientsTable.create table serial dto
  = (Throw PrismaClientValidationError, table).
Proof.
  intros Hmissing. unfold ClientsTable.create.
  destruct (CreateClientDto.lockedAmountNrs dto),
           (CreateClientDto.advanceAmountNrs dto);
    cbn [JsNumber.sub_undefined]; try reflexivity.
  destruct Hmissing; discriminate.
Qed.

(** X6 for a creation that sends a locked amount and no advance. *)
Lemma create_without_amount_rejected_witness :
  ClientsTable.create [Sample.acme] 2 Demo.noAdvance
  = (Throw PrismaClientValidationError, [Sample.acme]).
Proof.
  apply (create_without_amount_rejected [Sample.acme] 2 Demo.noAdvance).
  right. reflexivity.
Defined.

Lemma create_keeps (table : list Client.t) (serial : Z)
    (dto : CreateClientDto.t) :
  Forall accountingIdentity table /\ NoDup (map Client.id table) ->
  Forall accountingIdentity (snd (ClientsTable.create table serial dto))
  /\ NoDup (map Client.id (snd (ClientsTable.create table serial dto))).
Proof.
  intros [Hall Hnd]. unfold ClientsTable.create.
  destruct (CreateClientDto.lockedAmountNrs dto) as [locked |],
           (CreateClientDto.advanceAmountNrs dto) as [advance |];
    cbn [JsNumber.sub_undefined snd]; try (split; assumption).
  destruct (negb _); cbn [snd]; [split; assumption |].
  destruct (existsb _ table) eqn:Hex; cbn [snd]; [split; assumption |].
  split.
  - apply Forall_app. split; [exact Hall |].
    constructor; [| constructor].
    unfold accountingIdentity. cbn. reflexivity.
  - rewrite map_app. cbn [map Client.id].
    assert (~ In serial (map Client.id table)) as Hfresh.
    { intros Hin. apply in_map_iff in Hin. destruct Hin as [x [Hx Hin]].
      assert (existsb (fun c => Client.id c =? serial) table = true) as Hyes.
      { apply existsb_exists. exists x. split; [exact Hin |].
        apply Z.eqb_eq. exact Hx. }
      congruence. }
    clear Hex. induction (map Client.id table) as [| k ks IH]; simpl.
    + constructor; [intros [] | constructor].
    + inversion Hnd as [| ? ? Hk Hks]; subst. constructor.
      * rewrite in_app_iff. simpl. intros [? | [? | []]]; [contradiction |].
        apply Hfresh. left. congruence.
      * apply IH; [exact Hks |]. intros Hin. apply Hfresh. right. exact Hin.
Qed.

Lemma replaceRow_ids (row : Client.t) (table : list Client.t) :
  map Client.id (replaceRow row table) = map Client.id table.
Proof.
  unfold replaceRow. rewrite map_map. apply map_ext.
  intros x. destruct (Z.eqb_spec (Client.id x) (Client.id row)); congruence.
Qed.

Lemma adjustAccount_ids (table : list Client.t) (id : Z)
    (dto : AdjustAccountDto.t) :
  map Client.id (snd (adjustAccount table id dto)) = map Client.id table.
Proof.
  unfold adjustAccount.
  destruct (findOne id table); [| reflexivity].
  destruct (applyUpdate _ _); [| reflexivity].
  cbn [snd]. apply replaceRow_ids.
Qed.

Lemma history_keeps (calls : list ClientsTable.Call) :
  forall table : list Client.t,
    Forall accountingIdentity table /\ NoDup (map Client.id table) ->
    Forall accountingIdentity (ClientsTable.history table calls)
    /\ NoDup (map Client.id (ClientsTable.history table calls)).
Proof.
  unfold ClientsTable.history.
  induction calls as [| call calls IH]; intros table Hinv; simpl.
  - exact Hinv.
  - apply IH. destruct call as [serial dto | id dto]; cbn [ClientsTable.perform].
    + apply create_keeps. exact Hinv.
    + destruct Hinv as [Hall Hnd]. split.
      * apply adjustAccount_keeps_identity. exact Hall.
      * rewrite adjustAccount_ids. exact Hnd.
Qed.

(** X5. Whatever creations and adjustments are made, in whatever order
    and whether they return or throw, every row of the Client table that
    results from the empty table has
    dueAmountNrs = lockedAmountNrs - advanceAmountNrs, and no two rows
    share an id. *)
Theorem history_accounting_identity (calls : list ClientsTable.Call) :
  Forall accountingIdentity (ClientsTable.history [] calls)
  /\ NoDup (map Client.id (ClientsTable.history [] calls)).
Proof.
  apply history_keeps. split; constructor.
Qed.

Example history_run :
  ClientsTable.history []
    [ClientsTable.Create 1 Demo.newClient;
     ClientsTable.Create 2 Demo.noAdvance;
     ClientsTable.AdjustAccount 1 Sample.bothDeltas;
     ClientsTable.AdjustAccount 1 Sample.lockedOnly;
     ClientsTable.AdjustAccount 7 Sample.bothDeltas]
  = [Client.mk 1 "Coda" Sample.now 90 PROSPECT 5100 1150 3950].
Proof. vm_compute. reflexivity. Qed.

End ClientHistoryFacts.

(* ===================================================================== *)
(** ** AccountsService: what the payout preview holds *)
(* ===================================================================== *)

Section ObjectShapeFacts.
Context {V : Type}.

Lemma put_sorted_keys (k : Z) (v : V) (l : list (Z * V)) (x : Z) :
  In x (map fst (JsObject.put_sorted k v l)) <-> x = k \/ In x (map fst l).
Proof.
  induction l as [| [k' v'] l IH]; simpl.
  - intuition congruence.
  - destruct (Z.eqb_spec k k') as [-> | Hne]; simpl.
    + intuition congruence.
    + destruct (k <? k'); simpl; [intuition congruence |].
      rewrite IH. intuition congruence.
Qed.

Lemma put_named_keys (k : Z) (v : V) (l : list (Z * V)) (x : Z) :
  In x (map fst (JsObject.put_named k v l)) <-> x = k \/ In x (map fst l).
Proof.
  induction l as [| [k' v'] l IH]; simpl.
  - intuition congruence.
  - destruct (Z.eqb_spec k k') as [-> | Hne]; simpl.
    + intuition congruence.
    + rewrite IH. intuition congruence.
Qed.

Lemma put_sorted_ascending (k : Z) (v : V) (l : list (Z * V)) :
  StronglySorted Z.lt (map fst l) ->
  StronglySorted Z.lt (map fst (JsObject.put_sorted k v l)).
Proof.
  induction l as [| [k' v'] l IH]; simpl; intros Hs.
  - constructor; constructor.
  - inversion Hs as [| ? ? Hs' Hall]; subst.
    destruct (Z.eqb_spec k k') as [-> | Hne]; simpl.
    + constructor; assumption.
    + destruct (Z.ltb_spec k k') as [Hlt | Hge]; simpl.
      * constructor; [exact Hs |].
        constructor; [exact Hlt |].
        eapply Forall_impl; [| exact Hall]. intros y Hy. cbn in Hy. lia.
      * constructor; [apply IH; exact Hs' |].
        apply Forall_forall. intros y Hy. apply put_sorted_keys in Hy.
        destruct Hy as [-> | Hy]; [lia |].
        rewrite Forall_forall in Hall. apply Hall. exact Hy.
Qed.

Lemma put_named_NoDup (k : Z) (v : V) (l : list (Z * V)) :
  NoDup (map fst l) -> NoDup (map fst (JsObject.put_named k v l)).
Proof.
  induction l as [| [k' v'] l IH]; simpl; intros Hnd.
  - constructor; [intros [] | constructor].
  - inversion Hnd as [| ? ? Hnotin Hnd']; subst.
    destruct (Z.eqb_spec k k') as [-> | Hne]; simpl.
    + constructor; assumption.
    + constructor; [| apply IH; exact Hnd'].
      rewrite put_named_keys. intros [? | ?]; [congruence | contradiction].
Qed.

Lemma shaped_empty : Grouping.shaped (@JsObject.empty V).
Proof.
  unfold Grouping.shaped, JsObject.empty. cbn.
  repeat split; constructor.
Qed.

Lemma shaped_set (k : Z) (v : V) (o : JsObject.t V) :
  Grouping.shaped o -> Grouping.shaped (JsObject.set k v o).
Proof.
  intros [Hs [Hi [Hn Hni]]]. unfold Grouping.shaped, JsObject.set.
  destruct (JsObject.isArrayIndex k) eqn:E;
    cbn [JsObject.indices JsObject.names].
  - split; [apply put_sorted_ascending; exact Hs |].
    split; [| split; assumption].
    apply Forall_forall. intros x Hx. apply put_sorted_keys in Hx.
    destruct Hx as [-> | Hx]; [exact E |].
    rewrite Forall_forall in Hi. apply Hi. exact Hx.
  - split; [exact Hs |]. split; [exact Hi |].
    split; [apply put_named_NoDup; exact Hn |].
    apply Forall_forall. intros x Hx. apply put_named_keys in Hx.
    destruct Hx as [-> | Hx]; [exact E |].
    rewrite Forall_forall in Hni. apply Hni. exact Hx.
Qed.

Lemma ascending_NoDup (l : list Z) : StronglySorted Z.lt l -> NoDup l.
Proof.
  induction 1 as [| x l Hs IH Hall]; constructor; [| exact IH].
  intros Hin. rewrite Forall_forall in Hall. specialize (Hall x Hin). lia.
Qed.

Lemma lookup_of_In (k : Z) (v : V) (l : list (Z * V)) :
  NoDup (map fst l) -> In (k, v) l -> JsObject.lookup k l = Some v.
Proof.
  induction l as [| [k' v'] l IH]; simpl; intros Hnd Hin; [contradiction |].
  inversion Hnd as [| ? ? Hnotin Hnd']; subst.
  destruct Hin as [Heq | Hin].
  - inversion Heq; subst. rewrite Z.eqb_refl. reflexivity.
  - destruct (Z.eqb_spec k k') as [-> | Hne].
    + exfalso. apply Hnotin. apply (in_map fst) in Hin. exact Hin.
    + apply IH; assumption.
Qed.

Lemma lookup_absent (k : Z) (l : list (Z * V)) :
  ~ In k (map fst l) -> JsObject.lookup k l = None.
Proof.
  induction l as [| [k' v'] l IH]; simpl; intros Hnotin; [reflexivity |].
  destruct (Z.eqb_spec k k') as [-> | Hne]; [tauto |].
  apply IH. tauto.
Qed.

(** In a shaped object every listed pair is what [get] returns for its
    key. *)
Lemma shaped_get_of_In (o : JsObject.t V) (k : Z) (v : V) :
  Grouping.shaped o ->
  In (k, v) (JsObject.indices o ++ JsObject.names o) ->
  JsObject.get k o = Some v.
Proof.
  intros [Hs [Hi [Hn Hni]]] Hin. unfold JsObject.get.
  apply in_app_or in Hin. destruct Hin as [Hin | Hin].
  - assert (JsObject.isArrayIndex k = true) as E.
    { rewrite Forall_forall in Hi. apply Hi.
      apply (in_map fst) in Hin. exact Hin. }
    rewrite E. apply lookup_of_In; [apply ascending_NoDup; exact Hs | exact Hin].
  - assert (JsObject.isArrayIndex k = false) as E.
    { rewrite Forall_forall in Hni. apply Hni.
      apply (in_map fst) in Hin. exact Hin. }
    rewrite E. apply lookup_of_In; assumption.
Qed.

Lemma values_pairs (o : JsObject.t V) :
  JsObject.values o = map snd (JsObject.indices o ++ JsObject.names o).
Proof. unfold JsObject.values. rewrite map_app. reflexivity. Qed.

End ObjectShapeFacts.

Section PayoutContentFacts.

Import Grouping.

Lemma staffRows_app (k : Z) (l1 l2 : list StaffWork.t) :
  staffRows k (l1 ++ l2) = staffRows k l1 ++ staffRows k l2.
Proof. unfold staffRows. apply filter_app. Qed.

Lemma linesOf_app (l1 l2 : list StaffWork.t) :
  linesOf (l1 ++ l2) = linesOf l1 ++ linesOf l2.
Proof. unfold linesOf. apply flat_map_app. Qed.

Lemma amountOf_app (l1 l2 : list StaffWork.t) :
  amountOf (l1 ++ l2) = amountOf l1 + amountOf l2.
Proof. unfold amountOf. rewrite map_app. apply total_app. Qed.

Lemma described_empty : described [] JsObject.empty.
Proof.
  intros k. unfold JsObject.get, entryOf. cbn.
  destruct (JsObject.isArrayIndex k); reflexivity.
Qed.

Lemma payoutStep_described (rows : list StaffWork.t)
    (acc acc' : JsObject.t StaffPayout.t) (work : StaffWork.t) :
  described rows acc ->
  payoutStep acc work = Ok acc' ->
  described (rows ++ [work]) acc'.
Proof.
  intros Hdesc Hstep. unfold payoutStep in Hstep.
  destruct (StaffWork.workItem work) as [item |] eqn:Hitem; [| discriminate].
  inversion Hstep; subst acc'; clear Hstep.
  intros k. unfold entryOf. rewrite staffRows_app.
  destruct (Z.eq_dec k (StaffWork.staffId work)) as [-> | Hne].
  - rewrite get_set_same.
    assert (staffRows (StaffWork.staffId work) [work] = [work]) as Hown.
    { unfold staffRows. cbn. rewrite Z.eqb_refl. reflexivity. }
    rewrite Hown. unfold entryFor. rewrite (Hdesc (StaffWork.staffId work)).
    unfold entryOf.
    destruct (staffRows (StaffWork.staffId work) rows) as [| first rest] eqn:Hrows.
    + cbn [app StaffPayout.staffId StaffPayout.staffName
           StaffPayout.totalAmount StaffPayout.works].
      unfold amountOf, linesOf. cbn. rewrite Hitem. cbn.
      do 2 f_equal. lia.
    + cbn [app StaffPayout.staffId StaffPayout.staffName
           StaffPayout.totalAmount StaffPayout.works].
      change (first :: rest ++ [work]) with ((first :: rest) ++ [work]).
      rewrite amountOf_app, linesOf_app.
      unfold amountOf at 2. unfold linesOf at 2. cbn. rewrite Hitem. cbn.
      do 2 f_equal. lia.
  - rewrite get_set_other by exact Hne.
    assert (staffRows k [work] = []) as Hnone.
    { unfold staffRows. cbn.
      destruct (Z.eqb_spec (StaffWork.staffId work) k); [congruence | reflexivity]. }
    rewrite Hnone, app_nil_r. apply Hdesc.
Qed.

Lemma payoutStep_shaped (acc acc' : JsObject.t StaffPayout.t)
    (work : StaffWork.t) :
  shaped acc -> payoutStep acc work = Ok acc' -> shaped acc'.
Proof.
  intros Hshaped Hstep. unfold payoutStep in Hstep.
  destruct (StaffWork.workItem work); [| discriminate].
  inversion Hstep; subst. apply shaped_set. exact Hshaped.
Qed.

Lemma payoutReduce_described (works : list StaffWork.t) :
  forall (rows : list StaffWork.t) (acc acc' : JsObject.t StaffPayout.t),
    described rows acc -> shaped acc ->
    payoutReduce acc works = Ok acc' ->
    described (rows ++ works) acc' /\ shaped acc'
    /\ forall work, In work works -> StaffWork.workItem work <> None.
Proof.
  induction works as [| work works IH]; intros rows acc acc' Hdesc Hshaped Hred;
    simpl in Hred.
  - inversion Hred; subst. rewrite app_nil_r.
    split; [exact Hdesc |]. split; [exact Hshaped | intros ? []].
  - destruct (payoutStep acc work) as [acc1 |] eqn:Hstep; [| discriminate].
    pose proof (payoutStep_described rows acc acc1 work Hdesc Hstep) as Hdesc1.
    pose proof (payoutStep_shaped acc acc1 work Hshaped Hstep) as Hshaped1.
    destruct (IH (rows ++ [work]) acc1 acc' Hdesc1 Hshaped1 Hred)
      as [Hdesc' [Hshaped' Hitems]].
    rewrite <- app_assoc in Hdesc'.
    split; [exact Hdesc' |]. split; [exact Hshaped' |].
    intros w [<- | Hin]; [| apply Hitems; exact Hin].
    unfold payoutStep in Hstep.
    destruct (StaffWork.workItem work); [discriminate | discriminate].
Qed.

(** The reducer throws nothing but the TypeError of a missing work
    item. *)
Lemma payoutReduce_throws (works : list StaffWork.t) :
  forall (acc : JsObject.t StaffPayout.t),
    (exists work, In work works /\ StaffWork.workItem work = None) ->
    payoutReduce acc works = Throw TypeError.
Proof.
  induction works as [| work works IH]; intros acc [w [Hin Hnone]];
    [contradiction |].
  simpl. unfold payoutStep.
  destruct (StaffWork.workItem work) as [item |] eqn:Hitem; [| reflexivity].
  apply IH. destruct Hin as [<- | Hin]; [congruence |].
  exists w. split; assumption.
Qed.

(** What a preview that returns was computed from. *)
Lemma preview_inv (db : Database) (month year : Z)
    (staffId : option JsNumber.t) (payouts : list StaffPayout.t) :
  getStaffWorkPayoutPreview db month year staffId = Ok payouts ->
  exists acc,
    findManyStaffWork
      (whereCondition (JsDate.construct year (month - 1) 1)
                      (JsDate.construct year month 0) staffId)
      (staffWorks db)
    = Ok (selected db month year staffId)
    /\ payoutReduce JsObject.empty (selected db month year staffId) = Ok acc
    /\ payouts = JsObject.values acc
    /\ described (selected db month year staffId) acc
    /\ shaped acc
    /\ forall work, In work (selected db month year staffId) ->
                    StaffWork.workItem work <> None.
Proof.
  unfold getStaffWorkPayoutPreview, selected.
  destruct (findManyStaffWork _ _) as [rows | e]; [| discriminate].
  destruct (payoutReduce JsObject.empty rows) as [acc | e] eqn:Hred;
    [| discriminate].
  intros H. inversion H; subst. exists acc.
  destruct (payoutReduce_described rows [] JsObject.empty acc
              described_empty shaped_empty Hred) as [Hdesc [Hshaped Hitems]].
  repeat (split; [first [reflexivity | assumption] |]). exact Hitems.
Qed.

Lemma entryOf_staffId (k : Z) (rows : list StaffWork.t) (entry : StaffPayout.t) :
  entryOf k rows = Some entry -> StaffPayout.staffId entry = k.
Proof.
  unfold entryOf. destruct (staffRows k rows); intros H; inversion H.
  reflexivity.
Qed.

Lemma entryOf_Some (k : Z) (rows : list StaffWork.t) (work : StaffWork.t) :
  In work rows -> StaffWork.staffId work = k ->
  exists entry, entryOf k rows = Some entry.
Proof.
  intros Hin Hid. unfold entryOf.
  destruct (staffRows k rows) as [| first rest] eqn:E; [| eexists; reflexivity].
  exfalso.
  assert (In work (staffRows k rows)) as Hin'.
  { unfold staffRows. apply filter_In. split; [exact Hin |].
    apply Z.eqb_eq. exact Hid. }
  rewrite E in Hin'. exact Hin'.
Qed.

Lemma values_described (rows : list StaffWork.t)
    (acc : JsObject.t StaffPayout.t) (entry : StaffPayout.t) :
  described rows acc -> shaped acc ->
  In entry (JsObject.values acc) ->
  entryOf (StaffPayout.staffId entry) rows = Some entry.
Proof.
  intros Hdesc Hshaped Hin. rewrite values_pairs in Hin.
  apply in_map_iff in Hin. destruct Hin as [[k e] [Heq Hin]].
  cbn in Heq. subst e.
  pose proof (shaped_get_of_In acc k entry Hshaped Hin) as Hget.
  rewrite (Hdesc k) in Hget.
  rewrite (entryOf_staffId k rows entry Hget). exact Hget.
Qed.

Lemma values_keys (rows : list StaffWork.t) (acc : JsObject.t StaffPayout.t) :
  described rows acc -> shaped acc ->
  map StaffPayout.staffId (JsObject.values acc)
  = map fst (JsObject.indices acc ++ JsObject.names acc).
Proof.
  intros Hdesc Hshaped. rewrite values_pairs, map_map.
  apply map_ext_in. intros [k e] Hin. cbn.
  pose proof (shaped_get_of_In acc k e Hshaped Hin) as Hget.
  rewrite (Hdesc k) in Hget. apply (entryOf_staffId k rows). exact Hget.
Qed.

Lemma shaped_keys_NoDup {V : Type} (o : JsObject.t V) :
  shaped o -> NoDup (map fst (JsObject.indices o ++ JsObject.names o)).
Proof.
  intros [Hs [Hi [Hn Hni]]]. rewrite map_app.
  apply NoDup_app; [apply ascending_NoDup; exact Hs | exact Hn |].
  intros k Hin1 Hin2.
  rewrite Forall_forall in Hi, Hni.
  specialize (Hi k Hin1). specialize (Hni k Hin2). congruence.
Qed.

(** X7. A preview that returns has exactly one entry per staff member
    with a selected row.  The entry carries the staff member's id, the
    staff name of their first selected row, their lines in query order
    and, as totalAmount, the sum of quantity x unitRateNrs over their
    selected rows (a null factor counting as 0). *)
Theorem getStaffWorkPayoutPreview_entries (db : Database) (month year : Z)
    (staffId : option JsNumber.t) (payouts : list StaffPayout.t) :
  getStaffWorkPayoutPreview db month year staffId = Ok payouts ->
  (forall entry,
      In entry payouts ->
      entryOf (StaffPayout.staffId entry) (selected db month year staffId)
      = Some entry)
  /\ (forall work,
         In work (selected db month year staffId) ->
         exists entry,
           In entry payouts
           /\ StaffPayout.staffId entry = StaffWork.staffId work)
  /\ NoDup (map StaffPayout.staffId payouts).
Proof.
  intros Hcall.
  destruct (preview_inv db month year staffId payouts Hcall)
    as [acc [_ [_ [-> [Hdesc [Hshaped _]]]]]].
  split; [| split].
  - intros entry Hin. apply (values_described _ acc); assumption.
  - intros work Hin.
    destruct (entryOf_Some (StaffWork.staffId work) _ work Hin eq_refl)
      as [entry Hentry].
    exists entry. split.
    + apply (get_In_values (StaffWork.staffId work)).
      rewrite (Hdesc (StaffWork.staffId work)). exact Hentry.
    + apply (entryOf_staffId _ _ _ Hentry).
  - rewrite (values_keys _ acc Hdesc Hshaped).
    apply shaped_keys_NoDup. exact Hshaped.
Qed.

End PayoutContentFacts.

Section PayoutQueryFacts.

Import Grouping.

Example january_preview :
  getStaffWorkPayoutPreview Demo.january 1 2025 None = Ok Demo.januaryPayouts.
Proof. vm_compute. reflexivity. Qed.

(** X7 for January 2025 on a ledger where Ram has two rows (3 x 500 and
    2 x 200) and Sita one. *)
Lemma getStaffWorkPayoutPreview_entries_witness :
  (forall entry,
      In entry Demo.januaryPayouts ->
      entryOf (StaffPayout.staffId entry) (selected Demo.january 1 2025 None)
      = Some entry)
  /\ (forall work,
         In work (selected Demo.january 1 2025 None) ->
         exists entry,
           In entry Demo.januaryPayouts
           /\ StaffPayout.staffId entry = StaffWork.staffId work)
  /\ NoDup (map StaffPayout.staffId Demo.januaryPayouts).
Proof.
  apply (getStaffWorkPayoutPreview_entries Demo.january 1 2025 None
           Demo.januaryPayouts).
  vm_compute. reflexivity.
Defined.

Lemma filter_and {A : Type} (p q : A -> bool) (l : list A) :
  filter (fun x => p x && q x) l = filter q (filter p l).
Proof.
  induction l as [| x l IH]; simpl; [reflexivity |].
  destruct (p x); simpl; [destruct (q x); rewrite IH; reflexivity | exact IH].
Qed.

(** What the query selects: rows of the table, of WORK_BASIS staff,
    performed between the two bounds, and of the staff member asked for
    when a non-zero staffId is given. *)
Lemma selected_sound (db : Database) (month year : Z)
    (staffId : option JsNumber.t) (work : StaffWork.t) :
  In work (selected db month year staffId) ->
  In work (staffWorks db)
  /\ Staff.type (StaffWork.staff work) = WORK_BASIS
  /\ exists startDate endDate,
       JsDate.construct year (month - 1) 1 = Some startDate
       /\ JsDate.construct year month 0 = Some endDate
       /\ startDate <= StaffWork.performedAt work <= endDate.
Proof.
  unfold selected, findManyStaffWork, whereCondition.
  cbn [PayoutWhere.performedAt_gte PayoutWhere.performedAt_lte
       PayoutWhere.staff_type PayoutWhere.staffId].
  destruct (JsDate.construct year (month - 1) 1) as [s |]; [| intros []].
  destruct (JsDate.construct year month 0) as [e |]; [| intros []].
  assert (forall rows (extra : StaffWork.t -> bool),
            In work (filter (fun w =>
                       (s <=? StaffWork.performedAt w)
                       && (StaffWork.performedAt w <=? e)
                       && StaffType_eqb (Staff.type (StaffWork.staff w)) WORK_BASIS
                       && extra w) rows) ->
            In work rows
            /\ Staff.type (StaffWork.staff work) = WORK_BASIS
            /\ s <= StaffWork.performedAt work <= e) as Hfilter.
  { intros rows extra Hin. apply filter_In in Hin. destruct Hin as [Hin Hp].
    apply andb_true_iff in Hp. destruct Hp as [Hp _].
    apply andb_true_iff in Hp. destruct Hp as [Hp Htype].
    apply andb_true_iff in Hp. destruct Hp as [Hlo Hhi].
    apply Z.leb_le in Hlo. apply Z.leb_le in Hhi.
    split; [exact Hin |]. split; [| lia].
    destruct (Staff.type (StaffWork.staff work)); [discriminate | reflexivity]. }
  destruct (match staffId with
            | Some n => if JsNumber.truthy n then Some n else None
            | None => None
            end) as [[z |] |].
  - destruct (Prisma.int4 z); [| intros []].
    intros Hin. destruct (Hfilter _ (fun w => StaffWork.staffId w =? z) Hin)
      as [H1 [H2 H3]].
    split; [exact H1 |]. split; [exact H2 |]. exists s, e. tauto.
  - intros [].
  - intros Hin.
    assert (In work (filter (fun w =>
                       (s <=? StaffWork.performedAt w)
                       && (StaffWork.performedAt w <=? e)
                       && StaffType_eqb (Staff.type (StaffWork.staff w)) WORK_BASIS
                       && (fun _ => true) w) (staffWorks db))) as Hin'.
    { erewrite filter_ext; [exact Hin |]. intros w. cbn.
      rewrite andb_true_r. reflexivity. }
    destruct (Hfilter _ (fun _ => true) Hin') as [H1 [H2 H3]].
    split; [exact H1 |]. split; [exact H2 |]. exists s, e. tauto.
Qed.

(** X8. When the staff ids of the table are array indices (as the ids of
    a SERIAL column are), a preview that returns lists its entries in
    strictly ascending order of staffId, whatever the order of the work
    rows. *)
Theorem getStaffWorkPayoutPreview_ascending (db : Database) (month year : Z)
    (staffId : option JsNumber.t) (payouts : list StaffPayout.t) :
  (forall work, In work (staffWorks db) ->
                0 <= StaffWork.staffId work <= 4294967294) ->
  getStaffWorkPayoutPreview db month year staffId = Ok payouts ->
  StronglySorted Z.lt (map StaffPayout.staffId payouts).
Proof.
  intros Hids Hcall.
  destruct (preview_inv db month year staffId payouts Hcall)
    as [acc [_ [_ [-> [Hdesc [Hshaped _]]]]]].
  rewrite (values_keys _ acc Hdesc Hshaped).
  assert (JsObject.names acc = []) as Hnames.
  { destruct (JsObject.names acc) as [| [k e] rest] eqn:E; [reflexivity |].
    exfalso.
    assert (In (k, e) (JsObject.indices acc ++ JsObject.names acc)) as Hin.
    { apply in_or_app. right. rewrite E. left. reflexivity. }
    pose proof (shaped_get_of_In acc k e Hshaped Hin) as Hget.
    rewrite (Hdesc k) in Hget. unfold entryOf in Hget.
    destruct (staffRows k (selected db month year staffId))
      as [| first rest'] eqn:Hrows; [discriminate |].
    assert (In first (staffRows k (selected db month year staffId))) as Hfirst
      by (rewrite Hrows; left; reflexivity).
    unfold staffRows in Hfirst. apply filter_In in Hfirst.
    destruct Hfirst as [Hsel Hk]. apply Z.eqb_eq in Hk.
    apply selected_sound in Hsel. destruct Hsel as [Hrow _].
    specialize (Hids first Hrow). rewrite Hk in Hids.
    destruct Hshaped as [_ [_ [_ Hni]]]. rewrite E in Hni.
    inversion Hni as [| ? ? Hfalse _]; subst. cbn in Hfalse.
    unfold JsObject.isArrayIndex in Hfalse.
    apply andb_false_iff in Hfalse.
    destruct Hfalse as [H | H]; apply Z.leb_gt in H; lia. }
  rewrite Hnames, app_nil_r. destruct Hshaped as [Hs _]. exact Hs.
Qed.

(** X8 for January 2025: Sita's row comes first in the table, Ram (id 1)
    comes first in the preview. *)
Lemma getStaffWorkPayoutPreview_ascending_witness :
  StronglySorted Z.lt (map StaffPayout.staffId Demo.januaryPayouts).
Proof.
  apply (getStaffWorkPayoutPreview_ascending Demo.january 1 2025 None
           Demo.januaryPayouts).
  - intros work Hin. cbn in Hin.
    destruct Hin as [<- | [<- | [<- | [<- | []]]]]; cbn; lia.
  - vm_compute. reflexivity.
Defined.

Lemma payoutReduce_Throw (works : list StaffWork.t) :
  forall (acc : JsObject.t StaffPayout.t) (e : Exception),
    payoutReduce acc works = Throw e ->
    exists work, In work works /\ StaffWork.workItem work = None.
Proof.
  induction works as [| work works IH]; intros acc e Hred; simpl in Hred;
    [discriminate |].
  unfold payoutStep in Hred.
  destruct (StaffWork.workItem work) as [item |] eqn:Hitem.
  - destruct (IH _ _ Hred) as [w [Hin Hnone]].
    exists w. split; [right; exact Hin | exact Hnone].
  - exists work. split; [left; reflexivity | exact Hitem].
Qed.

Lemma findManyStaffWork_Throw (where_ : PayoutWhere.t)
    (rows : list StaffWork.t) (e : Exception) :
  findManyStaffWork where_ rows = Throw e -> e = PrismaClientValidationError.
Proof.
  unfold findManyStaffWork.
  destruct (PayoutWhere.performedAt_gte where_) as [gte |],
           (PayoutWhere.performedAt_lte where_) as [lte |];
    try (intros H; inversion H; reflexivity).
  destruct (PayoutWhere.staffId where_) as [[k |] |];
    try (intros H; inversion H; reflexivity).
  destruct (Prisma.int4 k); intros H; inversion H; reflexivity.
Qed.

(** X9. The preview throws a TypeError exactly when a selected row has no
    work item (an entry recorded by title): one such row in the month
    fails the whole preview, also for the other staff members. *)
Theorem getStaffWorkPayoutPreview_TypeError (db : Database) (month year : Z)
    (staffId : option JsNumber.t) :
  getStaffWorkPayoutPreview db month year staffId = Throw TypeError
  <-> exists work,
        In work (selected db month year staffId)
        /\ StaffWork.workItem work = None.
Proof.
  unfold getStaffWorkPayoutPreview, selected.
  destruct (findManyStaffWork _ _) as [rows | e] eqn:Hfind.
  - split.
    + destruct (payoutReduce JsObject.empty rows) as [acc | e] eqn:Hred;
        [discriminate |].
      intros _. apply (payoutReduce_Throw rows JsObject.empty e Hred).
    + intros Hex. rewrite (payoutReduce_throws rows JsObject.empty Hex).
      reflexivity.
  - split.
    + intros H. inversion H; subst.
      apply findManyStaffWork_Throw in Hfind. discriminate.
    + intros [w [[] _]].
Qed.

Example titled_preview :
  getStaffWorkPayoutPreview Demo.titled 1 2025 None = Throw TypeError.
Proof. vm_compute. reflexivity. Qed.

Lemma construct_carry (year month date : Z) :
  99 < year ->
  JsDate.construct year (month + 12) date
  = JsDate.construct (year + 1) month date.
Proof.
  intros Hyear. unfold JsDate.construct.
  assert ((0 <=? year) && (year <=? 99) = false) as E1.
  { apply andb_false_iff. right. apply Z.leb_gt. lia. }
  assert ((0 <=? year + 1) && (year + 1 <=? 99) = false) as E2.
  { apply andb_false_iff. right. apply Z.leb_gt. lia. }
  rewrite E1, E2. unfold JsDate.MakeDay.
  replace (month + 12) with (month + 1 * 12) by lia.
  rewrite Z.div_add, Z.mod_add by lia.
  replace (year + (month / 12 + 1)) with (year + 1 + month / 12) by lia.
  reflexivity.
Qed.

(** X10. The month is not validated: a month beyond 12 carries into the
    year, so for a four-digit year month + 12 of [year] is answered as
    month of [year + 1] (month 13 of 2025 is January 2026). *)
Theorem getStaffWorkPayoutPreview_month_carry (db : Database)
    (month year : Z) (staffId : option JsNumber.t) :
  99 < year ->
  getStaffWorkPayoutPreview db (month + 12) year staffId
  = getStaffWorkPayoutPreview db month (year + 1) staffId.
Proof.
  intros Hyear. unfold getStaffWorkPayoutPreview.
  replace (month + 12 - 1) with (month - 1 + 12) by lia.
  rewrite !construct_carry by exact Hyear. reflexivity.
Qed.

(** X10 for month 13 of 2024, answered as January 2025. *)
Lemma getStaffWorkPayoutPreview_month_carry_witness :
  getStaffWorkPayoutPreview Demo.january (1 + 12) 2024 None
  = getStaffWorkPayoutPreview Demo.january 1 (2024 + 1) None.
Proof.
  apply (getStaffWorkPayoutPreview_month_carry Demo.january 1 2024 None).
  lia.
Defined.

(** X12. Every line of a preview that returns is the line of a StaffWork
    row of the table that belongs to the entry's staff member, whose staff
    is WORK_BASIS and whose performedAt lies between
    [new Date(year, month - 1, 1)] and [new Date(year, month, 0)]: work of
    MONTHLY staff and work outside these bounds never appears. *)
Theorem getStaffWorkPayoutPreview_lines (db : Database) (month year : Z)
    (staffId : option JsNumber.t) (payouts : list StaffPayout.t)
    (entry : StaffPayout.t) (line : WorkLine.t) :
  getStaffWorkPayoutPreview db month year staffId = Ok payouts ->
  In entry payouts ->
  In line (StaffPayout.works entry) ->
  exists work item startDate endDate,
    In work (staffWorks db)
    /\ StaffWork.workItem work = Some item
    /\ line = lineFor item work
    /\ StaffWork.staffId work = StaffPayout.staffId entry
    /\ Staff.type (StaffWork.staff work) = WORK_BASIS
    /\ JsDate.construct year (month - 1) 1 = Some startDate
    /\ JsDate.construct year month 0 = Some endDate
    /\ startDate <= StaffWork.performedAt work <= endDate.
Proof.
  intros Hcall Hentry Hline.
  destruct (preview_inv db month year staffId payouts Hcall)
    as [acc [_ [_ [-> [Hdesc [Hshaped _]]]]]].
  pose proof (values_described _ acc entry Hdesc Hshaped Hentry) as Hof.
  unfold entryOf in Hof.
  destruct (staffRows (StaffPayout.staffId entry)
              (selected db month year staffId)) as [| first rest] eqn:Hrows;
    [discriminate |].
  rewrite <- Hrows in Hof.
  inversion Hof as [Heq]. rewrite <- Heq in Hline.
  cbn [StaffPayout.works] in Hline.
  unfold linesOf in Hline. apply in_flat_map in Hline.
  destruct Hline as [work [Hwork Hin]].
  unfold staffRows in Hwork.
  apply filter_In in Hwork. destruct Hwork as [Hsel Hid].
  apply Z.eqb_eq in Hid.
  destruct (StaffWork.workItem work) as [item |] eqn:Hitem; [| destruct Hin].
  destruct Hin as [<- | []].
  destruct (selected_sound _ _ _ _ _ Hsel) as [Hrow [Htype [s [e [Hs [He Hwin]]]]]].
  exists work, item, s, e. rewrite Heq. tauto.
Qed.

(** X12 for Ram's first line of January 2025. *)
Lemma getStaffWorkPayoutPreview_lines_witness :
  exists work item startDate endDate,
    In work (staffWorks Demo.january)
    /\ StaffWork.workItem work = Some item
    /\ WorkLine.mk 12 "Video edit" "Acme" (Some 3) (Some 500) 1500
         (JsDate.MakeDate (JsDate.MakeDay 2025 0 10) 0)
       = lineFor item work
    /\ StaffWork.staffId work = 1
    /\ Staff.type (StaffWork.staff work) = WORK_BASIS
    /\ JsDate.construct 2025 (1 - 1) 1 = Some startDate
    /\ JsDate.construct 2025 1 0 = Some endDate
    /\ startDate <= StaffWork.performedAt work <= endDate.
Proof.
  apply (getStaffWorkPayoutPreview_lines Demo.january 1 2025 None
           Demo.januaryPayouts
           (StaffPayout.mk 1 "Ram" 1900
              [ WorkLine.mk 12 "Video edit" "Acme" (Some 3) (Some 500) 1500
                  (JsDate.MakeDate (JsDate.MakeDay 2025 0 10) 0);
                WorkLine.mk 13 "Video edit" "No Client" (Some 2) (Some 200) 400
                  (JsDate.MakeDate (JsDate.MakeDay 2025 0 20) 0) ])).
  - vm_compute. reflexivity.
  - left. reflexivity.
  - left. reflexivity.
Defined.

End PayoutQueryFacts.

Section PayoutFilterFacts.

Import Grouping.

Lemma staffRows_idem (k : Z) (rows : list StaffWork.t) :
  staffRows k (staffRows k rows) = staffRows k rows.
Proof.
  unfold staffRows. induction rows as [| w rows IH]; simpl; [reflexivity |].
  destruct (StaffWork.staffId w =? k) eqn:E; simpl; [rewrite E, IH |];
    congruence.
Qed.

Lemma staffRows_other (k k' : Z) (rows : list StaffWork.t) :
  k' <> k -> staffRows k' (staffRows k rows) = [].
Proof.
  intros Hne. unfold staffRows.
  induction rows as [| w rows IH]; simpl; [reflexivity |].
  destruct (Z.eqb_spec (StaffWork.staffId w) k) as [Heq | Hneq]; simpl;
    [| exact IH].
  destruct (Z.eqb_spec (StaffWork.staffId w) k'); [congruence | exact IH].
Qed.

(** With a non-zero staffId that fits the column, the query selects the
    rows of that staff member among those it selects without staffId. *)
Lemma selected_staff (db : Database) (month year k : Z) :
  k <> 0 -> Prisma.int4 k = true ->
  selected db month year (Some (JsNumber.Int k))
  = staffRows k (selected db month year None).
Proof.
  intros Hk Hfits. unfold selected, findManyStaffWork, whereCondition.
  cbn [PayoutWhere.performedAt_gte PayoutWhere.performedAt_lte
       PayoutWhere.staff_type PayoutWhere.staffId JsNumber.truthy].
  destruct (Z.eqb_spec k 0) as [? | _]; [contradiction |]. cbn [negb].
  destruct (JsDate.construct year (month - 1) 1) as [s |]; [| reflexivity].
  destruct (JsDate.construct year month 0) as [e |]; [| reflexivity].
  rewrite Hfits. unfold staffRows.
  rewrite <- filter_and. reflexivity.
Qed.

Lemma filter_key_absent (k : Z) (l : list (Z * StaffPayout.t)) :
  (forall k' e', In (k', e') l -> StaffPayout.staffId e' = k') ->
  ~ In k (map fst l) ->
  filter (fun x => StaffPayout.staffId x =? k) (map snd l) = [].
Proof.
  induction l as [| [k' e'] l IH]; simpl; intros Hkeyed Hnotin;
    [reflexivity |].
  assert (StaffPayout.staffId e' = k') as Hk' by (apply Hkeyed; left; reflexivity).
  destruct (Z.eqb_spec (StaffPayout.staffId e') k) as [Hsame | Hdiff].
  - exfalso. apply Hnotin. left. congruence.
  - apply IH; [| tauto]. intros k2 e2 H. apply Hkeyed. right. exact H.
Qed.

Lemma filter_key_found (k : Z) (e : StaffPayout.t)
    (l : list (Z * StaffPayout.t)) :
  NoDup (map fst l) ->
  (forall k' e', In (k', e') l -> StaffPayout.staffId e' = k') ->
  In (k, e) l ->
  filter (fun x => StaffPayout.staffId x =? k) (map snd l) = [e].
Proof.
  induction l as [| [k' e'] l IH]; simpl; intros Hnd Hkeyed Hin;
    [contradiction |].
  inversion Hnd as [| ? ? Hnotin Hnd']; subst.
  assert (StaffPayout.staffId e' = k') as Hk' by (apply Hkeyed; left; reflexivity).
  destruct Hin as [Heq | Hin].
  - inversion Heq; subst. rewrite Z.eqb_refl. f_equal.
    apply filter_key_absent; [| exact Hnotin].
    intros k2 e2 H. apply Hkeyed. right. exact H.
  - destruct (Z.eqb_spec (StaffPayout.staffId e') k) as [Hsame | Hdiff].
    + exfalso. apply Hnotin. rewrite <- Hk', Hsame.
      apply (in_map fst) in Hin. exact Hin.
    + apply IH; [exact Hnd' | | exact Hin].
      intros k2 e2 H. apply Hkeyed. right. exact H.
Qed.

Lemma get_None_absent {V : Type} (o : JsObject.t V) (k : Z) :
  shaped o -> JsObject.get k o = None ->
  ~ In k (map fst (JsObject.indices o ++ JsObject.names o)).
Proof.
  intros Hshaped Hget Hin. apply in_map_iff in Hin.
  destruct Hin as [[k' v] [Hk Hin]]. cbn in Hk. subst k'.
  rewrite (shaped_get_of_In o k v Hshaped Hin) in Hget. discriminate.
Qed.

Lemma get_Some_In {V : Type} (o : JsObject.t V) (k : Z) (v : V) :
  JsObject.get k o = Some v ->
  In (k, v) (JsObject.indices o ++ JsObject.names o).
Proof.
  assert (forall l : list (Z * V), JsObject.lookup k l = Some v -> In (k, v) l)
    as Hlookup.
  { induction l as [| [k' v'] l IH]; simpl; [discriminate |].
    destruct (Z.eqb_spec k k') as [-> | Hne]; intros H.
    - inversion H. left. reflexivity.
    - right. apply IH. exact H. }
  unfold JsObject.get. intros Hget. apply in_or_app.
  destruct (JsObject.isArrayIndex k); [left | right]; apply Hlookup; exact Hget.
Qed.

(** The entries of one staff member among the values of the object. *)
Lemma values_of_staff (rows : list StaffWork.t)
    (acc : JsObject.t StaffPayout.t) (k : Z) :
  described rows acc -> shaped acc ->
  filter (fun x => StaffPayout.staffId x =? k) (JsObject.values acc)
  = match entryOf k rows with
    | Some entry => [entry]
    | None => []
    end.
Proof.
  intros Hdesc Hshaped. rewrite values_pairs.
  assert (forall k' e',
            In (k', e') (JsObject.indices acc ++ JsObject.names acc) ->
            StaffPayout.staffId e' = k') as Hkeyed.
  { intros k' e' Hin.
    pose proof (shaped_get_of_In acc k' e' Hshaped Hin) as Hget.
    rewrite (Hdesc k') in Hget. apply (entryOf_staffId k' rows). exact Hget. }
  destruct (entryOf k rows) as [entry |] eqn:Hof.
  - apply filter_key_found;
      [apply shaped_keys_NoDup; exact Hshaped | exact Hkeyed |].
    apply get_Some_In. rewrite (Hdesc k). exact Hof.
  - apply filter_key_absent; [exact Hkeyed |].
    apply get_None_absent; [exact Hshaped |]. rewrite (Hdesc k). exact Hof.
Qed.

Lemma filter_all {A : Type} (p : A -> bool) (l : list A) :
  (forall x, In x l -> p x = true) -> filter p l = l.
Proof.
  induction l as [| x l IH]; simpl; intros Hall; [reflexivity |].
  rewrite (Hall x (or_introl eq_refl)). f_equal. apply IH.
  intros y Hy. apply Hall. right. exact Hy.
Qed.

(** X11. When the preview without staffId returns, the preview for a
    non-zero staffId that fits the INTEGER column returns the entries of
    that staff member out of it: the one entry, or none. *)
Theorem getStaffWorkPayoutPreview_staff_filter (db : Database)
    (month year k : Z) (everyone : list StaffPayout.t) :
  k <> 0 ->
  Prisma.int4 k = true ->
  getStaffWorkPayoutPreview db month year None = Ok everyone ->
  getStaffWorkPayoutPreview db month year (Some (JsNumber.Int k))
  = Ok (filter (fun entry => StaffPayout.staffId entry =? k) everyone).
Proof.
  intros Hk Hfits Hall.
  destruct (preview_inv db month year None everyone Hall)
    as [acc [Hfind [Hred [-> [Hdesc [Hshaped Hitems]]]]]].
  assert (findManyStaffWork
            (whereCondition (JsDate.construct year (month - 1) 1)
                            (JsDate.construct year month 0)
                            (Some (JsNumber.Int k)))
            (staffWorks db)
          = Ok (staffRows k (selected db month year None))) as Hfind'.
  { rewrite <- (selected_staff db month year k Hk Hfits).
    unfold selected at 1. revert Hfind.
    unfold findManyStaffWork, whereCondition.
    cbn [PayoutWhere.performedAt_gte PayoutWhere.performedAt_lte
         PayoutWhere.staff_type PayoutWhere.staffId JsNumber.truthy].
    destruct (Z.eqb_spec k 0) as [? | _]; [contradiction |]. cbn [negb].
    destruct (JsDate.construct year (month - 1) 1) as [s |]; [| discriminate].
    destruct (JsDate.construct year month 0) as [e |]; [| discriminate].
    rewrite Hfits. reflexivity. }
  unfold getStaffWorkPayoutPreview. rewrite Hfind'.
  destruct (payoutReduce_returns (staffRows k (selected db month year None))
              (fun w Hin => Hitems w (proj1 (proj1 (filter_In _ _ _) Hin)))
              JsObject.empty) as [acck Hredk].
  rewrite Hredk. f_equal.
  destruct (payoutReduce_described _ [] JsObject.empty acck
              described_empty shaped_empty Hredk) as [Hdesck [Hshapedk _]].
  cbn [app] in Hdesck.
  rewrite (values_of_staff _ acc k Hdesc Hshaped).
  rewrite <- (filter_all (fun x => StaffPayout.staffId x =? k)
                (JsObject.values acck)).
  - rewrite (values_of_staff _ acck k Hdesck Hshapedk).
    unfold entryOf. rewrite staffRows_idem. reflexivity.
  - intros entry Hin. apply Z.eqb_eq.
    pose proof (values_described _ acck entry Hdesck Hshapedk Hin) as Hof.
    destruct (Z.eq_dec (StaffPayout.staffId entry) k) as [Heq | Hne];
      [exact Heq |].
    unfold entryOf in Hof. rewrite (staffRows_other k _ _ Hne) in Hof.
    discriminate.
Qed.

(** X11 for January 2025 and Sita (id 2). *)
Lemma getStaffWorkPayoutPreview_staff_filter_witness :
  getStaffWorkPayoutPreview Demo.january 1 2025 (Some (JsNumber.Int 2))
  = Ok (filter (fun entry => StaffPayout.staffId entry =? 2)
               Demo.januaryPayouts).
Proof.
  apply (getStaffWorkPayoutPreview_staff_filter Demo.january 1 2025 2
           Demo.januaryPayouts).
  - discriminate.
  - reflexivity.
  - vm_compute. reflexivity.
Defined.

End PayoutFilterFacts.

(* ===================================================================== *)
(** ** RemindersService: which clients the job selects *)
(* ===================================================================== *)

Section ReminderSelectionFacts.

Import RemindersService.

Lemma MonthFromTime_range (t : Z) : 0 <= JsDate.MonthFromTime t <= 11.
Proof.
  unfold JsDate.MonthFromTime.
  destruct (find _ _) as [m |] eqn:E; [| lia].
  apply find_some in E. destruct E as [Hin _]. simpl in Hin.
  repeat (destruct Hin as [<- | Hin]; [lia |]). contradiction.
Qed.

(** [d.setDate(n.getDate() + k)] for two Dates of the same month: the day
    of [n] moved by [k] days, at the time of day of [d]. *)
Lemma setDate_same_month (now fresh k : Z) :
  JsDate.YearFromTime fresh = JsDate.YearFromTime now ->
  JsDate.MonthFromTime fresh = JsDate.MonthFromTime now ->
  JsDate.setDate fresh (JsDate.getDate now + k)
  = (JsDate.Day now + k) * JsDate.msPerDay + JsDate.TimeWithinDay fresh.
Proof.
  intros Hy Hm.
  unfold JsDate.setDate, JsDate.getDate, JsDate.DateFromTime, JsDate.MakeDate,
    JsDate.MakeDay.
  rewrite Hy, Hm.
  pose proof (MonthFromTime_range now) as Hrange.
  rewrite Z.div_small, Z.mod_small, Z.add_0_r by lia.
  unfold JsDate.InLeapYear, JsDate.DayWithinYear.
  f_equal. f_equal. lia.
Qed.

Lemma setDate_getDate (now k : Z) :
  JsDate.setDate now (JsDate.getDate now + k) = now + k * JsDate.msPerDay.
Proof.
  rewrite setDate_same_month by reflexivity.
  unfold JsDate.Day, JsDate.TimeWithinDay, JsDate.msPerDay.
  pose proof (Z.div_mod now 86400000 ltac:(lia)). lia.
Qed.

Lemma day_bounds (t : Z) :
  JsDate.Day t * JsDate.msPerDay <= t < (JsDate.Day t + 1) * JsDate.msPerDay
  /\ 0 <= JsDate.TimeWithinDay t < JsDate.msPerDay.
Proof.
  unfold JsDate.Day, JsDate.TimeWithinDay, JsDate.msPerDay.
  pose proof (Z.div_mod t 86400000 ltac:(lia)).
  pose proof (Z.mod_pos_bound t 86400000 ltac:(lia)). lia.
Qed.

Lemma getClientsForReminder_clients (table : list Client.t) (now fresh : Z) :
  map ClientReminder.client (getClientsForReminder table now fresh)
  = filter (fun c =>
              (Client.contractStartDate c
               <=? JsDate.setDate fresh (JsDate.getDate now + 30))
              && (JsDate.setDate fresh (JsDate.getDate now + 30)
                  - 24 * 60 * 60 * 1000
                  <=? Client.contractStartDate c))
           table.
Proof.
  unfold getClientsForReminder. rewrite map_map. cbn [ClientReminder.client].
  apply map_id.
Qed.

Lemma selected_in_window (table : list Client.t) (now fresh : Z)
    (c : Client.t) :
  JsDate.YearFromTime fresh = JsDate.YearFromTime now ->
  JsDate.MonthFromTime fresh = JsDate.MonthFromTime now ->
  (In c (map ClientReminder.client (getClientsForReminder table now fresh))
   <-> In c table
       /\ (JsDate.Day now + 29) * JsDate.msPerDay + JsDate.TimeWithinDay fresh
          <= Client.contractStartDate c
          <= (JsDate.Day now + 30) * JsDate.msPerDay
             + JsDate.TimeWithinDay fresh).
Proof.
  intros Hy Hm.
  rewrite getClientsForReminder_clients, filter_In.
  rewrite (setDate_same_month now fresh 30 Hy Hm).
  rewrite andb_true_iff, !Z.leb_le. unfold JsDate.msPerDay. split.
  - intros [Hin [H1 H2]]. split; [exact Hin | lia].
  - intros [Hin [H1 H2]]. split; [exact Hin | lia].
Qed.

(** X13. When the two clock readings of the job fall in the same month,
    the job selects exactly the clients whose contractStartDate lies in
    the 24 hours that end 30 days after the day of [now], at the time of
    day of the second reading; with equal readings, the clients with
    now + 29 days <= contractStartDate <= now + 30 days. *)
Theorem getClientsForReminder_window (table : list Client.t) (now fresh : Z)
    (c : Client.t) :
  JsDate.YearFromTime fresh = JsDate.YearFromTime now ->
  JsDate.MonthFromTime fresh = JsDate.MonthFromTime now ->
  (In c (map ClientReminder.client (getClientsForReminder table now fresh))
   <-> In c table
       /\ (JsDate.Day now + 29) * JsDate.msPerDay + JsDate.TimeWithinDay fresh
          <= Client.contractStartDate c
          <= (JsDate.Day now + 30) * JsDate.msPerDay
             + JsDate.TimeWithinDay fresh)
  /\ (fresh = now ->
      (JsDate.Day now + 30) * JsDate.msPerDay + JsDate.TimeWithinDay fresh
      = now + 30 * JsDate.msPerDay).
Proof.
  intros Hy Hm. split.
  - apply selected_in_window; assumption.
  - intros ->. rewrite <- (setDate_same_month now now 30 eq_refl eq_refl).
    apply setDate_getDate.
Qed.

(** X13 for the sample clients at readings 7 ms apart. *)
Lemma getClientsForReminder_window_witness :
  (In (Client.mk 1 "Acme" (Sample.now + 30 * JsDate.msPerDay - 3600000)
         365 ACTIVE 0 0 0)
      (map ClientReminder.client
           (getClientsForReminder Sample.dueSoon Sample.now (Sample.now + 7)))
   <-> In (Client.mk 1 "Acme" (Sample.now + 30 * JsDate.msPerDay - 3600000)
             365 ACTIVE 0 0 0)
          Sample.dueSoon
       /\ (JsDate.Day Sample.now + 29) * JsDate.msPerDay
          + JsDate.TimeWithinDay (Sample.now + 7)
          <= Sample.now + 30 * JsDate.msPerDay - 3600000
          <= (JsDate.Day Sample.now + 30) * JsDate.msPerDay
             + JsDate.TimeWithinDay (Sample.now + 7))
  /\ (Sample.now + 7 = Sample.now ->
      (JsDate.Day Sample.now + 30) * JsDate.msPerDay
      + JsDate.TimeWithinDay (Sample.now + 7)
      = Sample.now + 30 * JsDate.msPerDay).
Proof.
  apply (getClientsForReminder_window Sample.dueSoon Sample.now (Sample.now + 7)
           (Client.mk 1 "Acme" (Sample.now + 30 * JsDate.msPerDay - 3600000)
              365 ACTIVE 0 0 0)).
  - vm_compute. reflexivity.
  - vm_compute. reflexivity.
Defined.

Lemma ceiling_bounds (a : Z) :
  (Qceiling (a # msPerDay_pos) - 1) * JsDate.msPerDay < a
  <= Qceiling (a # msPerDay_pos) * JsDate.msPerDay.
Proof.
  unfold Qceiling, Qfloor, Qopp, msPerDay_pos, JsDate.msPerDay.
  cbn [Qnum Qden].
  pose proof (Z.div_mod (- a) 86400000 ltac:(lia)).
  pose proof (Z.mod_pos_bound (- a) 86400000 ltac:(lia)).
  change (Z.pos 86400000) with 86400000. lia.
Qed.

Lemma getClientsForReminder_In (table : list Client.t) (now fresh : Z)
    (r : ClientReminder.t) :
  In r (getClientsForReminder table now fresh) ->
  In (ClientReminder.client r)
     (map ClientReminder.client (getClientsForReminder table now fresh))
  /\ ClientReminder.daysUntilExpiry r
     = Qceiling
         ((Client.contractStartDate (ClientReminder.client r)
           + Client.contractDurationDays (ClientReminder.client r)
             * 24 * 60 * 60 * 1000 - now)
          # msPerDay_pos)
  /\ PriorityAndStage.mk (ClientReminder.priority r) (ClientReminder.stage r)
     = getPriorityAndStages
         (Client.contractDurationDays (ClientReminder.client r))
         (ClientReminder.daysUntilExpiry r).
Proof.
  intros Hin. split; [apply in_map; exact Hin |].
  unfold getClientsForReminder in Hin. apply in_map_iff in Hin.
  destruct Hin as [c [<- _]]. cbn.
  split; [reflexivity |].
  destruct (getPriorityAndStages _ _); reflexivity.
Qed.

(** X14. When the two clock readings fall in the same month and contract
    durations are not negative, every client the job selects has between
    duration + 29 and duration + 31 days until expiry, and is therefore
    classified MEDIUM / INITIAL: the job never produces a HIGH / MIDPOINT
    or an URGENT / FINAL reminder. *)
Theorem getClientsForReminder_always_initial (table : list Client.t)
    (now fresh : Z) (r : ClientReminder.t) :
  JsDate.YearFromTime fresh = JsDate.YearFromTime now ->
  JsDate.MonthFromTime fresh = JsDate.MonthFromTime now ->
  (forall c, In c table -> 0 <= Client.contractDurationDays c) ->
  In r (getClientsForReminder table now fresh) ->
  Client.contractDurationDays (ClientReminder.client r) + 29
  <= ClientReminder.daysUntilExpiry r
  <= Client.contractDurationDays (ClientReminder.client r) + 31
  /\ ClientReminder.priority r = ReminderPriority.MEDIUM
  /\ ClientReminder.stage r = ReminderStage.INITIAL.
Proof.
  intros Hy Hm Hdur Hin.
  destruct (getClientsForReminder_In table now fresh r Hin)
    as [Hclient [Hdays Hclass]].
  apply (selected_in_window table now fresh _ Hy Hm) in Hclient. destruct Hclient as [Hrow Hstart].
  specialize (Hdur _ Hrow).
  pose proof (ceiling_bounds
                (Client.contractStartDate (ClientReminder.client r)
                 + Client.contractDurationDays (ClientReminder.client r)
                   * 24 * 60 * 60 * 1000 - now)) as Hceil.
  rewrite <- Hdays in Hceil.
  destruct (day_bounds now) as [Hnow _].
  destruct (day_bounds fresh) as [_ Hfresh].
  unfold JsDate.msPerDay in *.
  assert (Client.contractDurationDays (ClientReminder.client r) + 29
          <= ClientReminder.daysUntilExpiry r
          <= Client.contractDurationDays (ClientReminder.client r) + 31)
    as Hbounds by lia.
  split; [exact Hbounds |].
  unfold getPriorityAndStages in Hclass. rewrite floor_half, floor_quarter in Hclass.
  pose proof (Z.div_le_upper_bound
                (Client.contractDurationDays (ClientReminder.client r)) 4
                (Client.contractDurationDays (ClientReminder.client r))
                ltac:(lia) ltac:(lia)) as Hq.
  pose proof (Z.div_le_upper_bound
                (Client.contractDurationDays (ClientReminder.client r)) 2
                (Client.contractDurationDays (ClientReminder.client r))
                ltac:(lia) ltac:(lia)) as Hh.
  destruct (Z.leb_spec (ClientReminder.daysUntilExpiry r)
              (Client.contractDurationDays (ClientReminder.client r) / 4));
    [lia |].
  destruct (Z.leb_spec (ClientReminder.daysUntilExpiry r)
              (Client.contractDurationDays (ClientReminder.client r) / 2));
    [lia |].
  inversion Hclass. split; reflexivity.
Qed.

(** X14 for Bolt, a 40-day contract that starts 30 days from now. *)
Lemma getClientsForReminder_always_initial_witness :
  40 + 29 <= 70 <= 40 + 31
  /\ ReminderPriority.MEDIUM = ReminderPriority.MEDIUM
  /\ ReminderStage.INITIAL = ReminderStage.INITIAL.
Proof.
  apply (getClientsForReminder_always_initial Sample.dueSoon Sample.now Sample.now
           (ClientReminder.mk
              (Client.mk 2 "Bolt" (Sample.now + 30 * JsDate.msPerDay - 7200000)
                 40 ACTIVE 0 0 0)
              70 ReminderPriority.MEDIUM ReminderStage.INITIAL)).
  - reflexivity.
  - reflexivity.
  - intros c [<- | [<- | []]]; cbn; lia.
  - vm_compute. right. left. reflexivity.
Defined.

End ReminderSelectionFacts.

(* ===================================================================== *)
(** ** RemindersService: inserts that fail, and runs that repeat *)
(* ===================================================================== *)

Section ReminderRunFacts.

Import RemindersService.

Variable env : Collaborators.t.

Lemma remind_when_created (reminder : ClientReminder.t) (w : World.t) :
  Collaborators.createSucceeds env (List.length (World.adminReminders w))
    (createData (reminderDataFor reminder)) = true ->
  remind env reminder w
  = (Ok tt,
     World.mk
       (World.adminReminders w ++ [createData (reminderDataFor reminder)])
       (World.outbox w ++ [mailOptionsFor env reminder])
       (World.logger w
        ++ Reference.dispatchLog env (List.length (World.outbox w)) [reminder])).
Proof.
  intros Hcreate.
  unfold remind, createAdminReminder, adminReminderCreate, Job.bind.
  rewrite Hcreate.
  unfold sendAdminReminderEmail, Job.tryCatch, Job.bind, sendMail, Job.write.
  cbn [World.adminReminders World.outbox World.logger Reference.dispatchLog].
  destruct (Collaborators.transporterAccepts env _ _); reflexivity.
Qed.

Lemma remind_when_refused (reminder : ClientReminder.t) (w : World.t) :
  Collaborators.createSucceeds env (List.length (World.adminReminders w))
    (createData (reminderDataFor reminder)) = false ->
  remind env reminder w = (Throw PrismaClientKnownRequestError, w).
Proof.
  intros Hcreate.
  unfold remind, createAdminReminder, adminReminderCreate, Job.bind.
  rewrite Hcreate. reflexivity.
Qed.

Lemma forOf_remind_stops (before : list ClientReminder.t) :
  forall (failing : ClientReminder.t) (after : list ClientReminder.t)
         (w : World.t),
    (forall n row,
        (n < List.length (World.adminReminders w) + List.length before)%nat ->
        Collaborators.createSucceeds env n row = true) ->
    (forall row,
        Collaborators.createSucceeds env
          (List.length (World.adminReminders w) + List.length before) row
        = false) ->
    Job.forOf (before ++ failing :: after) (remind env) w
    = (Throw PrismaClientKnownRequestError,
       World.mk
         (World.adminReminders w
          ++ map (fun r => createData (reminderDataFor r)) before)
         (World.outbox w ++ map (mailOptionsFor env) before)
         (World.logger w
          ++ Reference.dispatchLog env (List.length (World.outbox w)) before)).
Proof.
  induction before as [| r before IH]; intros failing after w Hgood Hbad.
  - cbn [app Job.forOf]. unfold Job.bind.
    rewrite remind_when_refused.
    + cbn. rewrite !app_nil_r. destruct w; reflexivity.
    + specialize (Hbad (createData (reminderDataFor failing))).
      cbn [List.length] in Hbad. rewrite Nat.add_0_r in Hbad. exact Hbad.
  - cbn [app Job.forOf]. unfold Job.bind at 1.
    rewrite remind_when_created
      by (apply Hgood; cbn [List.length]; lia).
    rewrite IH.
    + cbn [World.adminReminders World.outbox World.logger map
           Reference.dispatchLog].
      rewrite <- !app_assoc. cbn [app].
      rewrite length_app, Nat.add_1_r. reflexivity.
    + intros n row Hn. apply Hgood.
      cbn [World.adminReminders List.length] in *.
      rewrite length_app in Hn. cbn [List.length] in Hn. lia.
    + intros row. cbn [World.adminReminders].
      rewrite length_app. cbn [List.length].
      replace (List.length (World.adminReminders w) + 1 + List.length before)%nat
        with (List.length (World.adminReminders w) + S (List.length before))%nat
        by lia.
      apply Hbad.
Qed.

End ReminderRunFacts.

(** X15. An insert into AdminReminder that fails is not caught: the run
    throws at that client.  The clients before it have their row and their
    message; the failing client and the clients after it get neither, and
    the closing log line is not written. *)
Theorem processReminders_stops_at_failed_insert (env : Collaborators.t)
    (before after : list ClientReminder.t) (failing : ClientReminder.t)
    (w : World.t) :
  (forall n row,
      (n < List.length (World.adminReminders w) + List.length before)%nat ->
      Collaborators.createSucceeds env n row = true) ->
  (forall row,
      Collaborators.createSucceeds env
        (List.length (World.adminReminders w) + List.length before) row
      = false) ->
  RemindersService.processReminders env (before ++ failing :: after) w
  = (Throw PrismaClientKnownRequestError,
     World.mk
       (World.adminReminders w
        ++ map (fun r => RemindersService.createData
                           (RemindersService.reminderDataFor r)) before)
       (World.outbox w ++ map (RemindersService.mailOptionsFor env) before)
       (World.logger w
        ++ Reference.dispatchLog env (List.length (World.outbox w)) before)).
Proof.
  intros Hgood Hbad. unfold RemindersService.processReminders, Job.bind.
  rewrite (forOf_remind_stops env before failing after w Hgood Hbad).
  reflexivity.
Qed.

(** X15 for three clients when the second insert fails. *)
Lemma processReminders_stops_at_failed_insert_witness :
  RemindersService.processReminders Demo.secondInsertFails
    ([Demo.acmeReminder] ++ Demo.codaReminder :: [Demo.duneReminder])
    Sample.emptyWorld
  = (Throw PrismaClientKnownRequestError,
     World.mk
       (World.adminReminders Sample.emptyWorld
        ++ map (fun r => RemindersService.createData
                           (RemindersService.reminderDataFor r))
               [Demo.acmeReminder])
       (World.outbox Sample.emptyWorld
        ++ map (RemindersService.mailOptionsFor Demo.secondInsertFails)
               [Demo.acmeReminder])
       (World.logger Sample.emptyWorld
        ++ Reference.dispatchLog Demo.secondInsertFails
             (List.length (World.outbox Sample.emptyWorld))
             [Demo.acmeReminder])).
Proof.
  apply (processReminders_stops_at_failed_insert Demo.secondInsertFails
           [Demo.acmeReminder] [Demo.duneReminder] Demo.codaReminder
           Sample.emptyWorld).
  - intros n row Hn. cbn in Hn.
    assert (n = 0%nat) as -> by lia. reflexivity.
  - intros row. reflexivity.
Defined.

(** X16. The job keeps no record of what it sent: run again at the same
    clock readings on the same Client table, with inserts that succeed, it
    inserts the same AdminReminder rows a second time and hands the same
    messages to the transporter again. *)
Theorem sendContractExpiryReminders_repeats (env : Collaborators.t)
    (table : list Client.t) (now fresh : Z) (w : World.t) :
  (forall n row, Collaborators.createSucceeds env n row = true) ->
  World.adminReminders
    (snd (RemindersService.sendContractExpiryReminders env table now fresh
            (snd (RemindersService.sendContractExpiryReminders env table
                    now fresh w))))
  = World.adminReminders w
    ++ map (fun r => RemindersService.createData
                       (RemindersService.reminderDataFor r))
           (RemindersService.getClientsForReminder table now fresh)
    ++ map (fun r => RemindersService.createData
                       (RemindersService.reminderDataFor r))
           (RemindersService.getClientsForReminder table now fresh)
  /\ World.outbox
       (snd (RemindersService.sendContractExpiryReminders env table now fresh
               (snd (RemindersService.sendContractExpiryReminders env table
                       now fresh w))))
     = World.outbox w
       ++ map (RemindersService.mailOptionsFor env)
              (RemindersService.getClientsForReminder table now fresh)
       ++ map (RemindersService.mailOptionsFor env)
              (RemindersService.getClientsForReminder table now fresh).
Proof.
  intros Hcreate. unfold RemindersService.sendContractExpiryReminders.
  rewrite !(processReminders_returns env Hcreate).
  cbn [snd World.adminReminders World.outbox].
  rewrite <- !app_assoc. split; reflexivity.
Qed.

(** X16 for the two sample clients and collaborators that never fail. *)
Lemma sendContractExpiryReminders_repeats_witness :
  World.adminReminders
    (snd (RemindersService.sendContractExpiryReminders Demo.reliable
            Sample.dueSoon Sample.now Sample.now
            (snd (RemindersService.sendContractExpiryReminders Demo.reliable
                    Sample.dueSoon Sample.now Sample.now Sample.emptyWorld))))
  = World.adminReminders Sample.emptyWorld
    ++ map (fun r => RemindersService.createData
                       (RemindersService.reminderDataFor r))
           (RemindersService.getClientsForReminder
              Sample.dueSoon Sample.now Sample.now)
    ++ map (fun r => RemindersService.createData
                       (RemindersService.reminderDataFor r))
           (RemindersService.getClientsForReminder
              Sample.dueSoon Sample.now Sample.now)
  /\ World.outbox
       (snd (RemindersService.sendContractExpiryReminders Demo.reliable
               Sample.dueSoon Sample.now Sample.now
               (snd (RemindersService.sendContractExpiryReminders Demo.reliable
                       Sample.dueSoon Sample.now Sample.now Sample.emptyWorld))))
     = World.outbox Sample.emptyWorld
       ++ map (RemindersService.mailOptionsFor Demo.reliable)
              (RemindersService.getClientsForReminder
                 Sample.dueSoon Sample.now Sample.now)
       ++ map (RemindersService.mailOptionsFor Demo.reliable)
              (RemindersService.getClientsForReminder
                 Sample.dueSoon Sample.now Sample.now).
Proof.
  apply (sendContractExpiryReminders_repeats Demo.reliable Sample.dueSoon
           Sample.now Sample.now Sample.emptyWorld).
  intros n row. reflexivity.
Defined.

(* ===================================================================== *)
(** ** Ordered queries *)
(* ===================================================================== *)

Section OrderByFacts.
Context {A : Type} (leb : A -> A -> bool).

Lemma insert_perm (x : A) (l : list A) :
  Permutation (OrderBy.insert leb x l) (x :: l).
Proof.
  induction l as [| y l IH]; simpl; [reflexivity |].
  destruct (leb x y); [reflexivity |].
  rewrite IH. apply perm_swap.
Qed.

Lemma sort_perm (l : list A) : Permutation (OrderBy.sort leb l) l.
Proof.
  induction l as [| x l IH]; simpl; [reflexivity |].
  rewrite insert_perm, IH. reflexivity.
Qed.

Lemma sort_In (l : list A) (x : A) : In x (OrderBy.sort leb l) <-> In x l.
Proof.
  split; apply Permutation_in; [| symmetry]; apply sort_perm.
Qed.

Hypothesis leb_total : forall a b, leb a b = true \/ leb b a = true.
Hypothesis leb_trans :
  forall a b c, leb a b = true -> leb b c = true -> leb a c = true.

Lemma insert_sorted (x : A) (l : list A) :
  StronglySorted (fun a b => leb a b = true) l ->
  StronglySorted (fun a b => leb a b = true) (OrderBy.insert leb x l).
Proof.
  induction l as [| y l IH]; simpl; intros Hs.
  - constructor; constructor.
  - inversion Hs as [| ? ? Hs' Hall]; subst.
    destruct (leb x y) eqn:E.
    + constructor; [exact Hs |]. constructor; [exact E |].
      eapply Forall_impl; [| exact Hall]. intros z Hz.
      apply (leb_trans x y z); assumption.
    + constructor; [apply IH; exact Hs' |].
      apply Forall_forall. intros z Hz.
      apply (Permutation_in _ (insert_perm x l)) in Hz.
      destruct Hz as [<- | Hz].
      * destruct (leb_total x y) as [H | H]; [congruence | exact H].
      * rewrite Forall_forall in Hall. apply Hall. exact Hz.
Qed.

Lemma sort_sorted (l : list A) :
  StronglySorted (fun a b => leb a b = true) (OrderBy.sort leb l).
Proof.
  induction l as [| x l IH]; simpl; [constructor |].
  apply insert_sorted. exact IH.
Qed.

End OrderByFacts.

(* ===================================================================== *)
(** ** RemindersService: the AdminReminder table *)
(* ===================================================================== *)

Section ReminderAdminFacts.

Import ReminderAdmin.

Lemma activeOrder_total (a b : StoredReminder.t) :
  activeOrder a b = true \/ activeOrder b a = true.
Proof.
  unfold activeOrder.
  set (ra := priorityRank (AdminReminder.priority (StoredReminder.fields a))).
  set (rb := priorityRank (AdminReminder.priority (StoredReminder.fields b))).
  set (da := AdminReminder.dueDate (StoredReminder.fields a)).
  set (db := AdminReminder.dueDate (StoredReminder.fields b)).
  destruct (Z.ltb_spec rb ra), (Z.ltb_spec ra rb), (Z.eqb_spec ra rb),
    (Z.eqb_spec rb ra), (Z.leb_spec da db), (Z.leb_spec db da);
    cbn; try tauto; lia.
Qed.

Lemma activeOrder_spec (a b : StoredReminder.t) :
  activeOrder a b = true
  <-> priorityRank (AdminReminder.priority (StoredReminder.fields b))
      < priorityRank (AdminReminder.priority (StoredReminder.fields a))
      \/ (AdminReminder.priority (StoredReminder.fields a)
          = AdminReminder.priority (StoredReminder.fields b)
          /\ AdminReminder.dueDate (StoredReminder.fields a)
             <= AdminReminder.dueDate (StoredReminder.fields b)).
Proof.
  unfold activeOrder.
  rewrite orb_true_iff, andb_true_iff, Z.ltb_lt, Z.eqb_eq, Z.leb_le.
  assert (priorityRank (AdminReminder.priority (StoredReminder.fields a))
          = priorityRank (AdminReminder.priority (StoredReminder.fields b))
          <-> AdminReminder.priority (StoredReminder.fields a)
              = AdminReminder.priority (StoredReminder.fields b)) as Hrank.
  { destruct (AdminReminder.priority (StoredReminder.fields a)),
             (AdminReminder.priority (StoredReminder.fields b));
      cbn; split; intros H; try reflexivity; try discriminate; lia. }
  rewrite Hrank. reflexivity.
Qed.

Lemma activeOrder_trans (a b c : StoredReminder.t) :
  activeOrder a b = true -> activeOrder b c = true -> activeOrder a c = true.
Proof.
  rewrite !activeOrder_spec.
  intros [H1 | [H1 H1']] [H2 | [H2 H2']].
  - left. lia.
  - left. rewrite <- H2. exact H1.
  - left. rewrite H1. exact H2.
  - right. split; [congruence | lia].
Qed.

Lemma getActiveReminders_In (rows : list StoredReminder.t) (now : Z)
    (r : StoredReminder.t) :
  In r (getActiveReminders rows now)
  <-> In r rows
      /\ StoredReminder.isCompleted r = false
      /\ now <= AdminReminder.dueDate (StoredReminder.fields r).
Proof.
  unfold getActiveReminders. rewrite sort_In, filter_In.
  unfold activeWhere. rewrite andb_true_iff, negb_true_iff, Z.leb_le.
  reflexivity.
Qed.

(** X17. getActiveReminders returns the reminders that are not completed
    and are due at [now] or later, each as often as it is stored, ordered
    by priority from URGENT down to LOW and, within one priority, by
    ascending dueDate. *)
Theorem getActiveReminders_sorted (rows : list StoredReminder.t) (now : Z) :
  (forall r,
      In r (getActiveReminders rows now)
      <-> In r rows
          /\ StoredReminder.isCompleted r = false
          /\ now <= AdminReminder.dueDate (StoredReminder.fields r))
  /\ Permutation (getActiveReminders rows now) (filter (activeWhere now) rows)
  /\ StronglySorted
       (fun a b =>
          priorityRank (AdminReminder.priority (StoredReminder.fields b))
          < priorityRank (AdminReminder.priority (StoredReminder.fields a))
          \/ (AdminReminder.priority (StoredReminder.fields a)
              = AdminReminder.priority (StoredReminder.fields b)
              /\ AdminReminder.dueDate (StoredReminder.fields a)
                 <= AdminReminder.dueDate (StoredReminder.fields b)))
       (getActiveReminders rows now).
Proof.
  split; [intros r; apply getActiveReminders_In |].
  split; [apply sort_perm |].
  pose proof (sort_sorted activeOrder activeOrder_total activeOrder_trans
                (filter (activeWhere now) rows)) as Hs.
  unfold getActiveReminders.
  induction Hs as [| x l Hs IH Hall]; constructor; [exact IH |].
  eapply Forall_impl; [| exact Hall].
  intros y Hy. apply activeOrder_spec. exact Hy.
Qed.

Example desk_active :
  map StoredReminder.id (getActiveReminders Demo.desk (Sample.now + 200))
  = [2; 1].
Proof. vm_compute. reflexivity. Qed.

Lemma findUnique_key {A : Type} (key : A -> Z) (id : Z) (rows : list A) (r : A) :
  Prisma.findUnique key id rows = Some r -> In r rows /\ key r = id.
Proof.
  unfold Prisma.findUnique. intros H. apply find_some in H.
  destruct H as [Hin H]. apply Z.eqb_eq in H. tauto.
Qed.

Lemma markReminderAsCompleted_inv (rows rows' : list StoredReminder.t)
    (id : Z) (done : StoredReminder.t) :
  markReminderAsCompleted rows id = (Ok done, rows') ->
  StoredReminder.id done = id
  /\ StoredReminder.isCompleted done = true
  /\ rows' = map (fun x => if StoredReminder.id x =? id then done else x) rows.
Proof.
  unfold markReminderAsCompleted.
  destruct (Prisma.findUnique StoredReminder.id id rows) as [r |] eqn:E;
    [| discriminate].
  intros H. inversion H; subst. clear H.
  apply findUnique_key in E. destruct E as [_ E].
  cbn. repeat split. exact E.
Qed.

(** X18. After markReminderAsCompleted returns for an id, the returned row
    is completed and no reminder with that id is active any more, at any
    time; the reminders of other ids are active exactly as before. *)
Theorem markReminderAsCompleted_deactivates (rows rows' : list StoredReminder.t)
    (id now : Z) (done x : StoredReminder.t) :
  markReminderAsCompleted rows id = (Ok done, rows') ->
  StoredReminder.id done = id
  /\ StoredReminder.isCompleted done = true
  /\ (In x (getActiveReminders rows' now)
      <-> In x (getActiveReminders rows now) /\ StoredReminder.id x <> id).
Proof.
  intros Hcall.
  destruct (markReminderAsCompleted_inv rows rows' id done Hcall)
    as [Hid [Hdone ->]].
  split; [exact Hid |]. split; [exact Hdone |].
  rewrite !getActiveReminders_In, in_map_iff. split.
  - intros [[y [Hy Hin]] [Hopen Hdue]].
    destruct (Z.eqb_spec (StoredReminder.id y) id) as [Heq | Hne].
    + subst x. congruence.
    + subst x. tauto.
  - intros [[Hin [Hopen Hdue]] Hne].
    split; [| tauto]. exists x. split; [| exact Hin].
    destruct (Z.eqb_spec (StoredReminder.id x) id); [contradiction | reflexivity].
Qed.

(** X18 for reminder 2 of the sample desk. *)
Lemma markReminderAsCompleted_deactivates_witness :
  StoredReminder.id
    (StoredReminder.mk 2
       (AdminReminder.mk "Call" None ReminderType.GENERAL ReminderPriority.URGENT
          (Sample.now + 900) None None None) true) = 2
  /\ StoredReminder.isCompleted
       (StoredReminder.mk 2
          (AdminReminder.mk "Call" None ReminderType.GENERAL
             ReminderPriority.URGENT (Sample.now + 900) None None None) true)
     = true
  /\ (In (StoredReminder.mk 1
            (AdminReminder.mk "Renew" None ReminderType.GENERAL
               ReminderPriority.MEDIUM (Sample.now + 500) None None None) false)
         (getActiveReminders (snd (markReminderAsCompleted Demo.desk 2))
            (Sample.now + 200))
      <-> In (StoredReminder.mk 1
                (AdminReminder.mk "Renew" None ReminderType.GENERAL
                   ReminderPriority.MEDIUM (Sample.now + 500) None None None)
                false)
             (getActiveReminders Demo.desk (Sample.now + 200))
          /\ StoredReminder.id
               (StoredReminder.mk 1
                  (AdminReminder.mk "Renew" None ReminderType.GENERAL
                     ReminderPriority.MEDIUM (Sample.now + 500) None None None)
                  false) <> 2).
Proof.
  apply (markReminderAsCompleted_deactivates Demo.desk
           (snd (markReminderAsCompleted Demo.desk 2)) 2 (Sample.now + 200)).
  reflexivity.
Defined.



Lemma existsb_eqb_false (k : Z) (keys : list Z) :
  ~ In k keys -> existsb (Z.eqb k) keys = false.
Proof.
  intros Hnotin. destruct (existsb (Z.eqb k) keys) eqn:E; [| reflexivity].
  apply existsb_exists in E. destruct E as [x [Hin Hx]].
  apply Z.eqb_eq in Hx. subst x. contradiction.
Qed.

(** X20. createReminder for a non-zero clientId that no Client row has
    throws, writes one error line to the log and inserts nothing. *)
Theorem createReminder_unknown_client (db : Database) (serial k : Z)
    (dto : CreateReminderDto.t) (desk : ReminderDesk.t) :
  CreateReminderDto.clientId dto = Some k ->
  k <> 0 ->
  (forall c, In c (clients db) -> Client.id c <> k) ->
  createReminder db serial dto desk
  = (Throw PrismaClientKnownRequestError,
     ReminderDesk.mk
       (ReminderDesk.rows desk)
       (ReminderDesk.logger desk
        ++ [LogEntry.error "Error creating reminder"
              PrismaClientKnownRequestError])).
Proof.
  intros Hclient Hk Hnone. unfold createReminder.
  rewrite Hclient. cbn [checked].
  destruct (Z.eqb_spec k 0) as [? | _]; [contradiction |].
  rewrite existsb_eqb_false; [reflexivity |].
  intros Hin. apply in_map_iff in Hin. destruct Hin as [c [Hc Hin]].
  apply (Hnone c Hin). exact Hc.
Qed.

(** X20 for client 9 on the ledger of Acme. *)
Lemma createReminder_unknown_client_witness :
  createReminder Sample.ledger 5 Demo.forMissingClient Demo.emptyDesk
  = (Throw PrismaClientKnownRequestError,
     ReminderDesk.mk
       (ReminderDesk.rows Demo.emptyDesk)
       (ReminderDesk.logger Demo.emptyDesk
        ++ [LogEntry.error "Error creating reminder"
              PrismaClientKnownRequestError])).
Proof.
  apply (createReminder_unknown_client Sample.ledger 5 9
           Demo.forMissingClient Demo.emptyDesk).
  - reflexivity.
  - discriminate.
  - intros c [<- | []]. discriminate.
Defined.

(** X21. A clientId of 0 is not looked up; with no Client row of id 0 the
    insert fails on its foreign key, and since the insert is returned
    without being awaited the failure is thrown without a log line:
    nothing is inserted and nothing is logged. *)
Theorem createReminder_client_zero (db : Database) (serial : Z)
    (dto : CreateReminderDto.t) (desk : ReminderDesk.t) :
  CreateReminderDto.clientId dto = Some 0 ->
  CreateReminderDto.staffId dto = None ->
  (forall c, In c (clients db) -> Client.id c <> 0) ->
  createReminder db serial dto desk
  = (Throw PrismaClientKnownRequestError, desk).
Proof.
  intros Hclient Hstaff Hnone. unfold createReminder.
  rewrite Hclient, Hstaff. cbn [checked referenced Z.eqb andb negb].
  rewrite existsb_eqb_false; [reflexivity |].
  intros Hin. apply in_map_iff in Hin. destruct Hin as [c [Hc Hin]].
  apply (Hnone c Hin). exact Hc.
Qed.

(** X21 on the ledger of Acme (id 1). *)
Lemma createReminder_client_zero_witness :
  createReminder Sample.ledger 5 Demo.forClientZero Demo.emptyDesk
  = (Throw PrismaClientKnownRequestError, Demo.emptyDesk).
Proof.
  apply (createReminder_client_zero Sample.ledger 5 Demo.forClientZero
           Demo.emptyDesk).
  - reflexivity.
  - reflexivity.
  - intros c [<- | []]. discriminate.
Defined.

(** X22. A createReminder that returns has appended one row and logged
    nothing; the row has priority MEDIUM when none was sent and is not
    completed unless the request said so; and it is among the active
    reminders at [now] exactly when it is not completed and due at [now]
    or later. *)
Theorem createReminder_then_active (db : Database) (serial now : Z)
    (dto : CreateReminderDto.t) (desk desk' : ReminderDesk.t)
    (r : StoredReminder.t) :
  createReminder db serial dto desk = (Ok r, desk') ->
  ReminderDesk.rows desk' = ReminderDesk.rows desk ++ [r]
  /\ ReminderDesk.logger desk' = ReminderDesk.logger desk
  /\ StoredReminder.id r = serial
  /\ (CreateReminderDto.priority dto = None ->
      AdminReminder.priority (StoredReminder.fields r) = ReminderPriority.MEDIUM)
  /\ (CreateReminderDto.isCompleted dto = None ->
      StoredReminder.isCompleted r = false)
  /\ (In r (getActiveReminders (ReminderDesk.rows desk') now)
      <-> StoredReminder.isCompleted r = false
          /\ now <= CreateReminderDto.dueDate dto).
Proof.
  unfold createReminder.
  destruct (negb _); [discriminate |].
  destruct (_ || _); [discriminate |].
  intros H. inversion H; subst. clear H.
  cbn [ReminderDesk.rows ReminderDesk.logger].
  split; [reflexivity |]. split; [reflexivity |]. split; [reflexivity |].
  split; [intros Hp; unfold newRow; cbn; rewrite Hp; reflexivity |].
  split; [intros Hc; unfold newRow; cbn; rewrite Hc; reflexivity |].
  rewrite getActiveReminders_In, in_app_iff. cbn [In].
  unfold newRow at 3. cbn [StoredReminder.fields AdminReminder.dueDate]. tauto.
Qed.

(** X22 for a reminder for Acme, created on the sample desk. *)
Lemma createReminder_then_active_witness :
  ReminderDesk.rows
    (snd (createReminder Sample.ledger 5 Demo.forAcme Demo.emptyDesk))
  = ReminderDesk.rows Demo.emptyDesk ++ [newRow 5 Demo.forAcme]
  /\ ReminderDesk.logger
       (snd (createReminder Sample.ledger 5 Demo.forAcme Demo.emptyDesk))
     = ReminderDesk.logger Demo.emptyDesk
  /\ StoredReminder.id (newRow 5 Demo.forAcme) = 5
  /\ (CreateReminderDto.priority Demo.forAcme = None ->
      AdminReminder.priority (StoredReminder.fields (newRow 5 Demo.forAcme))
      = ReminderPriority.MEDIUM)
  /\ (CreateReminderDto.isCompleted Demo.forAcme = None ->
      StoredReminder.isCompleted (newRow 5 Demo.forAcme) = false)
  /\ (In (newRow 5 Demo.forAcme)
         (getActiveReminders
            (ReminderDesk.rows
               (snd (createReminder Sample.ledger 5 Demo.forAcme Demo.emptyDesk)))
            Sample.now)
      <-> StoredReminder.isCompleted (newRow 5 Demo.forAcme) = false
          /\ Sample.now <= CreateReminderDto.dueDate Demo.forAcme).
Proof.
  apply (createReminder_then_active Sample.ledger 5 Sample.now Demo.forAcme
           Demo.emptyDesk
           (snd (createReminder Sample.ledger 5 Demo.forAcme Demo.emptyDesk))
           (newRow 5 Demo.forAcme)).
  reflexivity.
Defined.

End ReminderAdminFacts.

(* ===================================================================== *)
(** ** InfluencersService and PaymentsService *)
(* ===================================================================== *)

Section PaymentFacts.

Import InfluencersService PaymentsService.

(** The sum of the payments of influencer [id] that [keep] keeps. *)
Lemma sumByStatus_total (id : Z) (status : PaymentStatus.t)
    (table : list Payment.t) :
  JsNumber.or_zero (sumByStatus id status table)
  = Prisma.total
      (map Payment.amountNrs
           (filter (fun p => (Payment.influencerId p =? id)
                             && PaymentStatus.eqb (Payment.status p) status)
                   table)).
Proof. unfold sumByStatus. apply or_zero_aggregate. Qed.

Lemma status_partition (id : Z) (table : list Payment.t) :
  JsNumber.or_zero (sumByStatus id PaymentStatus.PAID table)
  + JsNumber.or_zero (sumByStatus id PaymentStatus.PENDING table)
  + JsNumber.or_zero (sumByStatus id PaymentStatus.OVERDUE table)
  = Prisma.total
      (map Payment.amountNrs
           (filter (fun p => (Payment.influencerId p =? id)
                             && negb (PaymentStatus.eqb (Payment.status p)
                                        PaymentStatus.CANCELLED))
                   table)).
Proof.
  rewrite !sumByStatus_total.
  induction table as [| p table IH]; simpl; [reflexivity |].
  destruct (Payment.influencerId p =? id); simpl; [| exact IH].
  destruct (Payment.status p); simpl; lia.
Qed.

(** X23. getInfluencerStats, when it returns, reports the influencer found
    under the id, the number of their collaborations, and three sums over
    their payments whose total is the sum of all their payments that are
    not CANCELLED: cancelled payments enter no figure, and every other
    payment enters exactly one. *)
Theorem getInfluencerStats_partition (db : Campaigns) (id : Z)
    (influencer : Influencer.t) (stats : InfluencerStats.t) :
  getInfluencerStats db id = Ok (influencer, stats) ->
  In influencer (influencers db)
  /\ Influencer.id influencer = id
  /\ InfluencerStats.totalCollaborations stats
     = Z.of_nat (List.length
                   (filter (fun c => Collaboration.influencerId c =? id)
                           (collaborations db)))
  /\ InfluencerStats.totalEarnings stats
     + InfluencerStats.pendingPayments stats
     + InfluencerStats.overduePayments stats
     = Prisma.total
         (map Payment.amountNrs
              (filter (fun p => (Payment.influencerId p =? id)
                                && negb (PaymentStatus.eqb (Payment.status p)
                                           PaymentStatus.CANCELLED))
                      (payments db))).
Proof.
  unfold getInfluencerStats, findOne.
  destruct (Prisma.findUnique Influencer.id id (influencers db)) as [i |] eqn:E;
    [| discriminate].
  intros H. inversion H; subst. clear H.
  apply findUnique_key in E. destruct E as [Hin Hid].
  split; [exact Hin |]. split; [exact Hid |]. split; [reflexivity |].
  cbn [InfluencerStats.totalEarnings InfluencerStats.pendingPayments
       InfluencerStats.overduePayments].
  apply status_partition.
Qed.

(** X23 for Ila: 1000 paid, 800 pending, 200 overdue, 50 cancelled. *)
Lemma getInfluencerStats_partition_witness :
  In Demo.ila (influencers Demo.campaigns)
  /\ Influencer.id Demo.ila = 1
  /\ InfluencerStats.totalCollaborations (InfluencerStats.mk 1 1000 800 200)
     = Z.of_nat (List.length
                   (filter (fun c => Collaboration.influencerId c =? 1)
                           (collaborations Demo.campaigns)))
  /\ InfluencerStats.totalEarnings (InfluencerStats.mk 1 1000 800 200)
     + InfluencerStats.pendingPayments (InfluencerStats.mk 1 1000 800 200)
     + InfluencerStats.overduePayments (InfluencerStats.mk 1 1000 800 200)
     = Prisma.total
         (map Payment.amountNrs
              (filter (fun p => (Payment.influencerId p =? 1)
                                && negb (PaymentStatus.eqb (Payment.status p)
                                           PaymentStatus.CANCELLED))
                      (payments Demo.campaigns))).
Proof.
  apply (getInfluencerStats_partition Demo.campaigns 1 Demo.ila
           (InfluencerStats.mk 1 1000 800 200)).
  vm_compute. reflexivity.
Defined.



Lemma swept_not_late (today : Z) (p : Payment.t) :
  lateWhere today (swept today p) = false.
Proof.
  unfold swept. destruct (lateWhere today p) eqn:E; [reflexivity | exact E].
Qed.

Lemma filter_none {A : Type} (p : A -> bool) (l : list A) :
  (forall x, In x l -> p x = false) -> filter p l = [].
Proof.
  induction l as [| x l IH]; simpl; intros Hnone; [reflexivity |].
  rewrite (Hnone x (or_introl eq_refl)). apply IH.
  intros y Hy. apply Hnone. right. exact Hy.
Qed.

Lemma markAsOverdue_rows (table : list Payment.t) (today : Z) :
  snd (markAsOverdue table today) = map (swept today) table.
Proof. reflexivity. Qed.

(** X25. markAsOverdue reports as its count the number of payments that
    getOverduePayments lists at the same instant; after it, at that
    instant, getOverduePayments lists nothing, and a second sweep changes
    nothing and counts 0. *)
Theorem markAsOverdue_settles (table : list Payment.t) (today : Z) :
  fst (markAsOverdue table today)
  = Z.of_nat (List.length (getOverduePayments table today))
  /\ getOverduePayments (snd (markAsOverdue table today)) today = []
  /\ markAsOverdue (snd (markAsOverdue table today)) today
     = (0, snd (markAsOverdue table today)).
Proof.
  assert (filter (lateWhere today) (map (swept today) table) = []) as Hnone.
  { apply filter_none. intros x Hx. apply in_map_iff in Hx.
    destruct Hx as [p [<- _]]. apply swept_not_late. }
  split; [| split].
  - unfold markAsOverdue, getOverduePayments, Prisma.count. cbn [fst].
    f_equal. symmetry. apply Permutation_length. apply sort_perm.
  - rewrite markAsOverdue_rows. unfold getOverduePayments.
    rewrite Hnone. reflexivity.
  - rewrite markAsOverdue_rows. unfold markAsOverdue.
    unfold Prisma.count. rewrite Hnone. cbn [List.length Z.of_nat].
    f_equal. rewrite map_map.
    change (map (fun x => swept today (swept today x)) table
            = map (swept today) table).
    apply map_ext. intros p. unfold swept at 1.
    rewrite swept_not_late. reflexivity.
Qed.






Example sweep_run :
  fst (markAsOverdue (payments Demo.campaigns) Sample.now) = 2
  /\ map Payment.id (getOverduePayments (payments Demo.campaigns) Sample.now)
     = [2; 6]
  /\ getInfluencerStats
       (mkCampaigns (influencers Demo.campaigns) (collaborations Demo.campaigns)
                    (snd (markAsOverdue (payments Demo.campaigns) Sample.now)))
       1
     = Ok (Demo.ila, InfluencerStats.mk 1 1000 300 700).
Proof. vm_compute. repeat split. Qed.

End PaymentFacts.

(* ===================================================================== *)
(** ** RemindersService: stages and expiry dates *)
(* ===================================================================== *)

Section StageFacts.

Import RemindersService.

(** X27. For a fixed contract length, more days remaining never mean a
    higher priority; priority and stage always go together as URGENT/FINAL,
    HIGH/MIDPOINT or MEDIUM/INITIAL, so LOW is never assigned. *)
Theorem getPriorityAndStages_monotone (totalDays d1 d2 : Z) :
  d1 <= d2 ->
  ReminderAdmin.priorityRank
    (PriorityAndStage.priority (getPriorityAndStages totalDays d2))
  <= ReminderAdmin.priorityRank
       (PriorityAndStage.priority (getPriorityAndStages totalDays d1))
  /\ (getPriorityAndStages totalDays d1
      = PriorityAndStage.mk ReminderPriority.URGENT ReminderStage.FINAL
      \/ getPriorityAndStages totalDays d1
         = PriorityAndStage.mk ReminderPriority.HIGH ReminderStage.MIDPOINT
      \/ getPriorityAndStages totalDays d1
         = PriorityAndStage.mk ReminderPriority.MEDIUM ReminderStage.INITIAL).
Proof.
  intros Hle. unfold getPriorityAndStages.
  rewrite floor_half, floor_quarter.
  destruct (Z.leb_spec d1 (totalDays / 4)), (Z.leb_spec d1 (totalDays / 2)),
    (Z.leb_spec d2 (totalDays / 4)), (Z.leb_spec d2 (totalDays / 2));
    cbn; split; try lia; tauto.
Qed.

(** X27 for a 100-day contract at 30 and 60 days remaining. *)
Lemma getPriorityAndStages_monotone_witness :
  ReminderAdmin.priorityRank
    (PriorityAndStage.priority (getPriorityAndStages 100 60))
  <= ReminderAdmin.priorityRank
       (PriorityAndStage.priority (getPriorityAndStages 100 30))
  /\ (getPriorityAndStages 100 30
      = PriorityAndStage.mk ReminderPriority.URGENT ReminderStage.FINAL
      \/ getPriorityAndStages 100 30
         = PriorityAndStage.mk ReminderPriority.HIGH ReminderStage.MIDPOINT
      \/ getPriorityAndStages 100 30
         = PriorityAndStage.mk ReminderPriority.MEDIUM ReminderStage.INITIAL).
Proof.
  apply (getPriorityAndStages_monotone 100 30 60). lia.
Defined.



End StageFacts.
